(** * SARAS onboarding: validators, formatters and the step controller

    A shallow embedding of the client-side onboarding logic of the SARAS
    web application (TypeScript / React), and the properties its
    specification states about it.

    Layout:
    - [JS]: the fragment of the JavaScript runtime the components use
      (UTF-16 strings, [String.prototype] helpers, [parseInt], regular
      expressions);
    - one module per React component, holding the functions of that
      component with the names they have in the source;
    - [Spec]: readings of the specification's own wording, used where a
      statement of the specification is compared with the code;
    - the lemmas and theorems. *)

From Stdlib Require Import ZArith NArith List String Ascii Bool Lia.
Import ListNotations.

Open Scope Z_scope.

(* ===================================================================== *)
(** * The JavaScript fragment *)
(* ===================================================================== *)

Module JS.

(** A JavaScript string is a sequence of UTF-16 code units. *)
Definition char := N.
Bind Scope N_scope with char.
Definition jsstring := list char.

(** Source literals (all of them ASCII) are written as Rocq strings. *)
Definition lit (s : string) : jsstring :=
  map N_of_ascii (list_ascii_of_string s).

Definition char_eqb (a b : char) : bool := N.eqb a b.

Definition between (lo hi c : char) : bool :=
  (N.leb lo c && N.leb c hi)%bool.

(** [\d] and [[0-9]]: the ten ASCII digits. *)
Definition isDigit (c : char) : bool := between 48 57 c.

(** [\D] and [[^0-9]]. *)
Definition isNonDigit (c : char) : bool := negb (isDigit c).

(** [[A-Z]] and [[a-z]]. *)
Definition isUpper (c : char) : bool := between 65 90 c.
Definition isLower (c : char) : bool := between 97 122 c.

(** LineTerminator: LF, CR, LS, PS. *)
Definition isLineTerminator (c : char) : bool :=
  (char_eqb c 10 || char_eqb c 13 || char_eqb c 8232 || char_eqb c 8233)%bool.

(** [\s]: WhiteSpace (TAB, VT, FF, SP, NBSP, ZWNBSP and the Unicode space
    separators) together with LineTerminator.  [trim] strips the same
    set. *)
Definition isWhiteSpace (c : char) : bool :=
  (char_eqb c 9 || char_eqb c 11 || char_eqb c 12 || char_eqb c 32
   || char_eqb c 160 || char_eqb c 5760 || between 8192 8202 c
   || char_eqb c 8239 || char_eqb c 8287 || char_eqb c 12288
   || char_eqb c 65279 || isLineTerminator c)%bool.

(** [.] without the [s] flag: anything but a line terminator. *)
Definition isDot (c : char) : bool := negb (isLineTerminator c).

(** Membership in a bracket class that lists its characters. *)
Definition oneOf (cs : jsstring) (c : char) : bool := existsb (char_eqb c) cs.

(** ** Strings *)

(** Truthiness of a string: only the empty string is falsy. *)
Definition truthy (s : jsstring) : bool :=
  match s with [] => false | _ :: _ => true end.

(** [a === b] on strings. *)
Definition str_eqb (a b : jsstring) : bool :=
  if list_eq_dec N.eq_dec a b then true else false.

(** [s.replace(/[class]/g, '')] for a one-character class: every
    character of the class is deleted. *)
Definition removeAll (cls : char -> bool) (s : jsstring) : jsstring :=
  filter (fun c => negb (cls c)) s.

Fixpoint trimStart (s : jsstring) : jsstring :=
  match s with
  | [] => []
  | c :: r => if isWhiteSpace c then trimStart r else s
  end.

Definition trimEnd (s : jsstring) : jsstring := rev (trimStart (rev s)).

Definition trim (s : jsstring) : jsstring := trimEnd (trimStart s).

(** [s.substr(start, len)] for non-negative arguments. *)
Definition substr (s : jsstring) (start len : nat) : jsstring :=
  firstn len (skipn start s).

(** [s.charAt(i)]: the one-character string at [i], or the empty string. *)
Definition charAt (s : jsstring) (i : nat) : jsstring :=
  match nth_error s i with Some c => [c] | None => [] end.

(** [s.split(sep)] for a one-character separator. *)
Fixpoint split (sep : char) (s : jsstring) : list jsstring :=
  match s with
  | [] => [[]]
  | c :: r =>
      if char_eqb c sep then [] :: split sep r
      else match split sep r with
           | h :: t => (c :: h) :: t
           | [] => [[c]]
           end
  end.

(** [parts.join(sep)]. *)
Fixpoint join (sep : jsstring) (parts : list jsstring) : jsstring :=
  match parts with
  | [] => []
  | x :: rest =>
      match rest with
      | [] => x
      | _ :: _ => x ++ sep ++ join sep rest
      end
  end.

(** [s.match(/.{1,4}/g) || []]: scanning from the left, each match takes
    greedily up to four characters that are not line terminators; at a
    line terminator no match starts and the scan moves one character
    on. *)
Fixpoint matchDot1to4 (s : jsstring) : list jsstring :=
  match s with
  | [] => []
  | a :: r1 =>
    if isDot a then
      match r1 with
      | [] => [[a]]
      | b :: r2 =>
        if isDot b then
          match r2 with
          | [] => [[a; b]]
          | c :: r3 =>
            if isDot c then
              match r3 with
              | [] => [[a; b; c]]
              | d :: r4 =>
                if isDot d then [a; b; c; d] :: matchDot1to4 r4
                else [a; b; c] :: matchDot1to4 r4
              end
            else [a; b] :: matchDot1to4 r3
          end
        else [a] :: matchDot1to4 r2
      end
    else matchDot1to4 r1
  end.

(** ** Numbers *)

(** The numbers the components compute with are small integers, or [NaN]
    when [parseInt] finds no digit. *)
Inductive number : Type :=
| NaN : number
| Num : Z -> number.

Definition nadd (a b : number) : number :=
  match a, b with Num x, Num y => Num (x + y) | _, _ => NaN end.

Definition nsub (a b : number) : number :=
  match a, b with Num x, Num y => Num (x - y) | _, _ => NaN end.

Definition nmul (a b : number) : number :=
  match a, b with Num x, Num y => Num (x * y) | _, _ => NaN end.

(** [a % b]: the remainder has the sign of the dividend. *)
Definition nrem (a b : number) : number :=
  match a, b with
  | Num x, Num y => if y =? 0 then NaN else Num (Z.rem x y)
  | _, _ => NaN
  end.

(** Comparisons with [NaN] are false. *)
Definition nlt (a b : number) : bool :=
  match a, b with Num x, Num y => x <? y | _, _ => false end.

Definition ngt (a b : number) : bool := nlt b a.

Definition nseq (a b : number) : bool :=
  match a, b with Num x, Num y => x =? y | _, _ => false end.

(** Value of a character as a digit in bases up to 36. *)
Definition digitValue (c : char) : option Z :=
  if isDigit c then Some (Z.of_N c - 48)
  else if isLower c then Some (Z.of_N c - 97 + 10)
  else if isUpper c then Some (Z.of_N c - 65 + 10)
  else None.

(** The longest prefix of digits of base [radix], accumulated left to
    right; [None] when the prefix is empty. *)
Fixpoint parseDigits (radix : Z) (acc : option Z) (s : jsstring) : option Z :=
  match s with
  | [] => acc
  | c :: r =>
      match digitValue c with
      | Some d =>
          if d <? radix
          then parseDigits radix
                 (Some (match acc with Some a => a * radix + d | None => d end)) r
          else acc
      | None => acc
      end
  end.

Definition startsWithHexPrefix (s : jsstring) : bool :=
  match s with
  | z :: x :: _ => (char_eqb z 48 && (char_eqb x 120 || char_eqb x 88))%bool
  | _ => false
  end.

(** [parseInt(s, radix)]; [radix = None] is the one-argument call.
    Leading white space and a sign are skipped; without a radix (or with
    radix 16) a [0x] prefix selects base 16; the result is [NaN] when no
    digit follows. *)
Definition parseInt (s : jsstring) (radix : option Z) : number :=
  let s1 := trimStart s in
  let '(sign, s2) :=
    match s1 with
    | c :: r => if char_eqb c 45 then (-1, r)
                else if char_eqb c 43 then (1, r) else (1, s1)
    | [] => (1, s1)
    end in
  let r0 := match radix with Some r => r | None => 0 end in
  if ((r0 =? 0) || ((2 <=? r0) && (r0 <=? 36)))%bool then
    let stripPrefix := ((r0 =? 0) || (r0 =? 16))%bool in
    let r1 := if r0 =? 0 then 10 else r0 in
    let '(r2, s3) :=
      if (stripPrefix && startsWithHexPrefix s2)%bool
      then (16, skipn 2 s2) else (r1, s2) in
    match parseDigits r2 None s3 with
    | Some v => Num (sign * v)
    | None => NaN
    end
  else NaN.

(** [parseInt] applied to a possibly missing array element:
    [undefined] is converted to the string ["undefined"], which has no
    leading digit. *)
Definition parseIntOpt (s : option jsstring) (radix : option Z) : number :=
  match s with Some s' => parseInt s' radix | None => NaN end.

(** ** Regular expressions *)

(** Pattern bodies, with character classes as predicates. *)
Inductive regex : Type :=
| Void : regex
| Eps : regex
| Cls : (char -> bool) -> regex
| Cat : regex -> regex -> regex
| Alt : regex -> regex -> regex
| Star : regex -> regex.

(** [r+], [r?] and [r{n}] followed by [k]. *)
Definition Plus (r : regex) : regex := Cat r (Star r).
Definition Opt (r : regex) : regex := Alt r Eps.

Fixpoint times (n : nat) (r k : regex) : regex :=
  match n with
  | O => k
  | S n' => Cat r (times n' r k)
  end.

Definition Chr (c : char) : regex := Cls (fun x => char_eqb x c).

(** The strings a pattern body matches in full. *)
Inductive Lang : regex -> jsstring -> Prop :=
| L_Eps : Lang Eps []
| L_Cls p c : p c = true -> Lang (Cls p) [c]
| L_Cat r1 r2 s1 s2 : Lang r1 s1 -> Lang r2 s2 -> Lang (Cat r1 r2) (s1 ++ s2)
| L_AltL r1 r2 s : Lang r1 s -> Lang (Alt r1 r2) s
| L_AltR r1 r2 s : Lang r2 s -> Lang (Alt r1 r2) s
| L_Star0 r : Lang (Star r) []
| L_StarS r s1 s2 : Lang r s1 -> Lang (Star r) s2 -> Lang (Star r) (s1 ++ s2).

(** Matching by derivatives. *)
Fixpoint nullable (r : regex) : bool :=
  match r with
  | Void => false
  | Eps => true
  | Cls _ => false
  | Cat r1 r2 => (nullable r1 && nullable r2)%bool
  | Alt r1 r2 => (nullable r1 || nullable r2)%bool
  | Star _ => true
  end.

Fixpoint deriv (c : char) (r : regex) : regex :=
  match r with
  | Void => Void
  | Eps => Void
  | Cls p => if p c then Eps else Void
  | Cat r1 r2 =>
      if nullable r1
      then Alt (Cat (deriv c r1) r2) (deriv c r2)
      else Cat (deriv c r1) r2
  | Alt r1 r2 => Alt (deriv c r1) (deriv c r2)
  | Star r1 => Cat (deriv c r1) (Star r1)
  end.

Fixpoint fullMatch (r : regex) (s : jsstring) : bool :=
  match s with
  | [] => nullable r
  | c :: s' => fullMatch (deriv c r) s'
  end.

(** A regular expression literal without flags: the body and whether it
    starts with [^] and ends with [$]. *)
Record RegExp : Type := mkRegExp {
  anchoredStart : bool;
  body : regex;
  anchoredEnd : bool
}.

Definition anyChar : regex := Cls (fun _ => true).

(** [re.test(s)]: some substring matches the body, starting at the
    beginning of [s] if the pattern is anchored there and ending at the
    end of [s] if it is anchored there. *)
Definition test (re : RegExp) (s : jsstring) : bool :=
  let r1 := if anchoredEnd re then body re else Cat (body re) (Star anyChar) in
  let r2 := if anchoredStart re then r1 else Cat (Star anyChar) r1 in
  fullMatch r2 s.

(** [s.slice(-n)] for a positive [n]: the last [n] characters, or the
    whole string when it is shorter. *)
Definition sliceLast (n : nat) (s : jsstring) : jsstring :=
  skipn (List.length s - n) s.

End JS.

Import JS.

(* ===================================================================== *)
(** * The data model *)
(* ===================================================================== *)

(** [OnboardingData] and its five sections, as declared in
    [onboarding-flow.tsx] and repeated in each step component. *)

Record PersonalInfoData : Type := mkPersonalInfo {
  firstName : jsstring;
  lastName : jsstring;
  email : jsstring
}.

Record AccountSetupData : Type := mkAccountSetup {
  password : jsstring;
  confirmPassword : jsstring
}.

Record BillingAddressData : Type := mkBillingAddress {
  addressLine1 : jsstring;
  addressLine2 : jsstring;
  city : jsstring;
  state : jsstring;
  zipCode : jsstring;
  country : jsstring
}.

Record PaymentInfoData : Type := mkPaymentInfo {
  cardNumber : jsstring;
  expiryDate : jsstring;
  cvv : jsstring;
  cardholderName : jsstring
}.

Record OnboardingData : Type := mkOnboardingData {
  personalInfo : PersonalInfoData;
  accountSetup : AccountSetupData;
  billingAddress : BillingAddressData;
  paymentInfo : PaymentInfoData;
  termsAccepted : bool
}.

(** What [new Date()] is read for: [getFullYear()] and [getMonth()]
    (January is 0). *)
Record Date : Type := mkDate {
  getFullYear : Z;
  getMonth : Z
}.

(** [!value.trim()] *)
Definition blank (value : jsstring) : bool := negb (truthy (trim value)).

(* ===================================================================== *)
(** * PersonalInfoStep *)
(* ===================================================================== *)

Module PersonalInfoStep.

Inductive Field : Type := FirstName | LastName | Email.

(** [data[field]] *)
Definition get (data : PersonalInfoData) (field : Field) : jsstring :=
  match field with
  | FirstName => firstName data
  | LastName => lastName data
  | Email => email data
  end.

(** [/^[^\s@]+@[^\s@]+\.[^\s@]+$/] *)
Definition notSpaceNorAt (c : char) : bool :=
  negb (isWhiteSpace c || char_eqb c 64)%bool.

Definition emailRegex : RegExp :=
  mkRegExp true
    (Cat (Plus (Cls notSpaceNorAt))
      (Cat (Chr 64)
        (Cat (Plus (Cls notSpaceNorAt))
          (Cat (Chr 46) (Plus (Cls notSpaceNorAt))))))
    true.

Definition validateField (field : Field) (value : jsstring) : option string :=
  match field with
  | FirstName =>
      if blank value then Some "First name is required"%string
      else if (List.length (trim value) <? 2)%nat
      then Some "First name must be at least 2 characters"%string
      else None
  | LastName =>
      if blank value then Some "Last name is required"%string
      else if (List.length (trim value) <? 2)%nat
      then Some "Last name must be at least 2 characters"%string
      else None
  | Email =>
      if blank value then Some "Email address is required"%string
      else if negb (test emailRegex value)
      then Some "Please enter a valid email address"%string
      else None
  end.

(** [Object.keys(data)] *)
Definition keys : list Field := [FirstName; LastName; Email].

(** [validateForm]: the errors collected field by field, and [isValid]. *)
Definition validateForm (data : PersonalInfoData)
  : list (Field * string) * bool :=
  fold_left
    (fun (acc : list (Field * string) * bool) field =>
       match validateField field (get data field) with
       | Some error => (fst acc ++ [(field, error)], false)
       | None => acc
       end)
    keys ([], true).

End PersonalInfoStep.

(* ===================================================================== *)
(** * AccountSetupStep *)
(* ===================================================================== *)

Module AccountSetupStep.

Record Criterion : Type := mkCriterion {
  id : string;
  label : string;
  criterionTest : jsstring -> bool
}.

(** The bracket class of the "special" criterion: the characters
    ! @ # $ % ^ & * ( ) , . ? : { } | < > and the (escaped) double quote,
    code 34. *)
Definition specialChars : jsstring :=
  lit "!@#$%^&*(),.?" ++ [34%N] ++ lit ":{}|<>".

Definition PASSWORD_CRITERIA : list Criterion :=
  [ mkCriterion "length" "At least 8 characters"
      (fun pwd => (8 <=? List.length pwd)%nat);
    mkCriterion "uppercase" "One uppercase letter"
      (fun pwd => test (mkRegExp false (Cls isUpper) false) pwd);
    mkCriterion "lowercase" "One lowercase letter"
      (fun pwd => test (mkRegExp false (Cls isLower) false) pwd);
    mkCriterion "number" "One number"
      (fun pwd => test (mkRegExp false (Cls isDigit) false) pwd);
    mkCriterion "special" "One special character"
      (fun pwd => test (mkRegExp false (Cls (oneOf specialChars)) false) pwd) ].

Definition getPasswordStrength (password : jsstring) : Z :=
  if negb (truthy password) then 0
  else
    let metCriteria :=
      filter (fun criteria => criterionTest criteria password)
             PASSWORD_CRITERIA in
    Z.of_nat (List.length metCriteria).

Record StrengthDisplay : Type := mkDisplay {
  displayLabel : string;
  color : string;
  bgColor : string
}.

Definition getPasswordStrengthDisplay (score : Z) : StrengthDisplay :=
  if score <=? 1 then mkDisplay "Weak" "text-red-500" "bg-red-500"
  else if score <=? 3 then mkDisplay "Fair" "text-yellow-500" "bg-yellow-500"
  else if score <=? 4 then mkDisplay "Good" "text-blue-500" "bg-blue-500"
  else mkDisplay "Strong" "text-green-500" "bg-green-500".

(** [Partial<AccountSetupData>] as built by [validateForm]. *)
Record Errors : Type := mkErrors {
  passwordError : option string;
  confirmPasswordError : option string
}.

Definition validateForm (data : AccountSetupData) : Errors * bool :=
  let '(e1, v1) :=
    if negb (truthy (password data))
    then (Some "Password is required"%string, false)
    else if getPasswordStrength (password data) <? 5
    then (Some "Password must meet all security requirements"%string, false)
    else (None, true) in
  let '(e2, v2) :=
    if negb (truthy (confirmPassword data))
    then (Some "Password confirmation is required"%string, false)
    else if negb (str_eqb (password data) (confirmPassword data))
    then (Some "Passwords do not match"%string, false)
    else (None, v1) in
  (mkErrors e1 e2, v2).

End AccountSetupStep.

(* ===================================================================== *)
(** * BillingAddressStep *)
(* ===================================================================== *)

Module BillingAddressStep.

Inductive Field : Type :=
  AddressLine1 | AddressLine2 | City | State | ZipCode | Country.

Definition get (data : BillingAddressData) (field : Field) : jsstring :=
  match field with
  | AddressLine1 => addressLine1 data
  | AddressLine2 => addressLine2 data
  | City => city data
  | State => state data
  | ZipCode => zipCode data
  | Country => country data
  end.

(** [/^\d{5}(-\d{4})?$/] *)
Definition usZipRegex : RegExp :=
  mkRegExp true
    (times 5 (Cls isDigit) (Opt (Cat (Chr 45) (times 4 (Cls isDigit) Eps))))
    true.

Definition validateField (data : BillingAddressData) (field : Field)
    (value : jsstring) : option string :=
  match field with
  | AddressLine1 =>
      if blank value then Some "Street address is required"%string
      else if (List.length (trim value) <? 5)%nat
      then Some "Please enter a complete street address"%string
      else None
  | City =>
      if blank value then Some "City is required"%string
      else if (List.length (trim value) <? 2)%nat
      then Some "Please enter a valid city name"%string
      else None
  | State =>
      if blank value then Some "State/Province is required"%string
      else None
  | ZipCode =>
      if blank value then Some "ZIP/Postal code is required"%string
      else if str_eqb (country data) (lit "United States")
      then
        if negb (test usZipRegex value)
        then Some "Please enter a valid ZIP code (12345 or 12345-6789)"%string
        else None
      else if (List.length (trim value) <? 3)%nat
      then Some "Please enter a valid postal code"%string
      else None
  | Country =>
      if blank value then Some "Country is required"%string
      else None
  | AddressLine2 => None
  end.

Definition requiredFields : list Field :=
  [AddressLine1; City; State; ZipCode; Country].

Definition validateForm (data : BillingAddressData)
  : list (Field * string) * bool :=
  fold_left
    (fun (acc : list (Field * string) * bool) field =>
       match validateField data field (get data field) with
       | Some error => (fst acc ++ [(field, error)], false)
       | None => acc
       end)
    requiredFields ([], true).

End BillingAddressStep.

(* ===================================================================== *)
(** * PaymentInfoStep *)
(* ===================================================================== *)

Module PaymentInfoStep.

Inductive Field : Type := CardNumber | ExpiryDate | Cvv | CardholderName.

Definition field_eqb (a b : Field) : bool :=
  match a, b with
  | CardNumber, CardNumber | ExpiryDate, ExpiryDate
  | Cvv, Cvv | CardholderName, CardholderName => true
  | _, _ => false
  end.

(** [data[field]] *)
Definition get (data : PaymentInfoData) (field : Field) : jsstring :=
  match field with
  | CardNumber => cardNumber data
  | ExpiryDate => expiryDate data
  | Cvv => cvv data
  | CardholderName => cardholderName data
  end.

(** [{ ...data, [field]: value }] *)
Definition set (data : PaymentInfoData) (field : Field) (value : jsstring)
  : PaymentInfoData :=
  match field with
  | CardNumber =>
      mkPaymentInfo value (expiryDate data) (cvv data) (cardholderName data)
  | ExpiryDate =>
      mkPaymentInfo (cardNumber data) value (cvv data) (cardholderName data)
  | Cvv =>
      mkPaymentInfo (cardNumber data) (expiryDate data) value
                    (cardholderName data)
  | CardholderName =>
      mkPaymentInfo (cardNumber data) (expiryDate data) (cvv data) value
  end.

(** Format card number with spaces. *)
Definition formatCardNumber (value : jsstring) : jsstring :=
  let cleanValue := removeAll isNonDigit (removeAll isWhiteSpace value) in
  let chunks := matchDot1to4 cleanValue in
  substr (join (lit " ") chunks) 0 19.

(** Format expiry date as MM/YY. *)
Definition formatExpiryDate (value : jsstring) : jsstring :=
  let cleanValue := removeAll isNonDigit value in
  if (2 <=? List.length cleanValue)%nat
  then substr cleanValue 0 2 ++ lit "/" ++ substr cleanValue 2 2
  else cleanValue.

(** [/^\d+$/] *)
Definition allDigitsRegex : RegExp := mkRegExp true (Plus (Cls isDigit)) true.

(** One iteration of the checksum loop, at index [i]. *)
Definition luhnIteration (cleanNumber : jsstring) (st : number * bool)
    (i : nat) : number * bool :=
  let '(sum, shouldDouble) := st in
  let digit := parseInt (charAt cleanNumber i) (Some 10) in
  let digit :=
    if shouldDouble then
      let digit := nmul digit (Num 2) in
      if ngt digit (Num 9) then nsub digit (Num 9) else digit
    else digit in
  (nadd sum digit, negb shouldDouble).

(** The indices [length - 1, ..., 0] the loop visits. *)
Definition downFrom (n : nat) : list nat := rev (seq 0 n).

(** Validate Luhn algorithm for card number. *)
Definition isValidCardNumber (cardNumber : jsstring) : bool :=
  let cleanNumber := removeAll isWhiteSpace cardNumber in
  if (negb (test allDigitsRegex cleanNumber)
      || (List.length cleanNumber <? 13)%nat
      || (19 <? List.length cleanNumber)%nat)%bool
  then false
  else
    let '(sum, _) :=
      fold_left (luhnIteration cleanNumber)
                (downFrom (List.length cleanNumber)) (Num 0, false) in
    nseq (nrem sum (Num 10)) (Num 0).

(** [/^\d{2}\/\d{2}$/] *)
Definition expiryRegex : RegExp :=
  mkRegExp true
    (times 2 (Cls isDigit) (Cat (Chr 47) (times 2 (Cls isDigit) Eps)))
    true.

(** [/^\d{3,4}$/] *)
Definition cvvRegex : RegExp :=
  mkRegExp true (times 3 (Cls isDigit) (Opt (Cls isDigit))) true.

(** Validate individual field; [now] is the value of [new Date()]. *)
Definition validateField (now : Date) (field : Field) (value : jsstring)
  : option string :=
  match field with
  | CardNumber =>
      if blank value then Some "Card number is required"%string
      else if negb (isValidCardNumber value)
      then Some "Please enter a valid card number"%string
      else None
  | ExpiryDate =>
      if blank value then Some "Expiry date is required"%string
      else if negb (test expiryRegex value)
      then Some "Please enter date as MM/YY"%string
      else
        let parts := split 47 value in
        let month := nth_error parts 0 in
        let year := nth_error parts 1 in
        let currentYear := nrem (Num (getFullYear now)) (Num 100) in
        let currentMonth := nadd (Num (getMonth now)) (Num 1) in
        if (nlt (parseIntOpt month None) (Num 1)
            || ngt (parseIntOpt month None) (Num 12))%bool
        then Some "Invalid month"%string
        else if (nlt (parseIntOpt year None) currentYear
                 || (nseq (parseIntOpt year None) currentYear
                     && nlt (parseIntOpt month None) currentMonth))%bool
        then Some "Card has expired"%string
        else None
  | Cvv =>
      if blank value then Some "CVV is required"%string
      else if negb (test cvvRegex value)
      then Some "CVV must be 3 or 4 digits"%string
      else None
  | CardholderName =>
      if blank value then Some "Cardholder name is required"%string
      else if (List.length (trim value) <? 2)%nat
      then Some "Please enter the full name on the card"%string
      else None
  end.

(** [Object.keys(data)] *)
Definition keys : list Field := [CardNumber; ExpiryDate; Cvv; CardholderName].

Definition validateForm (now : Date) (data : PaymentInfoData)
  : list (Field * string) * bool :=
  fold_left
    (fun (acc : list (Field * string) * bool) field =>
       match validateField now field (get data field) with
       | Some error => (fst acc ++ [(field, error)], false)
       | None => acc
       end)
    keys ([], true).

(** The component's own state: [errors] and [touched]. *)
Record Local : Type := mkLocal {
  errors : Field -> option string;
  touched : Field -> bool
}.

Definition setError (errs : Field -> option string) (field : Field)
    (e : option string) : Field -> option string :=
  fun f => if field_eqb f field then e else errs f.

Definition hasError (e : option string) : bool :=
  match e with
  | Some (String _ _) => true
  | _ => false
  end.

(** Handle input change with validation: the value handed to
    [onUpdate] and the component state afterwards. *)
Definition handleInputChange (now : Date) (data : PaymentInfoData)
    (st : Local) (field : Field) (value : jsstring)
  : PaymentInfoData * Local :=
  let formattedValue :=
    match field with
    | CardNumber => formatCardNumber value
    | ExpiryDate => formatExpiryDate value
    | Cvv => substr (removeAll isNonDigit value) 0 4
    | CardholderName => value
    end in
  let updated := set data field formattedValue in
  let errors1 :=
    if hasError (errors st field) then setError (errors st) field None
    else errors st in
  let errors2 :=
    if touched st field then
      match validateField now field formattedValue with
      | Some error => setError errors1 field (Some error)
      | None => errors1
      end
    else errors1 in
  (updated, mkLocal errors2 (touched st)).

(** Card type detection patterns, in the order of [Object.entries]:
    [/^4/], [/^5[1-5]|^2[2-7]/] (both alternatives start with [^]),
    [/^3[47]/] and [/^6(?:011|5)/]. *)
Definition CARD_PATTERNS : list (string * RegExp) :=
  [ ("visa"%string, mkRegExp true (Chr 52) false);
    ("mastercard"%string,
     mkRegExp true
       (Alt (Cat (Chr 53) (Cls (between 49 53)))
            (Cat (Chr 50) (Cls (between 50 55))))
       false);
    ("amex"%string,
     mkRegExp true (Cat (Chr 51) (Cls (oneOf (lit "47")))) false);
    ("discover"%string,
     mkRegExp true
       (Cat (Chr 54) (Alt (Cat (Chr 48) (Cat (Chr 49) (Chr 49))) (Chr 53)))
       false) ].

(** Detect card type from card number: the first pattern that matches
    the number without its white space. *)
Definition detectCardType (cardNumber : jsstring) : option string :=
  let cleanNumber := removeAll isWhiteSpace cardNumber in
  match find (fun entry => test (snd entry) cleanNumber) CARD_PATTERNS with
  | Some (type, _) => Some type
  | None => None
  end.

Definition setTouched (t : Field -> bool) (field : Field) : Field -> bool :=
  fun f => if field_eqb f field then true else t f.

(** Handle field blur: mark as touched and validate. *)
Definition handleFieldBlur (now : Date) (data : PaymentInfoData) (st : Local)
    (field : Field) : Local :=
  let touched1 := setTouched (touched st) field in
  match validateField now field (get data field) with
  | Some error =>
      if hasError (Some error)
      then mkLocal (setError (errors st) field (Some error)) touched1
      else mkLocal (errors st) touched1
  | None => mkLocal (errors st) touched1
  end.

(** [newErrors[field]] for the object built by [validateForm]. *)
Fixpoint errorsOf (newErrors : list (Field * string)) (field : Field)
  : option string :=
  match newErrors with
  | [] => None
  | (f, e) :: rest => if field_eqb f field then Some e else errorsOf rest field
  end.

(** Handle form submission: every field is marked as touched, the
    errors are replaced by those of [validateForm], and the result tells
    whether [onNext] is called. *)
Definition handleSubmit (now : Date) (data : PaymentInfoData) (st : Local)
  : Local * bool :=
  let '(newErrors, isValid) := validateForm now data in
  (mkLocal (errorsOf newErrors) (fun _ => true), isValid).

End PaymentInfoStep.

(* ===================================================================== *)
(** * TermsConfirmationStep *)
(* ===================================================================== *)

Module TermsConfirmationStep.

Record Props : Type := mkProps {
  data : OnboardingData;
  propTermsAccepted : bool;
  isSubmitting : bool;
  submitError : option string
}.

(** The calls a handler makes on its event and on its callbacks. *)
Inductive Call : Type :=
| PreventDefault : Call
| OnSubmit : Call.

(** Handle final form submission: the calls made, in order. *)
Definition handleSubmit (props : Props) : list Call :=
  PreventDefault ::
  (if negb (propTermsAccepted props) then []
   else [OnSubmit]).

(** The submit button's [disabled] attribute. *)
Definition submitDisabled (props : Props) : bool :=
  (negb (propTermsAccepted props) || isSubmitting props)%bool.

(** The bullet character U+2022. *)
Definition bullet : char := 8226%N.

(** Mask card number for display. *)
Definition maskCardNumber (cardNumber : jsstring) : jsstring :=
  let cleaned := removeAll isWhiteSpace cardNumber in
  if (List.length cleaned <? 4)%nat then cardNumber
  else
    [bullet; bullet; bullet; bullet; 32%N;
     bullet; bullet; bullet; bullet; 32%N;
     bullet; bullet; bullet; bullet; 32%N] ++ sliceLast 4 cleaned.

End TermsConfirmationStep.

(* ===================================================================== *)
(** * OnboardingFlow *)
(* ===================================================================== *)

Module OnboardingFlow.

Inductive StepId : Type :=
| PersonalInfoId | AccountSetupId | BillingAddressId | PaymentInfoId
| TermsConfirmationId.

Record StepConfig : Type := mkStep {
  id : StepId;
  title : string;
  description : string
}.

Definition ONBOARDING_STEPS : list StepConfig :=
  [ mkStep PersonalInfoId "Personal Information" "Tell us about yourself";
    mkStep AccountSetupId "Account Setup" "Create your secure account";
    mkStep BillingAddressId "Billing Address"
           "Where should we send your invoice?";
    mkStep PaymentInfoId "Payment Information" "Secure payment details";
    mkStep TermsConfirmationId "Terms & Confirmation"
           "Review and confirm your membership" ].

(** The component's state hooks. *)
Record State : Type := mkState {
  currentStep : Z;
  formData : OnboardingData;
  isSubmitting : bool;
  submitError : option string
}.

Definition initialFormData : OnboardingData :=
  mkOnboardingData
    (mkPersonalInfo [] [] [])
    (mkAccountSetup [] [])
    (mkBillingAddress [] [] [] [] [] (lit "United States"))
    (mkPaymentInfo [] [] [] [])
    false.

Definition initialState : State := mkState 0 initialFormData false None.

Definition setCurrentStep (n : Z) (s : State) : State :=
  mkState n (formData s) (isSubmitting s) (submitError s).

(** Navigate to next step. *)
Definition handleNext (s : State) : State :=
  if currentStep s <? Z.of_nat (List.length ONBOARDING_STEPS) - 1
  then setCurrentStep (currentStep s + 1) s
  else s.

(** Navigate to previous step. *)
Definition handlePrevious (s : State) : State :=
  if currentStep s >? 0
  then setCurrentStep (currentStep s - 1) s
  else s.

(** [Partial<OnboardingData>] *)
Record PartialData : Type := mkPartial {
  p_personalInfo : option PersonalInfoData;
  p_accountSetup : option AccountSetupData;
  p_billingAddress : option BillingAddressData;
  p_paymentInfo : option PaymentInfoData;
  p_termsAccepted : option bool
}.

Definition orElse {A : Type} (o : option A) (d : A) : A :=
  match o with Some x => x | None => d end.

(** [{ ...prev, ...stepData }] *)
Definition merge (prev : OnboardingData) (stepData : PartialData)
  : OnboardingData :=
  mkOnboardingData
    (orElse (p_personalInfo stepData) (personalInfo prev))
    (orElse (p_accountSetup stepData) (accountSetup prev))
    (orElse (p_billingAddress stepData) (billingAddress prev))
    (orElse (p_paymentInfo stepData) (paymentInfo prev))
    (orElse (p_termsAccepted stepData) (termsAccepted prev)).

(** Update form data for specific step. *)
Definition updateFormData (stepData : PartialData) (s : State) : State :=
  mkState (currentStep s) (merge (formData s) stepData)
          (isSubmitting s) (submitError s).

(** What [renderCurrentStep] mounts: the step component and the data it
    is handed ([None] stands for an index outside [ONBOARDING_STEPS],
    where the lookup of [.id] throws).  [PersonalInfoStep] receives [onUpdate] and [onNext];
    the three middle steps receive [onUpdate], [onNext] and [onPrevious];
    [TermsConfirmationStep] receives [onUpdate], [onSubmit] and
    [onPrevious]. *)
Inductive View : Type :=
| PersonalInfoView : PersonalInfoData -> View
| AccountSetupView : AccountSetupData -> View
| BillingAddressView : BillingAddressData -> View
| PaymentInfoView : PaymentInfoData -> View
| TermsConfirmationView : TermsConfirmationStep.Props -> View.

Definition renderCurrentStep (s : State) : option View :=
  if currentStep s <? 0 then None
  else
    match nth_error ONBOARDING_STEPS (Z.to_nat (currentStep s)) with
    | None => None
    | Some step =>
        Some
          match id step with
          | PersonalInfoId => PersonalInfoView (personalInfo (formData s))
          | AccountSetupId => AccountSetupView (accountSetup (formData s))
          | BillingAddressId =>
              BillingAddressView (billingAddress (formData s))
          | PaymentInfoId => PaymentInfoView (paymentInfo (formData s))
          | TermsConfirmationId =>
              TermsConfirmationView
                (TermsConfirmationStep.mkProps (formData s)
                   (termsAccepted (formData s)) (isSubmitting s)
                   (submitError s))
          end
    end.

(** Whether the mounted step was handed [onPrevious]. *)
Definition receivesOnPrevious (v : View) : bool :=
  match v with
  | PersonalInfoView _ => false
  | _ => true
  end.

(** The user-driven transitions of the controller. *)
Inductive Event : Type :=
| Next : Event
| Previous : Event
| Update : PartialData -> Event.

Definition step (s : State) (e : Event) : State :=
  match e with
  | Next => handleNext s
  | Previous => handlePrevious s
  | Update stepData => updateFormData stepData s
  end.

Definition run (s : State) (es : list Event) : State := fold_left step es s.

(** [{ ...first, ...second }] for two partial updates. *)
Definition spread (first second : PartialData) : PartialData :=
  mkPartial
    (match p_personalInfo second with
     | Some x => Some x | None => p_personalInfo first end)
    (match p_accountSetup second with
     | Some x => Some x | None => p_accountSetup first end)
    (match p_billingAddress second with
     | Some x => Some x | None => p_billingAddress first end)
    (match p_paymentInfo second with
     | Some x => Some x | None => p_paymentInfo first end)
    (match p_termsAccepted second with
     | Some x => Some x | None => p_termsAccepted first end).

(** [{}] *)
Definition noUpdate : PartialData := mkPartial None None None None None.

End OnboardingFlow.

(* ===================================================================== *)
(** * SinglePageOnboarding *)
(* ===================================================================== *)

(** The consolidated one-page form repeats the helpers of the step
    components in its own file; they are transcribed again here. *)

Module SinglePageOnboarding.

Definition PASSWORD_CRITERIA : list AccountSetupStep.Criterion :=
  [ AccountSetupStep.mkCriterion "length" "At least 8 characters"
      (fun pwd => (8 <=? List.length pwd)%nat);
    AccountSetupStep.mkCriterion "uppercase" "One uppercase letter"
      (fun pwd => test (mkRegExp false (Cls isUpper) false) pwd);
    AccountSetupStep.mkCriterion "lowercase" "One lowercase letter"
      (fun pwd => test (mkRegExp false (Cls isLower) false) pwd);
    AccountSetupStep.mkCriterion "number" "One number"
      (fun pwd => test (mkRegExp false (Cls isDigit) false) pwd);
    AccountSetupStep.mkCriterion "special" "One special character"
      (fun pwd =>
         test (mkRegExp false
                 (Cls (oneOf (lit "!@#$%^&*(),.?" ++ [34%N] ++ lit ":{}|<>")))
                 false) pwd) ].

Definition getPasswordStrength (password : jsstring) : Z :=
  if negb (truthy password) then 0
  else
    let metCriteria :=
      filter (fun criteria => AccountSetupStep.criterionTest criteria password)
             PASSWORD_CRITERIA in
    Z.of_nat (List.length metCriteria).

Definition isValidCardNumber (cardNumber : jsstring) : bool :=
  let cleanNumber := removeAll isWhiteSpace cardNumber in
  if (negb (test (mkRegExp true (Plus (Cls isDigit)) true) cleanNumber)
      || (List.length cleanNumber <? 13)%nat
      || (19 <? List.length cleanNumber)%nat)%bool
  then false
  else
    let '(sum, _) :=
      fold_left
        (fun (st : number * bool) (i : nat) =>
           let '(sum, shouldDouble) := st in
           let digit := parseInt (charAt cleanNumber i) (Some 10) in
           let digit :=
             if shouldDouble then
               let digit := nmul digit (Num 2) in
               if ngt digit (Num 9) then nsub digit (Num 9) else digit
             else digit in
           (nadd sum digit, negb shouldDouble))
        (rev (seq 0 (List.length cleanNumber))) (Num 0, false) in
    nseq (nrem sum (Num 10)) (Num 0).

(** The pattern literals of [validateForm]:
    [/^[^\s@]+@[^\s@]+\.[^\s@]+$/], [/^\d{2}\/\d{2}$/] and
    [/^\d{3,4}$/]. *)
Definition notSpaceNorAt (c : char) : bool :=
  negb (isWhiteSpace c || char_eqb c 64)%bool.

Definition emailRegex : RegExp :=
  mkRegExp true
    (Cat (Plus (Cls notSpaceNorAt))
      (Cat (Chr 64)
        (Cat (Plus (Cls notSpaceNorAt))
          (Cat (Chr 46) (Plus (Cls notSpaceNorAt))))))
    true.

Definition expiryRegex : RegExp :=
  mkRegExp true
    (times 2 (Cls isDigit) (Cat (Chr 47) (times 2 (Cls isDigit) Eps)))
    true.

Definition cvvRegex : RegExp :=
  mkRegExp true (times 3 (Cls isDigit) (Opt (Cls isDigit))) true.

(** The keys [validateForm] may set on [newErrors]. *)
Record Errors : Type := mkErrors {
  e_firstName : option string;
  e_lastName : option string;
  e_email : option string;
  e_password : option string;
  e_confirmPassword : option string;
  e_addressLine1 : option string;
  e_city : option string;
  e_state : option string;
  e_zipCode : option string;
  e_country : option string;
  e_cardNumber : option string;
  e_expiryDate : option string;
  e_cvv : option string;
  e_cardholderName : option string;
  e_terms : option string
}.

Definition unset (e : option string) : bool :=
  match e with None => true | Some _ => false end.

(** Validate entire form: [newErrors] and [isValid].  Every branch that
    sets a key of [newErrors] also clears [isValid], and nothing else
    does. *)
Definition validateForm (formData : OnboardingData) : Errors * bool :=
  let pi := personalInfo formData in
  let acc := accountSetup formData in
  let bill := billingAddress formData in
  let pay := paymentInfo formData in
  let newErrors :=
    mkErrors
      (if blank (firstName pi)
       then Some "First name is required"%string else None)
      (if blank (lastName pi)
       then Some "Last name is required"%string else None)
      (if blank (email pi) then Some "Email is required"%string
       else if negb (test emailRegex (email pi))
       then Some "Please enter a valid email address"%string else None)
      (if getPasswordStrength (password acc) <? 5
       then Some "Password must meet all security requirements"%string
       else None)
      (if negb (str_eqb (password acc) (confirmPassword acc))
       then Some "Passwords do not match"%string else None)
      (if blank (addressLine1 bill)
       then Some "Street address is required"%string else None)
      (if blank (city bill) then Some "City is required"%string else None)
      (if blank (state bill) then Some "State is required"%string else None)
      (if blank (zipCode bill)
       then Some "ZIP code is required"%string else None)
      (if blank (country bill)
       then Some "Country is required"%string else None)
      (if negb (isValidCardNumber (cardNumber pay))
       then Some "Please enter a valid card number"%string else None)
      (if negb (test expiryRegex (expiryDate pay))
       then Some "Please enter date as MM/YY"%string else None)
      (if negb (test cvvRegex (cvv pay))
       then Some "CVV must be 3 or 4 digits"%string else None)
      (if blank (cardholderName pay)
       then Some "Cardholder name is required"%string else None)
      (if negb (termsAccepted formData)
       then Some "You must accept the terms and conditions"%string
       else None) in
  let isValid :=
    (unset (e_firstName newErrors) && unset (e_lastName newErrors)
     && unset (e_email newErrors) && unset (e_password newErrors)
     && unset (e_confirmPassword newErrors)
     && unset (e_addressLine1 newErrors) && unset (e_city newErrors)
     && unset (e_state newErrors) && unset (e_zipCode newErrors)
     && unset (e_country newErrors) && unset (e_cardNumber newErrors)
     && unset (e_expiryDate newErrors) && unset (e_cvv newErrors)
     && unset (e_cardholderName newErrors)
     && unset (e_terms newErrors))%bool in
  (newErrors, isValid).

End SinglePageOnboarding.

(* ===================================================================== *)
(** * The two variants, field by field *)
(* ===================================================================== *)

(** The string fields of [OnboardingData], each owned by one step. *)
Inductive FormField : Type :=
| OfPersonalInfo : PersonalInfoStep.Field -> FormField
| PasswordField : FormField
| ConfirmPasswordField : FormField
| OfBillingAddress : BillingAddressStep.Field -> FormField
| OfPaymentInfo : PaymentInfoStep.Field -> FormField.

Definition allFormFields : list FormField :=
  [ OfPersonalInfo PersonalInfoStep.FirstName;
    OfPersonalInfo PersonalInfoStep.LastName;
    OfPersonalInfo PersonalInfoStep.Email;
    PasswordField; ConfirmPasswordField;
    OfBillingAddress BillingAddressStep.AddressLine1;
    OfBillingAddress BillingAddressStep.AddressLine2;
    OfBillingAddress BillingAddressStep.City;
    OfBillingAddress BillingAddressStep.State;
    OfBillingAddress BillingAddressStep.ZipCode;
    OfBillingAddress BillingAddressStep.Country;
    OfPaymentInfo PaymentInfoStep.CardNumber;
    OfPaymentInfo PaymentInfoStep.ExpiryDate;
    OfPaymentInfo PaymentInfoStep.Cvv;
    OfPaymentInfo PaymentInfoStep.CardholderName ].

(** The multi-step wizard accepts a field when the validator of the
    owning step reports no error for the value stored in [d]. *)
Definition multiStepAccepts (now : Date) (d : OnboardingData)
    (f : FormField) : bool :=
  match f with
  | OfPersonalInfo g =>
      SinglePageOnboarding.unset
        (PersonalInfoStep.validateField g
           (PersonalInfoStep.get (personalInfo d) g))
  | PasswordField =>
      SinglePageOnboarding.unset
        (AccountSetupStep.passwordError
           (fst (AccountSetupStep.validateForm (accountSetup d))))
  | ConfirmPasswordField =>
      SinglePageOnboarding.unset
        (AccountSetupStep.confirmPasswordError
           (fst (AccountSetupStep.validateForm (accountSetup d))))
  | OfBillingAddress g =>
      SinglePageOnboarding.unset
        (BillingAddressStep.validateField (billingAddress d) g
           (BillingAddressStep.get (billingAddress d) g))
  | OfPaymentInfo g =>
      SinglePageOnboarding.unset
        (PaymentInfoStep.validateField now g
           (PaymentInfoStep.get (paymentInfo d) g))
  end.

(** The single-page form accepts a field when its [validateForm] sets no
    error under the field's key ([addressLine2] has no key). *)
Definition singlePageAccepts (d : OnboardingData) (f : FormField) : bool :=
  let e := fst (SinglePageOnboarding.validateForm d) in
  SinglePageOnboarding.unset
    match f with
    | OfPersonalInfo PersonalInfoStep.FirstName =>
        SinglePageOnboarding.e_firstName e
    | OfPersonalInfo PersonalInfoStep.LastName =>
        SinglePageOnboarding.e_lastName e
    | OfPersonalInfo PersonalInfoStep.Email => SinglePageOnboarding.e_email e
    | PasswordField => SinglePageOnboarding.e_password e
    | ConfirmPasswordField => SinglePageOnboarding.e_confirmPassword e
    | OfBillingAddress BillingAddressStep.AddressLine1 =>
        SinglePageOnboarding.e_addressLine1 e
    | OfBillingAddress BillingAddressStep.AddressLine2 => None
    | OfBillingAddress BillingAddressStep.City => SinglePageOnboarding.e_city e
    | OfBillingAddress BillingAddressStep.State =>
        SinglePageOnboarding.e_state e
    | OfBillingAddress BillingAddressStep.ZipCode =>
        SinglePageOnboarding.e_zipCode e
    | OfBillingAddress BillingAddressStep.Country =>
        SinglePageOnboarding.e_country e
    | OfPaymentInfo PaymentInfoStep.CardNumber =>
        SinglePageOnboarding.e_cardNumber e
    | OfPaymentInfo PaymentInfoStep.ExpiryDate =>
        SinglePageOnboarding.e_expiryDate e
    | OfPaymentInfo PaymentInfoStep.Cvv => SinglePageOnboarding.e_cvv e
    | OfPaymentInfo PaymentInfoStep.CardholderName =>
        SinglePageOnboarding.e_cardholderName e
    end.

(** The fields on which the two variants apply the same test. *)
Definition sameRule (f : FormField) : bool :=
  match f with
  | OfPersonalInfo PersonalInfoStep.Email
  | PasswordField
  | OfBillingAddress BillingAddressStep.AddressLine2
  | OfBillingAddress BillingAddressStep.State
  | OfBillingAddress BillingAddressStep.Country
  | OfPaymentInfo PaymentInfoStep.CardNumber
  | OfPaymentInfo PaymentInfoStep.Cvv => true
  | _ => false
  end.

(* ===================================================================== *)
(** * ProgressIndicator *)
(* ===================================================================== *)

Module ProgressIndicator.

(** What is drawn for one step: the three flags computed from the
    indices, the number shown in the circle when the step is not
    completed, and the connector line after the step ([None] after the
    last step, otherwise whether the line is drawn in the completed
    colour). *)
Record Marker : Type := mkMarker {
  isCompleted : bool;
  isCurrent : bool;
  isUpcoming : bool;
  number : Z;
  connector : option bool
}.

Definition marker (stepCount : nat) (currentStep : Z) (index : nat) : Marker :=
  let i := Z.of_nat index in
  mkMarker (i <? currentStep) (i =? currentStep) (i >? currentStep)
           (i + 1)
           (if i <? Z.of_nat stepCount - 1
            then Some (i <? currentStep) else None).

(** [steps.map((step, index) => ...)] *)
Definition render {A : Type} (steps : list A) (currentStep : Z)
  : list Marker :=
  map (marker (List.length steps) currentStep) (seq 0 (List.length steps)).

End ProgressIndicator.

(* ===================================================================== *)
(** * SignInForm and ForgotPasswordForm *)
(* ===================================================================== *)

Module SignInForm.

Record SignInFormData : Type := mkFormData {
  email : jsstring;
  password : jsstring
}.

Record FormErrors : Type := mkFormErrors {
  emailError : option string;
  passwordError : option string
}.

(** [/^[^\s@]+@[^\s@]+\.[^\s@]+$/] *)
Definition notSpaceNorAt (c : char) : bool :=
  negb (isWhiteSpace c || char_eqb c 64)%bool.

Definition emailRegex : RegExp :=
  mkRegExp true
    (Cat (Plus (Cls notSpaceNorAt))
      (Cat (Chr 64)
        (Cat (Plus (Cls notSpaceNorAt))
          (Cat (Chr 46) (Plus (Cls notSpaceNorAt))))))
    true.

(** [validateForm]: [newErrors] and whether it has no key. *)
Definition validateForm (formData : SignInFormData) : FormErrors * bool :=
  let newErrors :=
    mkFormErrors
      (if negb (truthy (email formData))
       then Some "Email is required"%string
       else if negb (test emailRegex (email formData))
       then Some "Please enter a valid email address"%string
       else None)
      (if negb (truthy (password formData))
       then Some "Password is required"%string
       else None) in
  (newErrors,
   (SinglePageOnboarding.unset (emailError newErrors)
    && SinglePageOnboarding.unset (passwordError newErrors))%bool).

End SignInForm.

Module ForgotPasswordForm.

(** [validateForm] on the only field, [email]: the error set, if any,
    and whether [newErrors] has no key. *)
Definition validateForm (email : jsstring) : option string * bool :=
  let emailError :=
    if negb (truthy email) then Some "Email is required"%string
    else if negb (test SignInForm.emailRegex email)
    then Some "Please enter a valid email address"%string
    else None in
  (emailError, SinglePageOnboarding.unset emailError).

End ForgotPasswordForm.

(* ===================================================================== *)
(** * The wizard as the user drives it *)
(* ===================================================================== *)

(** [OnboardingFlow] mounts one step at a time and hands it callbacks;
    the user's actions reach the controller only through the mounted
    step. *)

Module Wizard.

Import OnboardingFlow.

Inductive Action : Type :=
(** a keystroke in a field of [PaymentInfoStep], at time [now], with
    the step's own state [st] *)
| TypePayment :
    Date -> PaymentInfoStep.Local -> PaymentInfoStep.Field -> jsstring ->
    Action
(** an edit in one of the other steps: the step calls [onUpdate] with
    its new data *)
| EditPersonalInfo : PersonalInfoData -> Action
| EditAccountSetup : AccountSetupData -> Action
| EditBillingAddress : BillingAddressData -> Action
| ToggleTerms : bool -> Action
(** the step's form is submitted at time [now]: [onNext] is called if
    [validateForm] succeeds *)
| SubmitStep : Date -> Action
(** the step's "previous" button *)
| ClickPrevious : Action.

Definition onlyPersonalInfo (d : PersonalInfoData) : PartialData :=
  mkPartial (Some d) None None None None.
Definition onlyAccountSetup (d : AccountSetupData) : PartialData :=
  mkPartial None (Some d) None None None.
Definition onlyBillingAddress (d : BillingAddressData) : PartialData :=
  mkPartial None None (Some d) None None.
Definition onlyPaymentInfo (d : PaymentInfoData) : PartialData :=
  mkPartial None None None (Some d) None.
Definition onlyTermsAccepted (b : bool) : PartialData :=
  mkPartial None None None None (Some b).

(** The effect of an action on the controller's state; an action that
    the mounted step does not offer changes nothing.  (The exit
    animation, during which a step that has just been left is still
    displayed, is not part of this model.) *)
Definition act (s : State) (a : Action) : State :=
  match renderCurrentStep s with
  | None => s
  | Some view =>
      match a, view with
      | TypePayment now st field value, PaymentInfoView data =>
          updateFormData
            (onlyPaymentInfo
               (fst (PaymentInfoStep.handleInputChange now data st
                       field value))) s
      | EditPersonalInfo d, PersonalInfoView _ =>
          updateFormData (onlyPersonalInfo d) s
      | EditAccountSetup d, AccountSetupView _ =>
          updateFormData (onlyAccountSetup d) s
      | EditBillingAddress d, BillingAddressView _ =>
          updateFormData (onlyBillingAddress d) s
      | ToggleTerms b, TermsConfirmationView _ =>
          updateFormData (onlyTermsAccepted b) s
      | SubmitStep _, PersonalInfoView data =>
          if snd (PersonalInfoStep.validateForm data) then handleNext s else s
      | SubmitStep _, AccountSetupView data =>
          if snd (AccountSetupStep.validateForm data) then handleNext s else s
      | SubmitStep _, BillingAddressView data =>
          if snd (BillingAddressStep.validateForm data)
          then handleNext s else s
      | SubmitStep now, PaymentInfoView data =>
          if snd (PaymentInfoStep.validateForm now data)
          then handleNext s else s
      | ClickPrevious, view =>
          if receivesOnPrevious view then handlePrevious s else s
      | _, _ => s
      end
  end.

Definition session (actions : list Action) : State :=
  fold_left act actions initialState.

End Wizard.

(* ===================================================================== *)
(** * The specification's wording *)
(* ===================================================================== *)

(** Transcriptions of the prose of the specification, kept apart from
    the code above so that the two can be compared. *)

Module Spec.

(** ** Luhn checksum *)

Definition digitOf (c : char) : Z := Z.of_N c - 48.

(** A digit's contribution: doubled digits above 9 lose 9. *)
Definition luhnTerm (doubled : bool) (d : Z) : Z :=
  if doubled then (if 2 * d >? 9 then 2 * d - 9 else 2 * d) else d.

(** The digits are listed right to left; [doubled] tells whether the
    first of them is doubled. *)
Fixpoint luhnSum (doubled : bool) (rightToLeft : list Z) : Z :=
  match rightToLeft with
  | [] => 0
  | d :: rest => luhnTerm doubled d + luhnSum (negb doubled) rest
  end.

(** The last digit is taken as it is, the second-to-last is doubled, and
    so on alternately. *)
Definition passesLuhn (digits : jsstring) : bool :=
  luhnSum false (rev (map digitOf digits)) mod 10 =? 0.

(** A card number is valid when, once the characters of class [strip]
    are removed, only digits remain, 13 to 19 of them, and the checksum
    passes. *)
Definition validCard (strip : char -> bool) (s : jsstring) : bool :=
  let clean := removeAll strip s in
  (forallb isDigit clean
   && (13 <=? List.length clean)%nat && (List.length clean <=? 19)%nat
   && passesLuhn clean)%bool.

(** The space character, U+0020. *)
Definition isSpace (c : char) : bool := char_eqb c 32.

(** ** Card number grouping *)

Fixpoint chunksOf4 (ds : jsstring) : list jsstring :=
  match ds with
  | a :: b :: c :: d :: rest => [a; b; c; d] :: chunksOf4 rest
  | [] => []
  | short => [short]
  end.

(** Strip non-digits, group in fours joined by single spaces, truncate
    to 19 characters. *)
Definition formatCard (s : jsstring) : jsstring :=
  firstn 19 (join (lit " ") (chunksOf4 (filter isDigit s))).

Definition countDigits (s : jsstring) : nat :=
  List.length (filter isDigit s).

(** ** Expiry mask *)

(** Strip non-digits; with two digits or more, put a slash after the
    second digit; otherwise leave the digits as they are. *)
Definition maskExpiry (s : jsstring) : jsstring :=
  let ds := filter isDigit s in
  if (2 <=? List.length ds)%nat
  then firstn 2 ds ++ lit "/" ++ skipn 2 ds
  else ds.

(** ** Expiry validation *)

(** The reading [MM/YY] of a value: month and two-digit year. *)
Definition readExpiry (value : jsstring) : option (Z * Z) :=
  match value with
  | [m1; m2; sl; y1; y2] =>
      if (isDigit m1 && isDigit m2 && char_eqb sl 47
          && isDigit y1 && isDigit y2)%bool
      then Some (10 * digitOf m1 + digitOf m2, 10 * digitOf y1 + digitOf y2)
      else None
  | _ => None
  end.

(** The pair (year, month) strictly before the pair (year', month'). *)
Definition strictlyBefore (ym ym' : Z * Z) : bool :=
  ((fst ym <? fst ym') || ((fst ym =? fst ym') && (snd ym <? snd ym')))%bool.

Definition currentYear (now : Date) : Z := Z.rem (getFullYear now) 100.
Definition currentMonth (now : Date) : Z := getMonth now + 1.

(** The verdict with the three errors of the statement: bad format,
    invalid month, expired. *)
Definition expiryVerdict (now : Date) (value : jsstring) : option string :=
  match readExpiry value with
  | None => Some "Please enter date as MM/YY"%string
  | Some (mm, yy) =>
      if ((mm <? 1) || (12 <? mm))%bool then Some "Invalid month"%string
      else if strictlyBefore (yy, mm) (currentYear now, currentMonth now)
      then Some "Card has expired"%string
      else None
  end.

(** The same verdict preceded by the check for a blank value. *)
Definition expiryVerdictWithRequired (now : Date) (value : jsstring)
  : option string :=
  if forallb isWhiteSpace value then Some "Expiry date is required"%string
  else expiryVerdict now value.

(** ** US ZIP codes *)

(** Five digits, optionally followed by a hyphen and four digits. *)
Definition isUsZip (value : jsstring) : bool :=
  match value with
  | [a; b; c; d; e] =>
      (isDigit a && isDigit b && isDigit c && isDigit d && isDigit e)%bool
  | [a; b; c; d; e; h; f; g; i; j] =>
      (isDigit a && isDigit b && isDigit c && isDigit d && isDigit e
       && char_eqb h 45
       && isDigit f && isDigit g && isDigit i && isDigit j)%bool
  | _ => false
  end.

(** ** Password criteria *)

Definition b2z (b : bool) : Z := if b then 1 else 0.

(** The number of criteria met among: length at least 8, an uppercase
    letter, a lowercase letter, a digit, a special character. *)
Definition criteriaMet (pwd : jsstring) : Z :=
  b2z (8 <=? List.length pwd)%nat
  + b2z (existsb isUpper pwd)
  + b2z (existsb isLower pwd)
  + b2z (existsb isDigit pwd)
  + b2z (existsb (oneOf AccountSetupStep.specialChars) pwd).

End Spec.

(* ===================================================================== *)
(** * Regular expressions: the matcher is the language *)
(* ===================================================================== *)

Section RegexTheory.

Lemma Lang_Eps_inv (s : jsstring) : Lang Eps s <-> s = [].
Proof.
  split; intros H.
  - inversion H; reflexivity.
  - subst; constructor.
Qed.

Lemma Lang_Void_inv (s : jsstring) : ~ Lang Void s.
Proof. intros H; inversion H. Qed.

Lemma Lang_Cls_inv (p : char -> bool) (s : jsstring) :
  Lang (Cls p) s <-> exists c, s = [c] /\ p c = true.
Proof.
  split; intros H.
  - inversion H; subst; eauto.
  - destruct H as (c & -> & Hc); now constructor.
Qed.

Lemma Lang_Cat_inv (r1 r2 : regex) (s : jsstring) :
  Lang (Cat r1 r2) s <->
  exists s1 s2, s = s1 ++ s2 /\ Lang r1 s1 /\ Lang r2 s2.
Proof.
  split; intros H.
  - inversion H; subst; eauto.
  - destruct H as (s1 & s2 & -> & H1 & H2); now constructor.
Qed.

Lemma Lang_Alt_inv (r1 r2 : regex) (s : jsstring) :
  Lang (Alt r1 r2) s <-> Lang r1 s \/ Lang r2 s.
Proof.
  split; intros H.
  - inversion H; subst; auto.
  - destruct H; [now apply L_AltL | now apply L_AltR].
Qed.

(** A class followed by [r] consumes one character of the class. *)
Lemma Lang_Cls_Cat (p : char -> bool) (r : regex) (s : jsstring) :
  Lang (Cat (Cls p) r) s <->
  exists c s', s = c :: s' /\ p c = true /\ Lang r s'.
Proof.
  rewrite Lang_Cat_inv. split.
  - intros (s1 & s2 & -> & H1 & H2).
    apply Lang_Cls_inv in H1 as (c & -> & Hc). exists c, s2. auto.
  - intros (c & s' & -> & Hc & Hr). exists [c], s'.
    repeat split; auto. now constructor.
Qed.

Lemma nullable_Lang (r : regex) : nullable r = true <-> Lang r [].
Proof.
  induction r; simpl.
  - split; [discriminate | intros H; inversion H].
  - split; [constructor | reflexivity].
  - split; [discriminate | intros H; inversion H].
  - rewrite andb_true_iff, IHr1, IHr2, Lang_Cat_inv. split.
    + intros [H1 H2]. exists [], []. auto.
    + intros (s1 & s2 & E & H1 & H2). symmetry in E.
      apply app_eq_nil in E as [-> ->]. auto.
  - rewrite orb_true_iff, IHr1, IHr2, Lang_Alt_inv. tauto.
  - split; [constructor | reflexivity].
Qed.

(** A non-empty word of [r*] starts with a non-empty word of [r]. *)
Lemma Lang_Star_cons (r : regex) (c : char) (s : jsstring) :
  Lang (Star r) (c :: s) ->
  exists s1 s2, s = s1 ++ s2 /\ Lang r (c :: s1) /\ Lang (Star r) s2.
Proof.
  intros H. remember (Star r) as r' eqn:Er. remember (c :: s) as w eqn:Ew.
  revert s Ew. induction H; intros s0 Ew; try discriminate.
  inversion Er; subst r0. destruct s1 as [|a s1].
  - simpl in Ew. apply IHLang2; auto.
  - simpl in Ew. inversion Ew; subst a s0. exists s1, s2. auto.
Qed.

Lemma deriv_Lang (r : regex) (c : char) (s : jsstring) :
  Lang (deriv c r) s <-> Lang r (c :: s).
Proof.
  revert s. induction r; intros s; simpl.
  - split; intros H; inversion H.
  - split; intros H; inversion H.
  - destruct (b c) eqn:Hb.
    + rewrite Lang_Eps_inv, Lang_Cls_inv. split.
      * intros ->. eauto.
      * intros (c' & E & _). now inversion E.
    + split; [intros H; inversion H|].
      rewrite Lang_Cls_inv. intros (c' & E & Hc). inversion E; subst.
      congruence.
  - assert (Hcat : Lang (Cat (deriv c r1) r2) s ->
                   Lang (Cat r1 r2) (c :: s)).
    { rewrite !Lang_Cat_inv. intros (s1 & s2 & -> & H1 & H2).
      exists (c :: s1), s2. rewrite <- IHr1. auto. }
    assert (Hinv : Lang (Cat r1 r2) (c :: s) ->
                   Lang (Cat (deriv c r1) r2) s \/
                   (Lang r1 [] /\ Lang (deriv c r2) s)).
    { rewrite Lang_Cat_inv. intros (s1 & s2 & E & H1 & H2).
      destruct s1 as [|a s1]; simpl in E.
      - right. subst s2. rewrite IHr2. auto.
      - inversion E; subst a s. left. rewrite Lang_Cat_inv.
        exists s1, s2. rewrite IHr1. auto. }
    destruct (nullable r1) eqn:Hn.
    + rewrite Lang_Alt_inv. split.
      * intros [H | H]; [auto|]. apply nullable_Lang in Hn.
        rewrite IHr2 in H. apply (L_Cat r1 r2 [] (c :: s)); auto.
      * intros H. apply Hinv in H as [H | [_ H]]; auto.
    + split; [auto|]. intros H. apply Hinv in H as [H | [H _]]; auto.
      apply nullable_Lang in H. congruence.
  - rewrite !Lang_Alt_inv, IHr1, IHr2. tauto.
  - rewrite Lang_Cat_inv. split.
    + intros (s1 & s2 & -> & H1 & H2). rewrite IHr in H1.
      apply (L_StarS r (c :: s1) s2); auto.
    + intros H. apply Lang_Star_cons in H as (s1 & s2 & -> & H1 & H2).
      exists s1, s2. rewrite IHr. auto.
Qed.

(** The derivative matcher decides membership in the language. *)
Lemma fullMatch_Lang (r : regex) (s : jsstring) :
  fullMatch r s = true <-> Lang r s.
Proof.
  revert r. induction s as [|c s IH]; intros r; simpl.
  - apply nullable_Lang.
  - rewrite IH. apply deriv_Lang.
Qed.

Lemma Lang_Star_Cls (p : char -> bool) (s : jsstring) :
  Lang (Star (Cls p)) s <-> forallb p s = true.
Proof.
  split.
  - induction s as [|c s IH]; intros H; simpl; [reflexivity|].
    apply Lang_Star_cons in H as (s1 & s2 & -> & H1 & H2).
    apply Lang_Cls_inv in H1 as (c' & E & Hc). inversion E; subst.
    simpl in *. rewrite Hc. simpl. auto.
  - induction s as [|c s IH]; simpl; intros H; [constructor|].
    apply andb_true_iff in H as [Hc Hs].
    apply (L_StarS (Cls p) [c] s); auto. now constructor.
Qed.

Lemma Lang_Star_any (s : jsstring) : Lang (Star anyChar) s.
Proof.
  apply Lang_Star_Cls. induction s; simpl; auto.
Qed.

(** [/^[class]+$/]: a non-empty string of characters of the class. *)
Lemma test_anchored_Plus_Cls (p : char -> bool) (s : jsstring) :
  test (mkRegExp true (Plus (Cls p)) true) s = true <->
  s <> [] /\ forallb p s = true.
Proof.
  unfold test, Plus; simpl anchoredStart; simpl anchoredEnd; simpl body.
  cbv iota. rewrite fullMatch_Lang, Lang_Cls_Cat. split.
  - intros (c & s' & -> & Hc & Hs). apply Lang_Star_Cls in Hs.
    split; [discriminate|]. simpl. now rewrite Hc, Hs.
  - intros [Hne Hs]. destruct s as [|c s']; [congruence|].
    simpl in Hs. apply andb_true_iff in Hs as [Hc Hs].
    exists c, s'. rewrite Lang_Star_Cls. auto.
Qed.

(** [/[class]/]: some character of the string is in the class. *)
Lemma test_unanchored_Cls (p : char -> bool) (s : jsstring) :
  test (mkRegExp false (Cls p) false) s = existsb p s.
Proof.
  apply eq_true_iff_eq.
  unfold test; simpl anchoredStart; simpl anchoredEnd; simpl body.
  cbv iota. rewrite fullMatch_Lang, Lang_Cat_inv, existsb_exists. split.
  - intros (s1 & s2 & -> & _ & H2).
    apply Lang_Cls_Cat in H2 as (c & s' & -> & Hc & _).
    exists c. split; [|assumption]. apply in_or_app. right. now left.
  - intros (c & Hin & Hc). apply in_split in Hin as (l1 & l2 & ->).
    exists l1, (c :: l2). repeat split; [apply Lang_Star_any|].
    apply Lang_Cls_Cat. exists c, l2. repeat split; auto.
    apply Lang_Star_any.
Qed.

End RegexTheory.

(* ===================================================================== *)
(** * Characters and strings *)
(* ===================================================================== *)

Section Strings.

Lemma digit_cases (c : char) :
  isDigit c = true ->
  In c [48; 49; 50; 51; 52; 53; 54; 55; 56; 57]%N.
Proof.
  unfold isDigit, between. rewrite andb_true_iff, !N.leb_le. intros [Hlo Hhi].
  simpl.
  assert (c = 48 \/ c = 49 \/ c = 50 \/ c = 51 \/ c = 52 \/ c = 53 \/
          c = 54 \/ c = 55 \/ c = 56 \/ c = 57)%N as H by lia.
  intuition auto.
Qed.

(** Any decidable fact about one digit can be checked on the ten
    digits. *)
Lemma digit_ind (P : char -> Prop) :
  P 48%N -> P 49%N -> P 50%N -> P 51%N -> P 52%N ->
  P 53%N -> P 54%N -> P 55%N -> P 56%N -> P 57%N ->
  forall c, isDigit c = true -> P c.
Proof.
  intros H0 H1 H2 H3 H4 H5 H6 H7 H8 H9 c Hc.
  apply digit_cases in Hc. simpl in Hc.
  repeat (destruct Hc as [<- | Hc]; [assumption|]). contradiction.
Qed.

Lemma digit_not_space (c : char) : isDigit c = true -> isWhiteSpace c = false.
Proof. revert c. apply digit_ind; reflexivity. Qed.

Lemma digit_isDot (c : char) : isDigit c = true -> isDot c = true.
Proof. revert c. apply digit_ind; reflexivity. Qed.

Lemma digit_nonneg (c : char) : isDigit c = true -> 0 <= Spec.digitOf c <= 9.
Proof. revert c. apply digit_ind; unfold Spec.digitOf; simpl; lia. Qed.

Lemma parseInt_digit (c : char) (radix : option Z) :
  radix = None \/ radix = Some 10 ->
  isDigit c = true -> parseInt [c] radix = Num (Spec.digitOf c).
Proof.
  intros Hr. revert c.
  destruct Hr as [-> | ->]; apply digit_ind; reflexivity.
Qed.

Lemma parseInt_two_digits (a b : char) :
  isDigit a = true -> isDigit b = true ->
  parseInt [a; b] None = Num (10 * Spec.digitOf a + Spec.digitOf b).
Proof.
  intros Ha Hb. revert b Hb. pattern a. revert a Ha.
  apply digit_ind; intros b Hb; pattern b; revert b Hb;
    apply digit_ind; reflexivity.
Qed.

Lemma removeAll_nonDigit (s : jsstring) :
  removeAll isNonDigit s = filter isDigit s.
Proof.
  unfold removeAll, isNonDigit. apply filter_ext. intros c.
  apply negb_involutive.
Qed.

Lemma filter_digit_idem (s : jsstring) :
  forallb isDigit s = true -> filter isDigit s = s.
Proof.
  induction s as [|c s IH]; simpl; [reflexivity|].
  rewrite andb_true_iff. intros [Hc Hs]. rewrite Hc, IH; auto.
Qed.

Lemma forallb_filter_digit (s : jsstring) :
  forallb isDigit (filter isDigit s) = true.
Proof.
  induction s as [|c s IH]; simpl; [reflexivity|].
  destruct (isDigit c) eqn:Hc; simpl; [rewrite Hc|]; auto.
Qed.

(** Digits survive the removal of white space, so removing white space
    and then non-digits keeps exactly the digits. *)
Lemma clean_digits (s : jsstring) :
  removeAll isNonDigit (removeAll isWhiteSpace s) = filter isDigit s.
Proof.
  rewrite removeAll_nonDigit. unfold removeAll.
  induction s as [|c s IH]; simpl; [reflexivity|].
  destruct (isDigit c) eqn:Hc.
  - rewrite (digit_not_space c Hc). simpl. rewrite Hc, IH. reflexivity.
  - destruct (isWhiteSpace c); simpl; [|rewrite Hc]; exact IH.
Qed.

Lemma trimStart_nil_iff (s : jsstring) :
  trimStart s = [] <-> forallb isWhiteSpace s = true.
Proof.
  induction s as [|c s IH]; simpl; [tauto|].
  destruct (isWhiteSpace c); simpl; [exact IH|].
  split; discriminate.
Qed.

Lemma trimStart_suffix (s : jsstring) :
  exists p, s = p ++ trimStart s /\ forallb isWhiteSpace p = true.
Proof.
  induction s as [|c s (p & E & Hp)]; simpl.
  - exists []. auto.
  - destruct (isWhiteSpace c) eqn:Hc.
    + exists (c :: p). simpl. rewrite Hc, Hp. split; [congruence | reflexivity].
    + exists []. auto.
Qed.

Lemma forallb_rev {A : Type} (p : A -> bool) (l : list A) :
  forallb p (rev l) = forallb p l.
Proof.
  induction l as [|a l IH]; simpl; [reflexivity|].
  rewrite forallb_app, IH. simpl. rewrite andb_true_r. apply andb_comm.
Qed.

(** [!value.trim()] holds exactly for strings of white space only. *)
Lemma blank_spec (value : jsstring) :
  blank value = forallb isWhiteSpace value.
Proof.
  apply eq_true_iff_eq. unfold blank, trim, trimEnd.
  assert (E : forall l : jsstring,
             negb (truthy l) = true <-> l = []).
  { intros [|? ?]; simpl; split; congruence. }
  rewrite E. split.
  - intros H. apply (f_equal (@rev char)) in H. rewrite rev_involutive in H.
    simpl in H. apply trimStart_nil_iff in H. rewrite forallb_rev in H.
    destruct (trimStart_suffix value) as (p & Ev & Hp).
    rewrite Ev, forallb_app, Hp, H. reflexivity.
  - intros H.
    assert (Hs : trimStart value = []) by now apply trimStart_nil_iff.
    rewrite Hs. reflexivity.
Qed.

(** A string that starts with a digit is not blank. *)
Lemma blank_digit_first (c : char) (s : jsstring) :
  isDigit c = true -> blank (c :: s) = false.
Proof.
  intros Hc. rewrite blank_spec. simpl. now rewrite (digit_not_space c Hc).
Qed.

(** Trimming never lengthens a string. *)
Lemma trimStart_length (s : jsstring) :
  (List.length (trimStart s) <= List.length s)%nat.
Proof.
  induction s as [|c s IH]; simpl; [lia|].
  destruct (isWhiteSpace c); simpl; lia.
Qed.

Lemma trim_length (s : jsstring) :
  (List.length (trim s) <= List.length s)%nat.
Proof.
  unfold trim, trimEnd. rewrite length_rev.
  etransitivity; [apply trimStart_length|]. rewrite length_rev.
  apply trimStart_length.
Qed.

Lemma str_eqb_eq (a b : jsstring) : str_eqb a b = true <-> a = b.
Proof.
  unfold str_eqb. destruct (list_eq_dec N.eq_dec a b); split; congruence.
Qed.

End Strings.

(* ===================================================================== *)
(** * Card number validation *)
(* ===================================================================== *)

Section CardNumber.

Import PaymentInfoStep.

Lemma downFrom_S (n : nat) : downFrom (S n) = n :: downFrom n.
Proof.
  unfold downFrom. rewrite seq_S, rev_app_distr. reflexivity.
Qed.

Lemma In_downFrom (i n : nat) : In i (downFrom n) -> (i < n)%nat.
Proof.
  unfold downFrom. rewrite <- in_rev, in_seq. lia.
Qed.

Lemma charAt_last (s : jsstring) (x : char) :
  charAt (s ++ [x]) (List.length s) = [x].
Proof.
  unfold charAt. rewrite nth_error_app2 by lia.
  rewrite Nat.sub_diag. reflexivity.
Qed.

Lemma charAt_front (s : jsstring) (x : char) (i : nat) :
  (i < List.length s)%nat -> charAt (s ++ [x]) i = charAt s i.
Proof.
  intros Hi. unfold charAt. rewrite nth_error_app1 by assumption.
  reflexivity.
Qed.

Lemma fold_left_ext_in {A B : Type} (f g : A -> B -> A) (l : list B) :
  (forall a b, In b l -> f a b = g a b) ->
  forall a, fold_left f l a = fold_left g l a.
Proof.
  induction l as [|b l IH]; intros H a; simpl; [reflexivity|].
  rewrite H by now left. apply IH. intros; apply H; now right.
Qed.

(** Visiting the indices from the last to the first reads the characters
    of the string from right to left. *)
Lemma luhn_loop_rev (s : jsstring) (st : number * bool) :
  fold_left (luhnIteration s) (downFrom (List.length s)) st =
  fold_left (fun st c => luhnIteration [c] st 0%nat) (rev s) st.
Proof.
  revert st. induction s as [|x s IH] using rev_ind; intros st.
  - reflexivity.
  - rewrite length_app, Nat.add_comm. simpl List.length.
    rewrite downFrom_S, rev_app_distr. simpl.
    assert (E : luhnIteration (s ++ [x]) st (List.length s) =
                luhnIteration [x] st 0%nat).
    { unfold luhnIteration. rewrite charAt_last. reflexivity. }
    rewrite E, <- IH. apply fold_left_ext_in.
    intros a i Hi. apply In_downFrom in Hi.
    unfold luhnIteration. rewrite charAt_front by assumption. reflexivity.
Qed.

Lemma luhnIteration_digit (c : char) (a : Z) (b : bool) :
  isDigit c = true ->
  luhnIteration [c] (Num a, b) 0%nat =
  (Num (a + Spec.luhnTerm b (Spec.digitOf c)), negb b).
Proof.
  intros Hc. unfold luhnIteration, charAt. simpl nth_error. cbv iota.
  rewrite (parseInt_digit c (Some 10)) by auto.
  unfold Spec.luhnTerm. destruct b; [|reflexivity].
  cbv beta iota delta [nmul ngt nlt nsub nadd negb].
  rewrite Z.gtb_ltb, (Z.mul_comm (Spec.digitOf c) 2).
  destruct (9 <? 2 * Spec.digitOf c); reflexivity.
Qed.

(** On digits the loop never meets [NaN] and accumulates the checksum. *)
Lemma luhn_chars (l : jsstring) :
  forallb isDigit l = true ->
  forall a b,
    fst (fold_left (fun st c => luhnIteration [c] st 0%nat) l (Num a, b)) =
    Num (a + Spec.luhnSum b (map Spec.digitOf l)).
Proof.
  induction l as [|c l IH]; intros H a b;
    cbn [fold_left map Spec.luhnSum forallb fst] in *.
  - now rewrite Z.add_0_r.
  - apply andb_true_iff in H as [Hc Hl].
    rewrite luhnIteration_digit by assumption.
    rewrite IH by assumption. now rewrite Z.add_assoc.
Qed.

Lemma luhnSum_nonneg (l : jsstring) (b : bool) :
  forallb isDigit l = true -> 0 <= Spec.luhnSum b (map Spec.digitOf l).
Proof.
  revert b. induction l as [|c l IH]; simpl; intros b H; [lia|].
  apply andb_true_iff in H as [Hc Hl].
  specialize (IH (negb b) Hl). apply digit_nonneg in Hc.
  unfold Spec.luhnTerm. destruct b; [destruct (2 * _ >? 9) eqn:E|]; lia.
Qed.

(** The checksum loop of [isValidCardNumber], on a string of digits. *)
Lemma luhn_loop_digits (clean : jsstring) :
  forallb isDigit clean = true ->
  (let '(sum, _) :=
     fold_left (luhnIteration clean) (downFrom (List.length clean))
               (Num 0, false) in
   nseq (nrem sum (Num 10)) (Num 0)) = Spec.passesLuhn clean.
Proof.
  intros H. rewrite luhn_loop_rev.
  assert (Hr : forallb isDigit (rev clean) = true)
    by now rewrite forallb_rev.
  pose proof (luhn_chars (rev clean) Hr 0 false) as E.
  pose proof (luhnSum_nonneg (rev clean) false Hr) as Hn.
  destruct (fold_left _ (rev clean) (Num 0, false)) as [sum dbl].
  simpl in E. subst sum. unfold Spec.passesLuhn. rewrite <- map_rev.
  simpl. rewrite Z.rem_mod_nonneg by lia. reflexivity.
Qed.

(** [isValidCardNumber] computes the validity predicate of the
    specification, with [\s] as the class of removed characters. *)
Lemma isValidCardNumber_validCard (s : jsstring) :
  isValidCardNumber s = Spec.validCard isWhiteSpace s.
Proof.
  unfold isValidCardNumber, Spec.validCard.
  set (clean := removeAll isWhiteSpace s).
  destruct (forallb isDigit clean) eqn:Hd.
  - destruct clean as [|c r] eqn:Ec.
    + reflexivity.
    + rewrite <- Ec in *. rewrite andb_true_l.
      assert (Ht : test allDigitsRegex clean = true).
      { apply test_anchored_Plus_Cls. split; [rewrite Ec; discriminate|auto]. }
      rewrite Ht. simpl negb. rewrite orb_false_l.
      rewrite (Nat.ltb_antisym 13), (Nat.ltb_antisym _ 19), <- negb_andb.
      destruct ((13 <=? List.length clean)%nat
                && (List.length clean <=? 19)%nat)%bool eqn:Hlen.
      * simpl negb. cbv iota. rewrite andb_true_l.
        apply luhn_loop_digits; assumption.
      * reflexivity.
  - assert (Ht : test allDigitsRegex clean = false).
    { destruct (test allDigitsRegex clean) eqn:Ht; [|reflexivity].
      apply test_anchored_Plus_Cls in Ht as [_ Ht]. congruence. }
    rewrite Ht. reflexivity.
Qed.

(** The single-page form's copy is the same function. *)
Lemma singlePage_isValidCardNumber (s : jsstring) :
  SinglePageOnboarding.isValidCardNumber s = isValidCardNumber s.
Proof. reflexivity. Qed.

End CardNumber.

(** C1 (as amended).  For every input string, [isValidCardNumber]
    returns true if and only if the string with all white-space
    characters (the class [\s]) removed consists solely of digits, has
    length between 13 and 19 inclusive, and passes the Luhn checksum
    (digits taken right to left, every second one doubled starting from
    the second-to-last, 9 subtracted from doubled values above 9, sum
    divisible by 10); ["4111111111111111"] is valid and
    ["4111111111111112"] is not. *)
Theorem isValidCardNumber_correct :
  (forall s : jsstring,
     PaymentInfoStep.isValidCardNumber s = true <->
     forallb isDigit (removeAll isWhiteSpace s) = true /\
     (13 <= List.length (removeAll isWhiteSpace s) <= 19)%nat /\
     Spec.passesLuhn (removeAll isWhiteSpace s) = true) /\
  PaymentInfoStep.isValidCardNumber (lit "4111111111111111") = true /\
  PaymentInfoStep.isValidCardNumber (lit "4111111111111112") = false.
Proof.
  split; [|split; vm_compute; reflexivity].
  intros s. rewrite isValidCardNumber_validCard. unfold Spec.validCard.
  rewrite !andb_true_iff, !Nat.leb_le. tauto.
Qed.

(** C1 as stated, with only the space character U+0020 removed, fails:
    a valid number followed by a TAB is accepted by the code, although
    with its spaces removed it still holds a character that is not a
    digit. *)
Lemma isValidCardNumber_strips_tab :
  PaymentInfoStep.isValidCardNumber (lit "4111111111111111" ++ [9%N]) = true /\
  Spec.validCard Spec.isSpace (lit "4111111111111111" ++ [9%N]) = false.
Proof. split; vm_compute; reflexivity. Qed.

(* ===================================================================== *)
(** * Card number formatting *)
(* ===================================================================== *)

Section CardFormat.

Import PaymentInfoStep.

Lemma list_ind4 {A : Type} (P : list A -> Prop) :
  P [] -> (forall a, P [a]) -> (forall a b, P [a; b]) ->
  (forall a b c, P [a; b; c]) ->
  (forall a b c d rest, P rest -> P (a :: b :: c :: d :: rest)) ->
  forall l, P l.
Proof.
  intros H0 H1 H2 H3 H4.
  fix IH 1.
  intros [|a [|b [|c [|d rest]]]];
    [apply H0 | apply H1 | apply H2 | apply H3 | apply H4; apply IH].
Qed.

(** On digits, [.] matches every character: the global match cuts the
    string in fours. *)
Lemma matchDot1to4_digits (ds : jsstring) :
  forallb isDigit ds = true -> matchDot1to4 ds = Spec.chunksOf4 ds.
Proof.
  induction ds as [|a|a b|a b c|a b c d rest IH] using list_ind4;
    cbn [forallb]; rewrite ?andb_true_iff; intros H;
    repeat match goal with H : _ /\ _ |- _ => destruct H end;
    cbn [matchDot1to4 Spec.chunksOf4];
    repeat match goal with
           | H : isDigit ?x = true |- _ =>
               rewrite (digit_isDot x H); clear H
           end;
    try reflexivity.
  now rewrite IH.
Qed.

Lemma formatCardNumber_formatCard (s : jsstring) :
  formatCardNumber s = Spec.formatCard s.
Proof.
  unfold formatCardNumber, Spec.formatCard, substr.
  rewrite clean_digits, matchDot1to4_digits by apply forallb_filter_digit.
  reflexivity.
Qed.

Lemma chunksOf4_cons (a : char) (l : jsstring) :
  exists h t, Spec.chunksOf4 (a :: l) = h :: t.
Proof.
  destruct l as [|b [|c [|d r]]]; simpl; eauto.
Qed.

End CardFormat.

Section CardFormat16.

Import PaymentInfoStep.

(** Only the first sixteen digits reach the truncated output. *)
Lemma grouping_firstn16 (ds : jsstring) :
  firstn 19 (join (lit " ") (Spec.chunksOf4 (firstn 16 ds))) =
  firstn 19 (join (lit " ") (Spec.chunksOf4 ds)).
Proof.
  do 17 (destruct ds as [|? ds]; [reflexivity|]).
  destruct ds as [|? [|? [|? ?]]]; reflexivity.
Qed.

Lemma grouping_short (ds : jsstring) :
  (List.length ds <= 16)%nat ->
  (List.length (join (lit " ") (Spec.chunksOf4 ds)) <= 19)%nat.
Proof.
  intros H.
  do 17 (destruct ds as [|? ds]; [cbn; lia|]).
  cbn in H. lia.
Qed.

(** The truncated output is the grouping of the first sixteen digits. *)
Lemma grouping_truncated (ds : jsstring) :
  firstn 19 (join (lit " ") (Spec.chunksOf4 ds)) =
  join (lit " ") (Spec.chunksOf4 (firstn 16 ds)).
Proof.
  rewrite <- grouping_firstn16. apply firstn_all2, grouping_short.
  rewrite length_firstn. lia.
Qed.

Lemma concat_chunksOf4 (ds : jsstring) :
  List.concat (Spec.chunksOf4 ds) = ds.
Proof.
  induction ds as [|a|a b|a b c|a b c d rest IH] using list_ind4;
    try reflexivity.
  cbn [Spec.chunksOf4 List.concat app]. now rewrite IH.
Qed.

Lemma chunksOf4_forallb (p : char -> bool) (ds : jsstring) :
  forallb p ds = true ->
  forall chunk, In chunk (Spec.chunksOf4 ds) -> forallb p chunk = true.
Proof.
  induction ds as [|a|a b|a b c|a b c d rest IH] using list_ind4;
    intros H chunk Hin.
  - destruct Hin.
  - destruct Hin as [<- | []]; exact H.
  - destruct Hin as [<- | []]; exact H.
  - destruct Hin as [<- | []]; exact H.
  - cbn [Spec.chunksOf4] in Hin. cbn [forallb] in H.
    rewrite !andb_true_iff in H. destruct H as (Ha & Hb & Hc & Hd & Hr).
    destruct Hin as [<- | Hin].
    + cbn [forallb]. now rewrite Ha, Hb, Hc, Hd.
    + now apply IH.
Qed.

(** Filtering a joined list with a predicate that rejects the separator
    and accepts the parts gives back the parts, concatenated. *)
Lemma filter_join (p : char -> bool) (sep : jsstring)
    (parts : list jsstring) :
  filter p sep = [] ->
  (forall part, In part parts -> forallb p part = true) ->
  filter p (join sep parts) = List.concat parts.
Proof.
  intros Hsep. induction parts as [|x rest IH]; intros H; [reflexivity|].
  assert (Hx : filter p x = x).
  { specialize (H x (or_introl eq_refl)). clear IH.
    induction x as [|c x IHx]; [reflexivity|]. cbn [forallb filter] in *.
    apply andb_true_iff in H as [Hc Hr]. rewrite Hc, IHx; auto. }
  cbn [join List.concat]. destruct rest as [|y rest'].
  - cbn [List.concat]. now rewrite app_nil_r.
  - rewrite !filter_app, Hx, Hsep, IH; [reflexivity|].
    intros part Hin. apply H. now right.
Qed.

(** The digits of the formatted card number are the first sixteen
    digits of the input, and so is what remains once its white space is
    removed. *)
Lemma grouping_digits (ds : jsstring) :
  forallb isDigit ds = true ->
  filter isDigit (firstn 19 (join (lit " ") (Spec.chunksOf4 ds))) =
    firstn 16 ds /\
  removeAll isWhiteSpace (firstn 19 (join (lit " ") (Spec.chunksOf4 ds))) =
    firstn 16 ds.
Proof.
  intros H. rewrite grouping_truncated.
  assert (H16 : forallb isDigit (firstn 16 ds) = true).
  { rewrite <- (firstn_skipn 16 ds), forallb_app in H.
    now apply andb_true_iff in H as [H16 _]. }
  unfold removeAll. split.
  - rewrite filter_join; [apply concat_chunksOf4 | reflexivity |].
    now apply chunksOf4_forallb.
  - rewrite filter_join; [apply concat_chunksOf4 | reflexivity |].
    apply chunksOf4_forallb. rewrite forallb_forall in *.
    intros c Hc. rewrite digit_not_space; auto.
Qed.

Lemma formatCardNumber_digits (s : jsstring) :
  filter isDigit (formatCardNumber s) = firstn 16 (filter isDigit s).
Proof.
  rewrite formatCardNumber_formatCard. unfold Spec.formatCard.
  apply grouping_digits, forallb_filter_digit.
Qed.

Lemma formatCardNumber_clean (s : jsstring) :
  removeAll isWhiteSpace (formatCardNumber s) = firstn 16 (filter isDigit s).
Proof.
  rewrite formatCardNumber_formatCard. unfold Spec.formatCard.
  apply grouping_digits, forallb_filter_digit.
Qed.

Lemma formatCardNumber_idem (s : jsstring) :
  formatCardNumber (formatCardNumber s) = formatCardNumber s.
Proof.
  rewrite (formatCardNumber_formatCard (formatCardNumber s)).
  unfold Spec.formatCard at 1. rewrite formatCardNumber_digits.
  rewrite grouping_firstn16. symmetry. apply formatCardNumber_formatCard.
Qed.

End CardFormat16.

(** C3.  [formatCardNumber] strips every character that is not a digit,
    groups the remaining digits in chunks of four joined by single
    spaces and truncates the result to 19 characters; applying it to its
    own output changes nothing; and ["4111111111111111"] becomes
    ["4111 1111 1111 1111"]. *)
Theorem formatCardNumber_groups_and_is_idempotent :
  (forall s : jsstring,
     PaymentInfoStep.formatCardNumber s =
     firstn 19 (join (lit " ") (Spec.chunksOf4 (filter isDigit s)))) /\
  (forall s : jsstring,
     PaymentInfoStep.formatCardNumber (PaymentInfoStep.formatCardNumber s) =
     PaymentInfoStep.formatCardNumber s) /\
  PaymentInfoStep.formatCardNumber (lit "4111111111111111") =
    lit "4111 1111 1111 1111".
Proof.
  split; [|split].
  - apply formatCardNumber_formatCard.
  - apply formatCardNumber_idem.
  - reflexivity.
Qed.

(* ===================================================================== *)
(** * The card number along the input path *)
(* ===================================================================== *)

Section InputPath.

Import OnboardingFlow.

Lemma handleNext_formData (s : State) : formData (handleNext s) = formData s.
Proof. unfold handleNext. now destruct (currentStep s <? _). Qed.

Lemma handlePrevious_formData (s : State) :
  formData (handlePrevious s) = formData s.
Proof. unfold handlePrevious. now destruct (currentStep s >? 0). Qed.

(** The payment step is handed the payment section of the form data. *)
Lemma render_payment (s : State) (data : PaymentInfoData) :
  renderCurrentStep s = Some (PaymentInfoView data) ->
  data = paymentInfo (formData s).
Proof.
  unfold renderCurrentStep. destruct (currentStep s <? 0); [discriminate|].
  destruct (nth_error _ _) as [st|]; [|discriminate].
  destruct (id st); intros H; inversion H. reflexivity.
Qed.

(** An action leaves the payment section alone, unless it is a keystroke
    in the payment step, which stores what [handleInputChange] hands to
    [onUpdate]. *)
Lemma act_paymentInfo (s : State) (a : Wizard.Action) :
  paymentInfo (formData (Wizard.act s a)) = paymentInfo (formData s) \/
  exists now st field value,
    a = Wizard.TypePayment now st field value /\
    paymentInfo (formData (Wizard.act s a)) =
    fst (PaymentInfoStep.handleInputChange now (paymentInfo (formData s))
           st field value).
Proof.
  unfold Wizard.act. destruct (renderCurrentStep s) as [v|] eqn:E; [|now left].
  destruct a as [now st field value| d | d | d | b | now | ];
    destruct v as [d0|d0|d0|d0|props];
    try (left; reflexivity);
    try (left; match goal with
               | |- context [if ?c then _ else _] => destruct c
               end;
         rewrite ?handleNext_formData, ?handlePrevious_formData;
         reflexivity).
  right. exists now, st, field, value. split; [reflexivity|].
  apply render_payment in E. subst d0. reflexivity.
Qed.

Lemma handleInputChange_cardNumber (now : Date) (data : PaymentInfoData)
    (st : PaymentInfoStep.Local) (field : PaymentInfoStep.Field)
    (value : jsstring) :
  cardNumber (fst (PaymentInfoStep.handleInputChange now data st field value))
  = match field with
    | PaymentInfoStep.CardNumber => PaymentInfoStep.formatCardNumber value
    | _ => cardNumber data
    end.
Proof. destruct field; reflexivity. Qed.

Lemma formatted_at_most_16 (value : jsstring) :
  (Spec.countDigits (PaymentInfoStep.formatCardNumber value) <= 16)%nat /\
  (List.length (removeAll isWhiteSpace (PaymentInfoStep.formatCardNumber value))
   <= 16)%nat.
Proof.
  unfold Spec.countDigits.
  rewrite formatCardNumber_digits, formatCardNumber_clean.
  split; apply firstn_le_length.
Qed.

Lemma session_card_at_most_16 (actions : list Wizard.Action) :
  let stored := cardNumber (paymentInfo (formData (Wizard.session actions))) in
  (Spec.countDigits stored <= 16)%nat /\
  (List.length (removeAll isWhiteSpace stored) <= 16)%nat.
Proof.
  unfold Wizard.session.
  assert (G : forall s,
    (Spec.countDigits (cardNumber (paymentInfo (formData s))) <= 16)%nat /\
    (List.length (removeAll isWhiteSpace (cardNumber (paymentInfo (formData s))))
     <= 16)%nat ->
    let stored :=
      cardNumber (paymentInfo (formData (fold_left Wizard.act actions s))) in
    (Spec.countDigits stored <= 16)%nat /\
    (List.length (removeAll isWhiteSpace stored) <= 16)%nat).
  { induction actions as [|a actions IH]; intros s Hs; [exact Hs|].
    cbn [fold_left]. apply IH.
    destruct (act_paymentInfo s a) as [E | (now & st & field & value & _ & E)];
      rewrite E; [exact Hs|].
    rewrite handleInputChange_cardNumber.
    destruct field; try exact Hs. apply formatted_at_most_16. }
  apply G. cbn. split; lia.
Qed.

End InputPath.

(** C10.  The output of [formatCardNumber] never holds more than 16
    digits.  [handleInputChange] stores a card-number keystroke only
    after [formatCardNumber], so the stored [cardNumber], after one
    keystroke or after any session of the wizard, holds at most 16
    digits and at most 16 characters that are not white space: never 17,
    18 or 19.  [isValidCardNumber] nevertheless accepts 19-digit
    numbers such as ["4000000000000000006"]. *)
Theorem stored_cardNumber_at_most_16_digits :
  (forall value : jsstring,
     (Spec.countDigits (PaymentInfoStep.formatCardNumber value) <= 16)%nat) /\
  (forall now data st value,
     cardNumber
       (fst (PaymentInfoStep.handleInputChange now data st
               PaymentInfoStep.CardNumber value))
     = PaymentInfoStep.formatCardNumber value) /\
  (forall actions : list Wizard.Action,
     (Spec.countDigits
        (cardNumber
           (paymentInfo (OnboardingFlow.formData (Wizard.session actions))))
      <= 16)%nat /\
     (List.length
        (removeAll isWhiteSpace
           (cardNumber
              (paymentInfo (OnboardingFlow.formData (Wizard.session actions)))))
      <= 16)%nat) /\
  (Spec.countDigits (lit "4000000000000000006") = 19%nat /\
   PaymentInfoStep.isValidCardNumber (lit "4000000000000000006") = true).
Proof.
  repeat split.
  - apply formatted_at_most_16.
  - apply session_card_at_most_16.
  - apply session_card_at_most_16.
Qed.

(* ===================================================================== *)
(** * Expiry date mask *)
(* ===================================================================== *)

Lemma formatExpiryDate_unfold (s : jsstring) :
  PaymentInfoStep.formatExpiryDate s =
  if (2 <=? List.length (filter isDigit s))%nat
  then firstn 2 (filter isDigit s) ++ lit "/"
       ++ firstn 2 (skipn 2 (filter isDigit s))
  else filter isDigit s.
Proof.
  unfold PaymentInfoStep.formatExpiryDate, substr.
  rewrite removeAll_nonDigit. reflexivity.
Qed.

(** C9 (as amended).  [formatExpiryDate] strips the characters that are
    not digits; if at least two digits remain it returns the first two,
    a slash, and the third and fourth digits when present, dropping any
    digit after the fourth; otherwise it returns the digits as they are.
    ["1225"] becomes ["12/25"] and ["1"] stays ["1"]. *)
Theorem formatExpiryDate_mask :
  (forall s : jsstring,
     PaymentInfoStep.formatExpiryDate s =
     if (2 <=? List.length (filter isDigit s))%nat
     then firstn 2 (filter isDigit s) ++ lit "/"
          ++ firstn 2 (skipn 2 (filter isDigit s))
     else filter isDigit s) /\
  PaymentInfoStep.formatExpiryDate (lit "1225") = lit "12/25" /\
  PaymentInfoStep.formatExpiryDate (lit "1") = lit "1".
Proof.
  split; [apply formatExpiryDate_unfold | split; reflexivity].
Qed.

(** C9 as stated fails on five digits: inserting a slash after the
    second digit of ["12345"] gives ["12/345"], the code returns
    ["12/34"]. *)
Lemma formatExpiryDate_drops_fifth_digit :
  PaymentInfoStep.formatExpiryDate (lit "12345") = lit "12/34" /\
  Spec.maskExpiry (lit "12345") = lit "12/345" /\
  PaymentInfoStep.formatExpiryDate (lit "12345") <>
    Spec.maskExpiry (lit "12345").
Proof. repeat split. discriminate. Qed.

(** Up to four digits, the code and the stated mask agree. *)
Lemma formatExpiryDate_maskExpiry (s : jsstring) :
  (List.length (filter isDigit s) <= 4)%nat ->
  PaymentInfoStep.formatExpiryDate s = Spec.maskExpiry s.
Proof.
  intros H. rewrite formatExpiryDate_unfold. unfold Spec.maskExpiry.
  destruct (2 <=? _)%nat; [|reflexivity].
  rewrite (firstn_all2 (skipn 2 _)); [reflexivity|].
  rewrite length_skipn. lia.
Qed.

(* ===================================================================== *)
(** * Password strength *)
(* ===================================================================== *)

Lemma getPasswordStrength_criteriaMet (pwd : jsstring) :
  AccountSetupStep.getPasswordStrength pwd = Spec.criteriaMet pwd.
Proof.
  unfold AccountSetupStep.getPasswordStrength, Spec.criteriaMet.
  destruct pwd as [|c r]; [reflexivity|].
  cbn [truthy negb]. cbv iota.
  unfold AccountSetupStep.PASSWORD_CRITERIA.
  cbn [filter AccountSetupStep.criterionTest].
  rewrite !test_unanchored_Cls.
  destruct (8 <=? _)%nat, (existsb isUpper _), (existsb isLower _),
    (existsb isDigit _), (existsb (oneOf _) _); reflexivity.
Qed.

(** The single-page form's copy is the same function. *)
Lemma singlePage_getPasswordStrength (pwd : jsstring) :
  SinglePageOnboarding.getPasswordStrength pwd =
  AccountSetupStep.getPasswordStrength pwd.
Proof. reflexivity. Qed.

(** C4.  [getPasswordStrength] returns the number, from 0 to 5, of the
    five criteria the password meets (length at least 8, an uppercase
    letter, a lowercase letter, a digit, a special character), and
    [getPasswordStrengthDisplay] labels 0 and 1 as Weak, 2 and 3 as
    Fair, 4 as Good and 5 as Strong; ["Abcdef1!"] scores 5 and
    ["abcdef"] scores 1. *)
Theorem getPasswordStrength_counts_criteria :
  (forall pwd : jsstring,
     AccountSetupStep.getPasswordStrength pwd =
       Spec.b2z (8 <=? List.length pwd)%nat
       + Spec.b2z (existsb isUpper pwd)
       + Spec.b2z (existsb isLower pwd)
       + Spec.b2z (existsb isDigit pwd)
       + Spec.b2z (existsb (oneOf AccountSetupStep.specialChars) pwd) /\
     0 <= AccountSetupStep.getPasswordStrength pwd <= 5) /\
  (forall score : Z,
     AccountSetupStep.displayLabel
       (AccountSetupStep.getPasswordStrengthDisplay score) =
     if score <=? 1 then "Weak"%string
     else if score <=? 3 then "Fair"%string
     else if score <=? 4 then "Good"%string
     else "Strong"%string) /\
  map (fun score =>
         AccountSetupStep.displayLabel
           (AccountSetupStep.getPasswordStrengthDisplay score))
      [0; 1; 2; 3; 4; 5] =
    ["Weak"; "Weak"; "Fair"; "Fair"; "Good"; "Strong"]%string /\
  AccountSetupStep.getPasswordStrength (lit "Abcdef1!") = 5 /\
  AccountSetupStep.getPasswordStrength (lit "abcdef") = 1.
Proof.
  split; [|split; [|split; [|split]]]; try reflexivity.
  - intros pwd. rewrite getPasswordStrength_criteriaMet.
    unfold Spec.criteriaMet. split; [reflexivity|].
    destruct (8 <=? _)%nat, (existsb isUpper _), (existsb isLower _),
      (existsb isDigit _), (existsb (oneOf _) _); cbn; lia.
  - intros score. unfold AccountSetupStep.getPasswordStrengthDisplay.
    destruct (score <=? 1), (score <=? 3), (score <=? 4); reflexivity.
Qed.

(* ===================================================================== *)
(** * The fixed-shape patterns *)
(* ===================================================================== *)

Section Patterns.

Ltac invert_classes H :=
  repeat (apply Lang_Cls_Cat in H as (? & ? & -> & ? & H)).

Ltac build_classes :=
  repeat (apply Lang_Cls_Cat; eexists; eexists;
          split; [reflexivity | split; [eassumption|]]).

Ltac split_andb H :=
  repeat match type of H with
         | (_ && _)%bool = true => apply andb_true_iff in H as [H ?]
         end.

Lemma char_eqb_eq (a b : char) : char_eqb a b = true <-> a = b.
Proof. apply N.eqb_eq. Qed.

(** [/^\d{5}(-\d{4})?$/] *)
Lemma usZipRegex_shape (value : jsstring) :
  test BillingAddressStep.usZipRegex value = Spec.isUsZip value.
Proof.
  apply eq_true_iff_eq.
  unfold test, BillingAddressStep.usZipRegex.
  cbn [anchoredStart anchoredEnd body times]. unfold Opt, Chr.
  rewrite fullMatch_Lang. split.
  - intros H. invert_classes H.
    apply Lang_Alt_inv in H as [H | H].
    + invert_classes H. apply Lang_Eps_inv in H as ->.
      cbn [Spec.isUsZip]. cbv beta in *.
      repeat match goal with H : _ = true |- _ => rewrite H; clear H end.
      reflexivity.
    + apply Lang_Eps_inv in H as ->. cbn [Spec.isUsZip].
      repeat match goal with H : _ = true |- _ => rewrite H; clear H end.
      reflexivity.
  - intros H.
    destruct value as [|a [|b [|c [|d [|e [|h [|f [|g [|i [|j [|k r]]]]]]]]]]];
      cbn [Spec.isUsZip] in H; try discriminate H; split_andb H.
    + build_classes. apply L_AltR. constructor.
    + build_classes. apply L_AltL. build_classes. constructor.
Qed.

(** [/^\d{2}\/\d{2}$/] *)
Lemma expiryRegex_shape (value : jsstring) :
  test PaymentInfoStep.expiryRegex value =
  match Spec.readExpiry value with Some _ => true | None => false end.
Proof.
  apply eq_true_iff_eq.
  unfold test, PaymentInfoStep.expiryRegex.
  cbn [anchoredStart anchoredEnd body times]. unfold Chr.
  rewrite fullMatch_Lang. split.
  - intros H. invert_classes H. apply Lang_Eps_inv in H as ->.
    cbn [Spec.readExpiry]. cbv beta in *.
    repeat match goal with H : _ = true |- _ => rewrite H; clear H end.
    reflexivity.
  - intros H.
    destruct value as [|m1 [|m2 [|sl [|y1 [|y2 [|k r]]]]]];
      cbn [Spec.readExpiry] in H; try discriminate H.
    destruct (_ && _)%bool eqn:E in H; [|discriminate H].
    split_andb E. build_classes. constructor.
Qed.

(** A string matching a pattern that starts with [\d] is not blank. *)
Lemma digit_led_not_blank (r : regex) (value : jsstring) :
  test (mkRegExp true (Cat (Cls isDigit) r) true) value = true ->
  blank value = false.
Proof.
  unfold test. cbn [anchoredStart anchoredEnd body].
  rewrite fullMatch_Lang. intros H.
  apply Lang_Cls_Cat in H as (c & s' & -> & Hc & _).
  now apply blank_digit_first.
Qed.

Lemma whitespace_removed (value : jsstring) :
  forallb isWhiteSpace value = true -> removeAll isWhiteSpace value = [].
Proof.
  unfold removeAll. induction value as [|c s IH]; cbn [forallb filter];
    [reflexivity|].
  rewrite andb_true_iff. intros [Hc Hs]. rewrite Hc. cbn [negb]. auto.
Qed.

(** A valid card number is not blank. *)
Lemma valid_card_not_blank (value : jsstring) :
  PaymentInfoStep.isValidCardNumber value = true -> blank value = false.
Proof.
  rewrite isValidCardNumber_validCard, blank_spec. unfold Spec.validCard.
  destruct (forallb isWhiteSpace value) eqn:E; [|reflexivity].
  rewrite (whitespace_removed value E). cbn. discriminate.
Qed.

End Patterns.

(* ===================================================================== *)
(** * ZIP code validation *)
(* ===================================================================== *)

Section ZipCode.

Import BillingAddressStep.

Lemma trim_long_not_blank (value : jsstring) (n : nat) :
  (S n <= List.length (trim value))%nat -> blank value = false.
Proof.
  unfold blank. destruct (trim value); cbn; [lia | reflexivity].
Qed.

Lemma zipCode_blank (data : BillingAddressData) (value : jsstring) :
  forallb isWhiteSpace value = true ->
  validateField data ZipCode value =
  Some "ZIP/Postal code is required"%string.
Proof.
  intros H. unfold validateField. now rewrite blank_spec, H.
Qed.

Lemma zipCode_US (data : BillingAddressData) (value : jsstring) :
  country data = lit "United States" ->
  (validateField data ZipCode value = None <->
   test usZipRegex value = true).
Proof.
  intros Hc. unfold validateField.
  assert (E : str_eqb (country data) (lit "United States") = true)
    by now apply str_eqb_eq.
  rewrite E. destruct (test usZipRegex value) eqn:T.
  - rewrite (digit_led_not_blank _ value T). cbn. tauto.
  - destruct (blank value); cbn; split; discriminate.
Qed.

Lemma zipCode_elsewhere (data : BillingAddressData) (value : jsstring) :
  country data <> lit "United States" ->
  (validateField data ZipCode value = None <->
   (3 <= List.length (trim value))%nat).
Proof.
  intros Hc. unfold validateField.
  assert (E : str_eqb (country data) (lit "United States") = false).
  { destruct (str_eqb _ _) eqn:E; [|reflexivity].
    apply str_eqb_eq in E. contradiction. }
  rewrite E. destruct (List.length (trim value) <? 3)%nat eqn:L.
  - apply Nat.ltb_lt in L. destruct (blank value); split;
      try discriminate; lia.
  - apply Nat.ltb_ge in L. rewrite (trim_long_not_blank value 2 L).
    tauto.
Qed.

End ZipCode.

(** C6.  The billing-address [zipCode] validator: a blank value yields
    the required error whatever the country; when the country is
    "United States" there is no error exactly when the value matches
    [\d{5}(-\d{4})?], i.e. is five digits optionally followed by a
    hyphen and four digits, so that "1234" gets the valid-ZIP-code
    error while "12345" and "12345-6789" pass; for any other country
    there is no error exactly when the trimmed value has length at
    least 3. *)
Theorem zipCode_validation :
  (forall data value,
     forallb isWhiteSpace value = true ->
     BillingAddressStep.validateField data BillingAddressStep.ZipCode value =
     Some "ZIP/Postal code is required"%string) /\
  (forall data value,
     country data = lit "United States" ->
     (BillingAddressStep.validateField data BillingAddressStep.ZipCode value
      = None <->
      test BillingAddressStep.usZipRegex value = true)) /\
  (forall data value,
     country data <> lit "United States" ->
     (BillingAddressStep.validateField data BillingAddressStep.ZipCode value
      = None <->
      (3 <= List.length (trim value))%nat)) /\
  (forall value,
     test BillingAddressStep.usZipRegex value = Spec.isUsZip value) /\
  (forall data,
     country data = lit "United States" ->
     BillingAddressStep.validateField data BillingAddressStep.ZipCode
       (lit "1234") =
     Some "Please enter a valid ZIP code (12345 or 12345-6789)"%string /\
     BillingAddressStep.validateField data BillingAddressStep.ZipCode
       (lit "12345") = None /\
     BillingAddressStep.validateField data BillingAddressStep.ZipCode
       (lit "12345-6789") = None).
Proof.
  split; [exact zipCode_blank|].
  split; [exact zipCode_US|].
  split; [exact zipCode_elsewhere|].
  split; [exact usZipRegex_shape|].
  intros data Hc. unfold BillingAddressStep.validateField. rewrite Hc.
  repeat split; vm_compute; reflexivity.
Qed.

(** The hypotheses of [zipCode_validation] at concrete addresses: a
    blank value, a US address and a Canadian one. *)
Lemma zipCode_validation_witness :
  (forallb isWhiteSpace (lit "  ") = true /\
   BillingAddressStep.validateField
     (mkBillingAddress (lit "1 Main St") [] (lit "Springfield")
        (lit "Illinois") (lit "  ") (lit "United States"))
     BillingAddressStep.ZipCode (lit "  ")
   = Some "ZIP/Postal code is required"%string) /\
  (country
     (mkBillingAddress (lit "1 Main St") [] (lit "Springfield")
        (lit "Illinois") (lit "12345") (lit "United States"))
   = lit "United States" /\
   BillingAddressStep.validateField
     (mkBillingAddress (lit "1 Main St") [] (lit "Springfield")
        (lit "Illinois") (lit "12345") (lit "United States"))
     BillingAddressStep.ZipCode (lit "12345") = None) /\
  (country
     (mkBillingAddress (lit "1 Main St") [] (lit "Toronto")
        (lit "Ontario") (lit "M5V") (lit "Canada"))
   <> lit "United States" /\
   BillingAddressStep.validateField
     (mkBillingAddress (lit "1 Main St") [] (lit "Toronto")
        (lit "Ontario") (lit "M5V") (lit "Canada"))
     BillingAddressStep.ZipCode (lit "M5V") = None).
Proof.
  destruct zipCode_validation as (Hblank & Hus & Helse & _ & Hex).
  split; [|split].
  - split; [reflexivity|]. apply Hblank. reflexivity.
  - split; [reflexivity|]. refine (proj2 (Hus _ _ _) _); reflexivity.
  - assert (Hne : lit "Canada" <> lit "United States") by discriminate.
    split; [exact Hne|].
    refine (proj2 (Helse _ _ _) _); [exact Hne | vm_compute; lia].
Defined.

(* ===================================================================== *)
(** * Expiry date validation *)
(* ===================================================================== *)

Section Expiry.

Import PaymentInfoStep.

Lemma digit_not_slash (c : char) : isDigit c = true -> char_eqb c 47 = false.
Proof. revert c. apply digit_ind; reflexivity. Qed.

(** A value of the shape [MM/YY] splits at the slash into month and
    year. *)
Lemma split_expiry (m1 m2 y1 y2 : char) :
  isDigit m1 = true -> isDigit m2 = true ->
  isDigit y1 = true -> isDigit y2 = true ->
  split 47 [m1; m2; 47%N; y1; y2] = [[m1; m2]; [y1; y2]].
Proof.
  intros H1 H2 H3 H4. cbn [split].
  rewrite (digit_not_slash _ H1), (digit_not_slash _ H2),
    (digit_not_slash _ H3), (digit_not_slash _ H4).
  reflexivity.
Qed.

Lemma readExpiry_shape (value : jsstring) (mm yy : Z) :
  Spec.readExpiry value = Some (mm, yy) ->
  exists m1 m2 y1 y2,
    value = [m1; m2; 47%N; y1; y2] /\
    isDigit m1 = true /\ isDigit m2 = true /\
    isDigit y1 = true /\ isDigit y2 = true /\
    mm = 10 * Spec.digitOf m1 + Spec.digitOf m2 /\
    yy = 10 * Spec.digitOf y1 + Spec.digitOf y2.
Proof.
  intros H.
  destruct value as [|m1 [|m2 [|sl [|y1 [|y2 [|k r]]]]]];
    cbn [Spec.readExpiry] in H; try discriminate H.
  destruct (_ && _)%bool eqn:E in H; [|discriminate H].
  inversion H; subst mm yy; clear H.
  repeat match type of E with
         | (_ && _)%bool = true => apply andb_true_iff in E as [E ?]
         end.
  match goal with H : char_eqb sl 47 = true |- _ =>
    apply N.eqb_eq in H; subst sl end.
  exists m1, m2, y1, y2. repeat split; assumption.
Qed.

(** The code's validator is the stated verdict, after the check for a
    blank value. *)
Lemma validateField_expiry (now : Date) (value : jsstring) :
  validateField now ExpiryDate value =
  Spec.expiryVerdictWithRequired now value.
Proof.
  unfold validateField, Spec.expiryVerdictWithRequired.
  rewrite blank_spec. destruct (forallb isWhiteSpace value); [reflexivity|].
  rewrite expiryRegex_shape. unfold Spec.expiryVerdict.
  destruct (Spec.readExpiry value) as [[mm yy]|] eqn:R; [|reflexivity].
  apply readExpiry_shape in R
    as (m1 & m2 & y1 & y2 & -> & H1 & H2 & H3 & H4 & -> & ->).
  cbn [negb]. cbv iota. rewrite split_expiry by assumption.
  cbn [nth_error parseIntOpt].
  rewrite !parseInt_two_digits by assumption.
  unfold Spec.strictlyBefore, Spec.currentYear, Spec.currentMonth.
  cbn [fst snd nlt ngt nseq nrem nadd]. rewrite (Z.eqb_compare 100 0).
  cbn [Z.compare]. reflexivity.
Qed.

Lemma expiryVerdict_None (now : Date) (value : jsstring) :
  Spec.expiryVerdict now value = None <->
  exists mm yy,
    Spec.readExpiry value = Some (mm, yy) /\ 1 <= mm <= 12 /\
    Spec.strictlyBefore (yy, mm) (Spec.currentYear now, Spec.currentMonth now)
    = false.
Proof.
  unfold Spec.expiryVerdict.
  destruct (Spec.readExpiry value) as [[mm yy]|].
  - destruct ((mm <? 1) || (12 <? mm))%bool eqn:M.
    + split; [discriminate|]. intros (mm' & yy' & E & Hm & _).
      inversion E; subst. apply orb_true_iff in M as [M | M];
        [apply Z.ltb_lt in M | apply Z.ltb_lt in M]; lia.
    + apply orb_false_iff in M as [M1 M2].
      apply Z.ltb_ge in M1, M2.
      destruct (Spec.strictlyBefore _ _) eqn:B.
      * split; [discriminate|]. intros (mm' & yy' & E & _ & B').
        inversion E; subst. congruence.
      * split; [|reflexivity]. intros _. exists mm, yy.
        repeat split; auto.
  - split; [discriminate|]. intros (mm & yy & E & _). discriminate E.
Qed.

(** For the years of the common era, [%] is the remainder modulo 100. *)
Lemma currentYear_mod (now : Date) :
  0 <= getFullYear now ->
  Spec.currentYear now = getFullYear now mod 100.
Proof.
  intros H. unfold Spec.currentYear. apply Z.rem_mod_nonneg; lia.
Qed.

Lemma readExpiry_not_blank (value : jsstring) (my : Z * Z) :
  Spec.readExpiry value = Some my -> forallb isWhiteSpace value = false.
Proof.
  destruct my as [mm yy]. intros H.
  apply readExpiry_shape in H as (m1 & m2 & y1 & y2 & -> & H1 & _).
  cbn [forallb]. now rewrite (digit_not_space _ H1).
Qed.

End Expiry.

(** C5 (as amended).  For every value and every current date, the
    [expiryDate] validator of the payment step returns no error if and
    only if the value is two digits, a slash and two digits, the month
    lies between 1 and 12, and (year, month) is not strictly before
    (current year % 100, current month).  Otherwise it returns the
    required error when the value is blank, and else the bad-format,
    invalid-month or expired error, in this order of precedence. *)
Theorem expiryDate_validation :
  forall (now : Date) (value : jsstring),
    (PaymentInfoStep.validateField now PaymentInfoStep.ExpiryDate value = None
     <->
     exists mm yy,
       Spec.readExpiry value = Some (mm, yy) /\ 1 <= mm <= 12 /\
       Spec.strictlyBefore (yy, mm)
         (Spec.currentYear now, Spec.currentMonth now) = false) /\
    PaymentInfoStep.validateField now PaymentInfoStep.ExpiryDate value =
      (if forallb isWhiteSpace value
       then Some "Expiry date is required"%string
       else Spec.expiryVerdict now value) /\
    test PaymentInfoStep.expiryRegex value =
      (match Spec.readExpiry value with Some _ => true | None => false end).
Proof.
  intros now value. split; [|split].
  - rewrite validateField_expiry, <- expiryVerdict_None.
    unfold Spec.expiryVerdictWithRequired.
    destruct (forallb isWhiteSpace value) eqn:B; [|tauto].
    split; [discriminate|]. intros H.
    apply expiryVerdict_None in H as (mm & yy & E & _).
    apply readExpiry_not_blank in E. congruence.
  - apply validateField_expiry.
  - apply expiryRegex_shape.
Qed.

(** C5 as stated fails on the empty string: the code answers with the
    required error, which is none of the three errors of the
    statement. *)
Lemma expiryDate_blank_gets_required_error :
  PaymentInfoStep.validateField (mkDate 2026 10) PaymentInfoStep.ExpiryDate []
    = Some "Expiry date is required"%string /\
  Spec.expiryVerdict (mkDate 2026 10) []
    = Some "Please enter date as MM/YY"%string /\
  PaymentInfoStep.validateField (mkDate 2026 10) PaymentInfoStep.ExpiryDate []
    <> Spec.expiryVerdict (mkDate 2026 10) [].
Proof. repeat split. discriminate. Qed.

(* ===================================================================== *)
(** * Step navigation *)
(* ===================================================================== *)

Section Navigation.

Import OnboardingFlow.

Lemma handleNext_currentStep (s : State) :
  currentStep (handleNext s) =
  if currentStep s <? 4 then currentStep s + 1 else currentStep s.
Proof.
  unfold handleNext.
  change (Z.of_nat (List.length ONBOARDING_STEPS) - 1) with 4.
  now destruct (currentStep s <? 4).
Qed.

Lemma handlePrevious_currentStep (s : State) :
  currentStep (handlePrevious s) =
  if currentStep s >? 0 then currentStep s - 1 else currentStep s.
Proof.
  unfold handlePrevious. now destruct (currentStep s >? 0).
Qed.

Lemma step_in_range (s : State) (e : Event) :
  0 <= currentStep s <= 4 -> 0 <= currentStep (step s e) <= 4.
Proof.
  intros H. destruct e; cbn [step].
  - rewrite handleNext_currentStep.
    destruct (currentStep s <? 4) eqn:E; [apply Z.ltb_lt in E|]; lia.
  - rewrite handlePrevious_currentStep. rewrite Z.gtb_ltb.
    destruct (0 <? currentStep s) eqn:E; [apply Z.ltb_lt in E|]; lia.
  - exact H.
Qed.

Lemma run_in_range (events : list Event) (s : State) :
  0 <= currentStep s <= 4 -> 0 <= currentStep (run s events) <= 4.
Proof.
  unfold run. revert s.
  induction events as [|e events IH]; intros s H; [exact H|].
  cbn [fold_left]. apply IH, step_in_range, H.
Qed.

(** A step that is handed [onPrevious] is mounted at index 1 to 4. *)
Lemma receivesOnPrevious_index (s : State) (view : View) :
  renderCurrentStep s = Some view -> receivesOnPrevious view = true ->
  1 <= currentStep s <= 4.
Proof.
  unfold renderCurrentStep.
  destruct (currentStep s <? 0) eqn:E; [discriminate|].
  apply Z.ltb_ge in E.
  destruct (Z.to_nat (currentStep s)) as [|[|[|[|[|n]]]]] eqn:N;
    cbn [nth_error ONBOARDING_STEPS id]; intros H R;
    try (destruct n; discriminate H);
    inversion H; subst; cbn [receivesOnPrevious] in R;
    try discriminate R; lia.
Qed.

Lemma previous_then_next (s : State) :
  1 <= currentStep s <= 4 -> handleNext (handlePrevious s) = s.
Proof.
  intros H. unfold handleNext, handlePrevious, setCurrentStep.
  change (Z.of_nat (List.length ONBOARDING_STEPS) - 1) with 4.
  rewrite Z.gtb_ltb. destruct (0 <? currentStep s) eqn:E;
    [|apply Z.ltb_ge in E; lia].
  cbn [currentStep].
  destruct (currentStep s - 1 <? 4) eqn:E2; [|apply Z.ltb_ge in E2; lia].
  destruct s as [n d b e]. cbn [currentStep formData isSubmitting submitError].
  f_equal. lia.
Qed.

End Navigation.

(** C7 (as amended).  In the [OnboardingFlow] controller,
    [handleNext] and [handlePrevious] change nothing but the step
    index: the form data, [isSubmitting] and [submitError] are left as
    they are.  [handleNext] increments the index only when it is below
    4 and [handlePrevious] decrements it only when it is above 0, so
    from the initial index 0 the index stays within 0..4 whatever the
    sequence of next, previous and update events.  From every step but
    the first (the steps that are handed [onPrevious], index 1 to 4)
    previous followed by next gives back the same state: same index,
    same field values.  At index 0 [handlePrevious] changes nothing and
    the following [handleNext] moves to index 1, the field values still
    unchanged. *)
Theorem navigation_frame :
  (forall s : OnboardingFlow.State,
     (OnboardingFlow.formData (OnboardingFlow.handleNext s) =
        OnboardingFlow.formData s /\
      OnboardingFlow.isSubmitting (OnboardingFlow.handleNext s) =
        OnboardingFlow.isSubmitting s /\
      OnboardingFlow.submitError (OnboardingFlow.handleNext s) =
        OnboardingFlow.submitError s) /\
     (OnboardingFlow.formData (OnboardingFlow.handlePrevious s) =
        OnboardingFlow.formData s /\
      OnboardingFlow.isSubmitting (OnboardingFlow.handlePrevious s) =
        OnboardingFlow.isSubmitting s /\
      OnboardingFlow.submitError (OnboardingFlow.handlePrevious s) =
        OnboardingFlow.submitError s)) /\
  (forall s : OnboardingFlow.State,
     OnboardingFlow.currentStep (OnboardingFlow.handleNext s) =
       (if OnboardingFlow.currentStep s <? 4
        then OnboardingFlow.currentStep s + 1
        else OnboardingFlow.currentStep s) /\
     OnboardingFlow.currentStep (OnboardingFlow.handlePrevious s) =
       (if OnboardingFlow.currentStep s >? 0
        then OnboardingFlow.currentStep s - 1
        else OnboardingFlow.currentStep s)) /\
  OnboardingFlow.currentStep OnboardingFlow.initialState = 0 /\
  (forall events : list OnboardingFlow.Event,
     0 <= OnboardingFlow.currentStep
            (OnboardingFlow.run OnboardingFlow.initialState events) <= 4) /\
  (forall (s : OnboardingFlow.State) (view : OnboardingFlow.View),
     OnboardingFlow.renderCurrentStep s = Some view ->
     OnboardingFlow.receivesOnPrevious view = true ->
     OnboardingFlow.handleNext (OnboardingFlow.handlePrevious s) = s) /\
  (forall events : list OnboardingFlow.Event,
     OnboardingFlow.handleNext
       (OnboardingFlow.handlePrevious
          (OnboardingFlow.run OnboardingFlow.initialState events)) =
     if OnboardingFlow.currentStep
          (OnboardingFlow.run OnboardingFlow.initialState events) =? 0
     then OnboardingFlow.setCurrentStep 1
            (OnboardingFlow.run OnboardingFlow.initialState events)
     else OnboardingFlow.run OnboardingFlow.initialState events).
Proof.
  split; [|split; [|split; [|split; [|split]]]].
  - intros s. unfold OnboardingFlow.handleNext, OnboardingFlow.handlePrevious.
    destruct (OnboardingFlow.currentStep s <? _),
      (OnboardingFlow.currentStep s >? 0); repeat split.
  - intros s. split;
      [apply handleNext_currentStep | apply handlePrevious_currentStep].
  - reflexivity.
  - intros events. apply run_in_range. cbn. lia.
  - intros s view Hr Hp. apply previous_then_next.
    eapply receivesOnPrevious_index; eassumption.
  - intros events.
    assert (R : 0 <= OnboardingFlow.currentStep
                       (OnboardingFlow.run OnboardingFlow.initialState events)
                <= 4) by (apply run_in_range; cbn; lia).
    destruct (OnboardingFlow.currentStep _ =? 0) eqn:E;
      [apply Z.eqb_eq in E | apply Z.eqb_neq in E].
    + unfold OnboardingFlow.handlePrevious. rewrite E.
      change (0 >? 0) with false. cbv iota.
      unfold OnboardingFlow.handleNext. rewrite E. reflexivity.
    + apply previous_then_next. lia.
Qed.

(** C7 as stated, for every state, fails at the first step: there
    previous followed by next does not restore the index 0 but leaves
    the wizard at index 1. *)
Lemma previous_then_next_at_first_step :
  OnboardingFlow.currentStep OnboardingFlow.initialState = 0 /\
  OnboardingFlow.currentStep
    (OnboardingFlow.handleNext
       (OnboardingFlow.handlePrevious OnboardingFlow.initialState)) = 1 /\
  OnboardingFlow.handleNext
    (OnboardingFlow.handlePrevious OnboardingFlow.initialState) <>
  OnboardingFlow.initialState.
Proof. repeat split. discriminate. Qed.

(** The hypotheses of [navigation_frame] on the payment step, with a
    card number already entered. *)
Lemma navigation_frame_witness :
  OnboardingFlow.renderCurrentStep
    (OnboardingFlow.mkState 3
       (mkOnboardingData (mkPersonalInfo (lit "Ada") (lit "Lovelace")
                            (lit "ada@example.org"))
          (mkAccountSetup (lit "Abcdef1!") (lit "Abcdef1!"))
          (mkBillingAddress (lit "1 Main St") [] (lit "Springfield")
             (lit "Illinois") (lit "12345") (lit "United States"))
          (mkPaymentInfo (lit "4111 1111 1111 1111") [] [] [])
          false)
       false None)
  = Some (OnboardingFlow.PaymentInfoView
            (mkPaymentInfo (lit "4111 1111 1111 1111") [] [] [])) /\
  OnboardingFlow.receivesOnPrevious
    (OnboardingFlow.PaymentInfoView
       (mkPaymentInfo (lit "4111 1111 1111 1111") [] [] [])) = true /\
  OnboardingFlow.handleNext
    (OnboardingFlow.handlePrevious
       (OnboardingFlow.mkState 3
          (mkOnboardingData (mkPersonalInfo (lit "Ada") (lit "Lovelace")
                               (lit "ada@example.org"))
             (mkAccountSetup (lit "Abcdef1!") (lit "Abcdef1!"))
             (mkBillingAddress (lit "1 Main St") [] (lit "Springfield")
                (lit "Illinois") (lit "12345") (lit "United States"))
             (mkPaymentInfo (lit "4111 1111 1111 1111") [] [] [])
             false)
          false None))
  = OnboardingFlow.mkState 3
      (mkOnboardingData (mkPersonalInfo (lit "Ada") (lit "Lovelace")
                           (lit "ada@example.org"))
         (mkAccountSetup (lit "Abcdef1!") (lit "Abcdef1!"))
         (mkBillingAddress (lit "1 Main St") [] (lit "Springfield")
            (lit "Illinois") (lit "12345") (lit "United States"))
         (mkPaymentInfo (lit "4111 1111 1111 1111") [] [] [])
         false)
      false None.
Proof.
  split; [reflexivity|]. split; [reflexivity|].
  destruct navigation_frame as (_ & _ & _ & _ & H & _).
  refine (H _ _ _ _); reflexivity.
Defined.

(** The first step is not handed [onPrevious]; there [handlePrevious]
    would change nothing, and a following [handleNext] moves on to
    index 1. *)
Remark first_step_has_no_previous :
  OnboardingFlow.renderCurrentStep OnboardingFlow.initialState =
    Some (OnboardingFlow.PersonalInfoView (mkPersonalInfo [] [] [])) /\
  OnboardingFlow.receivesOnPrevious
    (OnboardingFlow.PersonalInfoView (mkPersonalInfo [] [] [])) = false /\
  OnboardingFlow.handlePrevious OnboardingFlow.initialState =
    OnboardingFlow.initialState /\
  OnboardingFlow.currentStep
    (OnboardingFlow.handleNext
       (OnboardingFlow.handlePrevious OnboardingFlow.initialState)) = 1.
Proof. repeat split. Qed.

(* ===================================================================== *)
(** * Terms confirmation *)
(* ===================================================================== *)

(** C8.  On the terms-confirmation step the submit handler calls
    [onSubmit] if and only if [termsAccepted] is true: with
    [termsAccepted] false it returns after [preventDefault] whatever the
    other fields hold (and the submit button is disabled), with
    [termsAccepted] true it calls [onSubmit] once.  The step is handed
    the [termsAccepted] flag of the form data. *)
Theorem handleSubmit_requires_terms :
  (forall props : TermsConfirmationStep.Props,
     In TermsConfirmationStep.OnSubmit
        (TermsConfirmationStep.handleSubmit props) <->
     TermsConfirmationStep.propTermsAccepted props = true) /\
  (forall (data : OnboardingData) (submitting : bool) (err : option string),
     TermsConfirmationStep.handleSubmit
       (TermsConfirmationStep.mkProps data false submitting err) =
     [TermsConfirmationStep.PreventDefault] /\
     TermsConfirmationStep.handleSubmit
       (TermsConfirmationStep.mkProps data true submitting err) =
     [TermsConfirmationStep.PreventDefault; TermsConfirmationStep.OnSubmit] /\
     TermsConfirmationStep.submitDisabled
       (TermsConfirmationStep.mkProps data false submitting err) = true) /\
  (forall s : OnboardingFlow.State,
     match OnboardingFlow.renderCurrentStep s with
     | Some (OnboardingFlow.TermsConfirmationView props) =>
         TermsConfirmationStep.data props = OnboardingFlow.formData s /\
         TermsConfirmationStep.propTermsAccepted props =
           termsAccepted (OnboardingFlow.formData s)
     | _ => True
     end).
Proof.
  split; [|split].
  - intros [data terms submitting err].
    unfold TermsConfirmationStep.handleSubmit.
    cbn [TermsConfirmationStep.propTermsAccepted].
    destruct terms; cbn; split; intros H; auto; try discriminate.
    destruct H as [H | []]. discriminate H.
  - intros data submitting err. repeat split.
  - intros s. unfold OnboardingFlow.renderCurrentStep.
    destruct (OnboardingFlow.currentStep s <? 0); [exact I|].
    destruct (nth_error _ _) as [st|]; [|exact I].
    destruct (OnboardingFlow.id st); cbn; auto.
Qed.

(* ===================================================================== *)
(** * The wizard and the single-page form *)
(* ===================================================================== *)

Section TwoVariants.

Lemma validateForm_passwordError (data : AccountSetupData) :
  AccountSetupStep.passwordError (fst (AccountSetupStep.validateForm data)) =
  if negb (truthy (password data))
  then Some "Password is required"%string
  else if AccountSetupStep.getPasswordStrength (password data) <? 5
  then Some "Password must meet all security requirements"%string
  else None.
Proof.
  unfold AccountSetupStep.validateForm.
  destruct (negb (truthy (password data)));
    [|destruct (_ <? 5)];
    destruct (negb (truthy (confirmPassword data)));
    try destruct (negb (str_eqb _ _)); reflexivity.
Qed.

Lemma validateForm_confirmPasswordError (data : AccountSetupData) :
  AccountSetupStep.confirmPasswordError
    (fst (AccountSetupStep.validateForm data)) =
  if negb (truthy (confirmPassword data))
  then Some "Password confirmation is required"%string
  else if negb (str_eqb (password data) (confirmPassword data))
  then Some "Passwords do not match"%string
  else None.
Proof.
  unfold AccountSetupStep.validateForm.
  destruct (negb (truthy (password data)));
    [|destruct (_ <? 5)];
    destruct (negb (truthy (confirmPassword data)));
    try destruct (negb (str_eqb _ _)); reflexivity.
Qed.

Ltac case_ifs :=
  repeat match goal with
         | |- context [if ?c then _ else _] => destruct c eqn:?
         | H : context [if ?c then _ else _] |- _ => destruct c eqn:?
         end;
  cbn [SinglePageOnboarding.unset negb] in *;
  try reflexivity; try discriminate; try congruence.

Ltac same_literals :=
  change SinglePageOnboarding.emailRegex with PersonalInfoStep.emailRegex;
  change SinglePageOnboarding.expiryRegex with PaymentInfoStep.expiryRegex;
  change SinglePageOnboarding.cvvRegex with PaymentInfoStep.cvvRegex;
  change SinglePageOnboarding.isValidCardNumber
    with PaymentInfoStep.isValidCardNumber;
  change SinglePageOnboarding.getPasswordStrength
    with AccountSetupStep.getPasswordStrength.

Ltac open_validators :=
  unfold multiStepAccepts, singlePageAccepts,
    SinglePageOnboarding.validateForm,
    PersonalInfoStep.validateField, BillingAddressStep.validateField,
    PaymentInfoStep.validateField;
  rewrite ?validateForm_passwordError, ?validateForm_confirmPasswordError;
  cbn [fst snd PersonalInfoStep.get BillingAddressStep.get
       PaymentInfoStep.get
       SinglePageOnboarding.e_firstName SinglePageOnboarding.e_lastName
       SinglePageOnboarding.e_email SinglePageOnboarding.e_password
       SinglePageOnboarding.e_confirmPassword
       SinglePageOnboarding.e_addressLine1 SinglePageOnboarding.e_city
       SinglePageOnboarding.e_state SinglePageOnboarding.e_zipCode
       SinglePageOnboarding.e_country SinglePageOnboarding.e_cardNumber
       SinglePageOnboarding.e_expiryDate SinglePageOnboarding.e_cvv
       SinglePageOnboarding.e_cardholderName];
  same_literals.

Lemma empty_password_is_weak :
  (AccountSetupStep.getPasswordStrength [] <? 5) = true.
Proof. reflexivity. Qed.

Lemma cvv_not_blank (value : jsstring) :
  test PaymentInfoStep.cvvRegex value = true -> blank value = false.
Proof.
  exact (digit_led_not_blank
           (times 2 (Cls isDigit) (Opt (Cls isDigit))) value).
Qed.

(** On these fields the two variants accept the same values. *)
Lemma same_rule_fields (now : Date) (d : OnboardingData) (f : FormField) :
  sameRule f = true -> multiStepAccepts now d f = singlePageAccepts d f.
Proof.
  destruct f as [[| |]| | |[| | | | |]|[| | |]]; cbn [sameRule];
    try discriminate; intros _; open_validators.
  - (* email *) case_ifs.
  - (* password *)
    destruct (password (accountSetup d)) as [|c r] eqn:P.
    + cbn [truthy negb]. cbv iota. rewrite empty_password_is_weak.
      reflexivity.
    + cbn [truthy negb]. cbv iota.
      destruct (_ <? 5); reflexivity.
  - (* addressLine2 *) reflexivity.
  - (* state *) case_ifs.
  - (* country *) case_ifs.
  - (* cardNumber *)
    destruct (PaymentInfoStep.isValidCardNumber _) eqn:V.
    + rewrite (valid_card_not_blank _ V). reflexivity.
    + destruct (blank _); reflexivity.
  - (* cvv *)
    destruct (test PaymentInfoStep.cvvRegex _) eqn:T.
    + rewrite (cvv_not_blank _ T). reflexivity.
    + destruct (blank _); reflexivity.
Qed.

(** Whatever the wizard accepts, the single-page form accepts. *)
Lemma wizard_stricter (now : Date) (d : OnboardingData) (f : FormField) :
  multiStepAccepts now d f = true -> singlePageAccepts d f = true.
Proof.
  destruct (sameRule f) eqn:S.
  - now rewrite (same_rule_fields now d f S).
  - destruct f as [[| |]| | |[| | | | |]|[| | |]]; cbn [sameRule] in S;
      try discriminate S; clear S; open_validators.
    + (* firstName *) case_ifs.
    + (* lastName *) case_ifs.
    + (* confirmPassword *) case_ifs.
    + (* addressLine1 *) case_ifs.
    + (* city *) case_ifs.
    + (* zipCode *) case_ifs.
    + (* expiryDate *)
      destruct (blank _); [discriminate|].
      destruct (test PaymentInfoStep.expiryRegex _); [reflexivity|].
      discriminate.
    + (* cardholderName *) case_ifs.
Qed.

End TwoVariants.




(* ===================================================================== *)
(** * Worked examples *)
(* ===================================================================== *)

Example trim_example : trim (lit "  ab " ++ [9%N; 10%N]) = lit "ab".
Proof. reflexivity. Qed.

Example split_example :
  split 47 (lit "12/25") = [lit "12"; lit "25"] /\ split 47 [] = [[]].
Proof. split; reflexivity. Qed.

Example parseInt_examples :
  parseInt (lit "08") None = Num 8 /\
  parseInt (lit "0x1f") None = Num 31 /\
  parseInt (lit " -12px") (Some 10) = Num (-12) /\
  parseInt (lit "px") None = NaN /\
  parseInt [] (Some 10) = NaN.
Proof. repeat split. Qed.

(** A line terminator ends a chunk and belongs to none. *)
Example matchDot1to4_example :
  matchDot1to4 (lit "12345" ++ [10%N] ++ lit "678") =
  [lit "1234"; lit "5"; lit "678"].
Proof. reflexivity. Qed.

Example emailRegex_examples :
  test PersonalInfoStep.emailRegex (lit "ada@example.org") = true /\
  test PersonalInfoStep.emailRegex (lit "ada@example") = false /\
  test PersonalInfoStep.emailRegex (lit "a b@example.org") = false /\
  test PersonalInfoStep.emailRegex (lit "a@b@example.org") = false.
Proof. repeat split; vm_compute; reflexivity. Qed.

Example cvvRegex_examples :
  map (test PaymentInfoStep.cvvRegex)
      [lit "12"; lit "123"; lit "1234"; lit "12345"; lit "12a"] =
  [false; true; true; false; false].
Proof. vm_compute. reflexivity. Qed.

Example isValidCardNumber_grouped :
  PaymentInfoStep.isValidCardNumber (lit "4111 1111 1111 1111") = true /\
  PaymentInfoStep.isValidCardNumber (lit "4111-1111-1111-1111") = false /\
  PaymentInfoStep.isValidCardNumber (lit "411111111111") = false.
Proof. repeat split; vm_compute; reflexivity. Qed.

(** The expiry validator in November 2026 ([getMonth() = 10]). *)
Example expiry_examples :
  map (PaymentInfoStep.validateField (mkDate 2026 10)
         PaymentInfoStep.ExpiryDate)
      [lit "11/26"; lit "10/26"; lit "01/27"; lit "12/25"; lit "13/30";
       lit "00/30"; lit "1/30"; lit " "] =
  [None; Some "Card has expired"; None; Some "Card has expired";
   Some "Invalid month"; Some "Invalid month";
   Some "Please enter date as MM/YY"; Some "Expiry date is required"]%string.
Proof. vm_compute. reflexivity. Qed.

(** Typing a seventeenth digit changes nothing. *)
Example seventeenth_digit :
  PaymentInfoStep.formatCardNumber (lit "4111 1111 1111 11112") =
  lit "4111 1111 1111 1111".
Proof. reflexivity. Qed.

(** A whole session: the four forms are filled in and submitted, then
    the user goes back once and forward again. *)
Example session_example :
  OnboardingFlow.currentStep
    (Wizard.session
       [ Wizard.EditPersonalInfo
           (mkPersonalInfo (lit "Ada") (lit "Lovelace")
              (lit "ada@example.org"));
         Wizard.SubmitStep (mkDate 2026 10);
         Wizard.EditAccountSetup
           (mkAccountSetup (lit "Abcdef1!") (lit "Abcdef1!"));
         Wizard.SubmitStep (mkDate 2026 10);
         Wizard.EditBillingAddress
           (mkBillingAddress (lit "1 Main St") [] (lit "Springfield")
              (lit "Illinois") (lit "12345") (lit "United States"));
         Wizard.SubmitStep (mkDate 2026 10);
         Wizard.ClickPrevious;
         Wizard.SubmitStep (mkDate 2026 10) ]) = 3.
Proof. vm_compute. reflexivity. Qed.

(* ===================================================================== *)
(** * Card type detection *)
(* ===================================================================== *)

Section CardType.

Import PaymentInfoStep.

(** A pattern anchored at the start only matches by a prefix. *)
Lemma test_prefix (r : regex) (s : jsstring) :
  test (mkRegExp true r false) s = true <->
  exists p q, s = p ++ q /\ Lang r p.
Proof.
  unfold test. cbn [anchoredStart anchoredEnd body].
  rewrite fullMatch_Lang, Lang_Cat_inv. split.
  - intros (p & q & E & Hp & _). eauto.
  - intros (p & q & E & Hp). exists p, q. repeat split; auto.
    apply Lang_Star_any.
Qed.

Lemma test_prefix_app (r : regex) (s u : jsstring) :
  test (mkRegExp true r false) s = true ->
  test (mkRegExp true r false) (s ++ u) = true.
Proof.
  rewrite !test_prefix. intros (p & q & -> & Hp).
  exists p, (q ++ u). now rewrite app_assoc.
Qed.

(** When the body matches at most [k] characters, only the first [k]
    characters of the string matter. *)
Lemma test_prefix_firstn (r : regex) (k n : nat) (s : jsstring) :
  (forall p, Lang r p -> (List.length p <= k)%nat) -> (k <= n)%nat ->
  test (mkRegExp true r false) (firstn n s) =
  test (mkRegExp true r false) s.
Proof.
  intros Hk Hn. apply eq_true_iff_eq. split.
  - intros H. rewrite <- (firstn_skipn n s). now apply test_prefix_app.
  - rewrite !test_prefix. intros (p & q & -> & Hp).
    exists p, (firstn (n - List.length p) q). split; [|assumption].
    rewrite firstn_app, firstn_all2; [reflexivity|].
    specialize (Hk p Hp). lia.
Qed.

Ltac invert_lang H :=
  repeat first
    [ apply Lang_Cls_Cat in H as (? & ? & -> & ? & H)
    | apply Lang_Cls_inv in H as (? & -> & H)
    | apply Lang_Alt_inv in H as [H | H] ];
  cbv beta in *.

Ltac chars :=
  repeat match goal with
         | H : char_eqb _ _ = true |- _ => apply N.eqb_eq in H; subst
         end.

(** The characters a match of each pattern starts with. *)
Lemma pattern_head (entry : string * RegExp) (s : jsstring) :
  In entry CARD_PATTERNS -> test (snd entry) s = true ->
  exists c rest,
    s = c :: rest /\
    ((fst entry = "visa"%string /\ c = 52%N) \/
     (fst entry = "mastercard"%string /\ (c = 53%N \/ c = 50%N)) \/
     (fst entry = "amex"%string /\ c = 51%N) \/
     (fst entry = "discover"%string /\ c = 54%N)).
Proof.
  unfold CARD_PATTERNS. intros Hin Ht.
  repeat (destruct Hin as [<- | Hin]); [| | | |destruct Hin];
    cbn [snd fst] in *; apply test_prefix in Ht as (p & q & -> & H);
    unfold Chr in H; invert_lang H; chars; cbn [app];
    eexists; eexists; (split; [reflexivity|]); tauto.
Qed.

(** No pattern needs more than four characters to match. *)
Lemma pattern_length (entry : string * RegExp) :
  In entry CARD_PATTERNS ->
  exists r, snd entry = mkRegExp true r false /\
            forall p, Lang r p -> (List.length p <= 4)%nat.
Proof.
  unfold CARD_PATTERNS. intros Hin.
  repeat (destruct Hin as [<- | Hin]); [| | | |destruct Hin];
    cbn [snd]; eexists; (split; [reflexivity|]); intros p H;
    unfold Chr in H; invert_lang H; cbn; lia.
Qed.

Lemma entry_by_type (e1 e2 : string * RegExp) :
  In e1 CARD_PATTERNS -> In e2 CARD_PATTERNS -> fst e1 = fst e2 -> e1 = e2.
Proof.
  unfold CARD_PATTERNS. intros H1 H2.
  repeat (destruct H1 as [<- | H1]); [| | | |destruct H1];
    repeat (destruct H2 as [<- | H2]); try destruct H2;
    cbn [fst]; intros E; try discriminate E; reflexivity.
Qed.

(** Two patterns never match the same string. *)
Lemma patterns_disjoint (e1 e2 : string * RegExp) (s : jsstring) :
  In e1 CARD_PATTERNS -> In e2 CARD_PATTERNS ->
  test (snd e1) s = true -> test (snd e2) s = true -> e1 = e2.
Proof.
  intros H1 H2 T1 T2. apply entry_by_type; auto.
  destruct (pattern_head e1 s H1 T1) as (c1 & r1 & E1 & C1).
  destruct (pattern_head e2 s H2 T2) as (c2 & r2 & E2 & C2).
  rewrite E1 in E2. inversion E2; subst c2 r2. clear E2.
  destruct C1 as [[-> ->] | [[-> [-> | ->]] | [[-> ->] | [-> ->]]]];
    destruct C2 as [[-> C] | [[-> [C | C]] | [[-> C] | [-> C]]]];
    try discriminate C; reflexivity.
Qed.

Lemma find_unique {A : Type} (f : A -> bool) (l : list A) (x : A) :
  In x l -> f x = true -> (forall y, In y l -> f y = true -> y = x) ->
  find f l = Some x.
Proof.
  induction l as [|a l IH]; intros Hin Hx Hu; [destruct Hin|].
  cbn [find]. destruct (f a) eqn:Fa.
  - f_equal. apply Hu; [now left | assumption].
  - destruct Hin as [-> | Hin]; [congruence|].
    apply IH; auto. intros y Hy. apply Hu. now right.
Qed.

Lemma find_ext_in {A : Type} (f g : A -> bool) (l : list A) :
  (forall x, In x l -> f x = g x) -> find f l = find g l.
Proof.
  induction l as [|a l IH]; intros H; [reflexivity|].
  cbn [find]. rewrite (H a) by now left.
  destruct (g a); [reflexivity|]. apply IH. intros; apply H; now right.
Qed.

Lemma removeAll_app (cls : char -> bool) (s u : jsstring) :
  removeAll cls (s ++ u) = removeAll cls s ++ removeAll cls u.
Proof. apply filter_app. Qed.

Lemma detectCardType_extend (s u : jsstring) (type : string) :
  detectCardType s = Some type -> detectCardType (s ++ u) = Some type.
Proof.
  unfold detectCardType. rewrite removeAll_app.
  set (c := removeAll isWhiteSpace s). set (c' := removeAll isWhiteSpace u).
  destruct (find _ CARD_PATTERNS) as [[t pat]|] eqn:F; [|discriminate].
  intros E. inversion E; subst t. clear E.
  apply find_some in F as [Hin Ht]. cbn [snd] in Ht.
  destruct (pattern_length _ Hin) as (r & Er & _). cbn [snd] in Er. subst pat.
  rewrite (find_unique _ _ (type, mkRegExp true r false)); auto.
  - cbn [snd]. now apply test_prefix_app.
  - intros y Hy Ty. eapply patterns_disjoint; eauto.
    cbn [snd]. now apply test_prefix_app.
Qed.

Lemma detectCardType_firstn (n : nat) (s : jsstring) :
  (4 <= n)%nat ->
  forallb (fun c => negb (isWhiteSpace c)) s = true ->
  detectCardType (firstn n s) = detectCardType s.
Proof.
  intros Hn Hs. unfold detectCardType.
  assert (Hid : forall l : jsstring,
             forallb (fun c => negb (isWhiteSpace c)) l = true ->
             removeAll isWhiteSpace l = l).
  { unfold removeAll. induction l as [|c l IH]; cbn [forallb filter];
      [reflexivity|]. rewrite andb_true_iff. intros [Hc Hl].
    rewrite Hc, IH; auto. }
  rewrite (Hid s Hs), (Hid (firstn n s)).
  - erewrite find_ext_in; [reflexivity|]. intros entry Hin.
    destruct (pattern_length _ Hin) as (r & Er & Hr). rewrite Er.
    apply (test_prefix_firstn r 4 n s Hr Hn).
  - rewrite <- (firstn_skipn n s), forallb_app in Hs.
    now apply andb_true_iff in Hs as [Hs _].
Qed.

End CardType.

(** X1.  The four card patterns are mutually exclusive: whatever the
    string, at most one of them matches, so the order in which
    [detectCardType] tries them does not matter. *)
Theorem card_patterns_exclusive :
  forall s : jsstring,
    (List.length
       (filter (fun entry => test (snd entry) s)
               PaymentInfoStep.CARD_PATTERNS) <= 1)%nat.
Proof.
  intros s.
  assert (H : forall l : list (string * RegExp),
    NoDup l -> incl l PaymentInfoStep.CARD_PATTERNS ->
    (List.length (filter (fun entry => test (snd entry) s) l) <= 1)%nat).
  { induction l as [|a l IH]; intros Hnd Hincl; [cbn; lia|].
    inversion Hnd as [|? ? Hnotin Hnd']; subst.
    assert (Hl : incl l PaymentInfoStep.CARD_PATTERNS)
      by (intros x Hx; apply Hincl; now right).
    cbn [filter]. destruct (test (snd a) s) eqn:Ta; [|auto].
    assert (E : filter (fun entry => test (snd entry) s) l = []).
    { destruct (filter _ l) as [|b rest] eqn:F; [reflexivity|].
      assert (Hb : In b (filter (fun entry => test (snd entry) s) l))
        by (rewrite F; now left).
      apply filter_In in Hb as [Hbl Tb]. exfalso. apply Hnotin.
      assert (a = b) as ->; [|assumption].
      eapply patterns_disjoint; eauto. apply Hincl. now left. }
    rewrite E. cbn. lia. }
  apply H; [|apply incl_refl].
  unfold PaymentInfoStep.CARD_PATTERNS.
  repeat constructor; cbn; intuition discriminate.
Qed.

(** X2.  Once a card type is detected it is kept, whatever is typed
    after: if [detectCardType] answers a type for a string, it answers
    the same type for every extension of the string. *)
Theorem detectCardType_stable :
  forall (s u : jsstring) (type : string),
    PaymentInfoStep.detectCardType s = Some type ->
    PaymentInfoStep.detectCardType (s ++ u) = Some type.
Proof. exact detectCardType_extend. Qed.

Lemma detectCardType_stable_witness :
  PaymentInfoStep.detectCardType (lit "41") = Some "visa"%string /\
  PaymentInfoStep.detectCardType (lit "41" ++ lit "11 1111") =
    Some "visa"%string.
Proof.
  assert (H : PaymentInfoStep.detectCardType (lit "41") = Some "visa"%string)
    by (vm_compute; reflexivity).
  split; [exact H|]. exact (detectCardType_stable _ _ _ H).
Defined.

(** X3.  Formatting does not change the detected type: the type of the
    stored card number [formatCardNumber value] is the type of the
    digits of [value]. *)
Theorem detectCardType_formatCardNumber :
  forall value : jsstring,
    PaymentInfoStep.detectCardType (PaymentInfoStep.formatCardNumber value) =
    PaymentInfoStep.detectCardType (filter isDigit value).
Proof.
  intros value.
  assert (Hd : forallb (fun c => negb (isWhiteSpace c))
                 (filter isDigit value) = true).
  { apply forallb_forall. intros c Hc. apply filter_In in Hc as [_ Hc].
    now rewrite (digit_not_space c Hc). }
  rewrite <- (detectCardType_firstn 16 (filter isDigit value)) by (auto; lia).
  unfold PaymentInfoStep.detectCardType.
  rewrite formatCardNumber_clean.
  assert (E : removeAll isWhiteSpace (firstn 16 (filter isDigit value)) =
              firstn 16 (filter isDigit value)).
  { unfold removeAll. rewrite <- (firstn_skipn 16 (filter isDigit value)),
      forallb_app in Hd. apply andb_true_iff in Hd as [Hd _].
    induction (firstn 16 (filter isDigit value)) as [|c l IH];
      [reflexivity|]. cbn [forallb filter] in *.
    apply andb_true_iff in Hd as [Hc Hl]. rewrite Hc, IH; auto. }
  now rewrite E.
Qed.

(* ===================================================================== *)
(** * What the payment step stores *)
(* ===================================================================== *)

Section StoredValues.

Import PaymentInfoStep.

Lemma filter_digit_none (s : jsstring) :
  forallb isDigit s = true -> filter (fun c => negb (isWhiteSpace c)) s = s.
Proof.
  induction s as [|c s IH]; cbn [forallb filter]; [reflexivity|].
  rewrite andb_true_iff. intros [Hc Hs].
  rewrite (digit_not_space c Hc). cbn [negb]. now rewrite IH.
Qed.

Lemma forallb_firstn {A : Type} (p : A -> bool) (n : nat) (l : list A) :
  forallb p l = true -> forallb p (firstn n l) = true.
Proof.
  intros H. rewrite <- (firstn_skipn n l), forallb_app in H.
  now apply andb_true_iff in H as [H _].
Qed.

Lemma forallb_skipn {A : Type} (p : A -> bool) (n : nat) (l : list A) :
  forallb p l = true -> forallb p (skipn n l) = true.
Proof.
  intros H. rewrite <- (firstn_skipn n l), forallb_app in H.
  now apply andb_true_iff in H as [_ H].
Qed.

(** The digits of a masked expiry date are the first four digits of the
    input. *)
Lemma formatExpiryDate_digits (s : jsstring) :
  filter isDigit (formatExpiryDate s) = firstn 4 (filter isDigit s).
Proof.
  rewrite formatExpiryDate_unfold.
  pose proof (forallb_filter_digit s) as H.
  set (ds := filter isDigit s) in *.
  destruct (2 <=? List.length ds)%nat eqn:L.
  - rewrite !filter_app.
    rewrite (filter_digit_idem (firstn 2 ds)) by now apply forallb_firstn.
    rewrite (filter_digit_idem (firstn 2 (skipn 2 ds)))
      by now apply forallb_firstn, forallb_skipn.
    change (filter isDigit (lit "/")) with (@nil char). cbn [app].
    destruct ds as [|a [|b [|c [|d r]]]]; reflexivity.
  - apply Nat.leb_gt in L. rewrite filter_digit_idem by assumption.
    symmetry. apply firstn_all2. lia.
Qed.

Lemma formatExpiryDate_idem (s : jsstring) :
  formatExpiryDate (formatExpiryDate s) = formatExpiryDate s.
Proof.
  rewrite (formatExpiryDate_unfold (formatExpiryDate s)).
  rewrite formatExpiryDate_digits, formatExpiryDate_unfold.
  destruct (filter isDigit s) as [|a [|b [|c [|d r]]]]; reflexivity.
Qed.

Lemma formatExpiryDate_length (s : jsstring) :
  (List.length (formatExpiryDate s) <= 5)%nat.
Proof.
  rewrite formatExpiryDate_unfold.
  destruct (filter isDigit s) as [|a [|b [|c [|d r]]]]; cbn; lia.
Qed.

(** [/^\d{3,4}$/] *)
Lemma cvvRegex_shape (value : jsstring) :
  test cvvRegex value =
  (forallb isDigit value
   && (3 <=? List.length value)%nat && (List.length value <=? 4)%nat)%bool.
Proof.
  apply eq_true_iff_eq.
  unfold test, cvvRegex. cbn [anchoredStart anchoredEnd body times].
  unfold Opt. rewrite fullMatch_Lang. split.
  - intros H.
    repeat (apply Lang_Cls_Cat in H as (? & ? & -> & ? & H)).
    apply Lang_Alt_inv in H as [H | H].
    + apply Lang_Cls_inv in H as (? & -> & H). cbn [forallb List.length].
      repeat match goal with H : _ = true |- _ => rewrite H; clear H end.
      reflexivity.
    + apply Lang_Eps_inv in H as ->. cbn [forallb List.length].
      repeat match goal with H : _ = true |- _ => rewrite H; clear H end.
      reflexivity.
  - intros H. apply andb_true_iff in H as [H L4].
    apply andb_true_iff in H as [H L3].
    apply Nat.leb_le in L3, L4.
    destruct value as [|a [|b [|c [|d [|e r]]]]]; cbn in L3, L4; try lia;
      cbn [forallb] in H;
      repeat match type of H with
             | (_ && _)%bool = true => apply andb_true_iff in H as [? H]
             end.
    + repeat (apply Lang_Cls_Cat; eexists; eexists;
              split; [reflexivity | split; [eassumption|]]).
      apply L_AltR. constructor.
    + repeat (apply Lang_Cls_Cat; eexists; eexists;
              split; [reflexivity | split; [eassumption|]]).
      apply L_AltL. now constructor.
Qed.

Lemma blank_digits (s : jsstring) :
  forallb isDigit s = true -> blank s = negb (truthy s).
Proof.
  destruct s as [|c s]; [reflexivity|]. cbn [forallb].
  rewrite andb_true_iff. intros [Hc _].
  now rewrite (blank_digit_first c s Hc).
Qed.

End StoredValues.

(** What [maskCardNumber] shows of any string: with fewer than four
    characters other than white space the string itself, otherwise the
    three groups of bullets followed by the last four of those
    characters. *)
Lemma maskCardNumber_last_four (cardNumber : jsstring) :
  ((List.length (removeAll isWhiteSpace cardNumber) < 4)%nat ->
   TermsConfirmationStep.maskCardNumber cardNumber = cardNumber) /\
  ((4 <= List.length (removeAll isWhiteSpace cardNumber))%nat ->
   exists hidden shown : jsstring,
     removeAll isWhiteSpace cardNumber = hidden ++ shown /\
     List.length shown = 4%nat /\
     TermsConfirmationStep.maskCardNumber cardNumber =
       [TermsConfirmationStep.bullet; TermsConfirmationStep.bullet;
        TermsConfirmationStep.bullet; TermsConfirmationStep.bullet; 32%N;
        TermsConfirmationStep.bullet; TermsConfirmationStep.bullet;
        TermsConfirmationStep.bullet; TermsConfirmationStep.bullet; 32%N;
        TermsConfirmationStep.bullet; TermsConfirmationStep.bullet;
        TermsConfirmationStep.bullet; TermsConfirmationStep.bullet; 32%N]
       ++ shown).
Proof.
  unfold TermsConfirmationStep.maskCardNumber.
  set (cleaned := removeAll isWhiteSpace cardNumber).
  destruct (List.length cleaned <? 4)%nat eqn:L;
    [apply Nat.ltb_lt in L | apply Nat.ltb_ge in L]; cbv zeta; rewrite ?L.
  - split; [reflexivity | lia].
  - split; [lia|]. intros _.
    exists (firstn (List.length cleaned - 4) cleaned),
      (skipn (List.length cleaned - 4) cleaned).
    split; [symmetry; apply firstn_skipn|].
    split; [rewrite length_skipn; lia|].
    reflexivity.
Qed.

(** With fewer than four digits typed, the stored card number is those
    digits, with no space added. *)
Lemma formatCardNumber_short (value : jsstring) :
  (Spec.countDigits value < 4)%nat ->
  PaymentInfoStep.formatCardNumber value = filter isDigit value.
Proof.
  unfold Spec.countDigits. intros L.
  rewrite formatCardNumber_formatCard. unfold Spec.formatCard.
  destruct (filter isDigit value) as [|a [|b [|c [|d r]]]];
    cbn [List.length] in L; try lia; reflexivity.
Qed.

(** X4.  On the review screen the stored card number shows its last
    four digits and nothing else of it.  For every typed [value], with
    [stored] what [formatCardNumber] keeps of it (the first 16 digits
    typed, grouped): when four digits or more were typed,
    [maskCardNumber stored] is three groups of four bullets followed by
    the last four of those first 16 digits; when fewer than four were
    typed, [stored] is the digits typed and it is displayed as it is,
    unmasked.  In both cases the display contains the smaller of 4 and
    the number of digits typed. *)
Theorem maskCardNumber_shows_at_most_four_digits :
  forall value : jsstring,
    ((Spec.countDigits value < 4)%nat ->
     PaymentInfoStep.formatCardNumber value = filter isDigit value /\
     TermsConfirmationStep.maskCardNumber
       (PaymentInfoStep.formatCardNumber value) = filter isDigit value) /\
    ((4 <= Spec.countDigits value)%nat ->
     exists hidden shown : jsstring,
       firstn 16 (filter isDigit value) = hidden ++ shown /\
       List.length shown = 4%nat /\
       TermsConfirmationStep.maskCardNumber
         (PaymentInfoStep.formatCardNumber value) =
       [TermsConfirmationStep.bullet; TermsConfirmationStep.bullet;
        TermsConfirmationStep.bullet; TermsConfirmationStep.bullet; 32%N;
        TermsConfirmationStep.bullet; TermsConfirmationStep.bullet;
        TermsConfirmationStep.bullet; TermsConfirmationStep.bullet; 32%N;
        TermsConfirmationStep.bullet; TermsConfirmationStep.bullet;
        TermsConfirmationStep.bullet; TermsConfirmationStep.bullet; 32%N]
       ++ shown) /\
    Spec.countDigits
      (TermsConfirmationStep.maskCardNumber
         (PaymentInfoStep.formatCardNumber value)) =
    Nat.min 4 (Spec.countDigits value).
Proof.
  intros value.
  destruct (maskCardNumber_last_four (PaymentInfoStep.formatCardNumber value))
    as [Hshort Hlong].
  rewrite formatCardNumber_clean in Hshort, Hlong.
  rewrite length_firstn in Hshort, Hlong.
  pose proof (forallb_filter_digit value) as Hd.
  unfold Spec.countDigits in *.
  split; [|split].
  - intros L. rewrite Hshort by lia.
    split; apply formatCardNumber_short; exact L.
  - intros L. apply Hlong. lia.
  - destruct (Nat.lt_ge_cases (List.length (filter isDigit value)) 4)
      as [L|L].
    + rewrite Hshort by lia. rewrite formatCardNumber_digits.
      rewrite length_firstn. lia.
    + destruct Hlong as (hidden & shown & E & Ls & ->); [lia|].
      rewrite filter_app.
      change (filter isDigit
                [TermsConfirmationStep.bullet; TermsConfirmationStep.bullet;
                 TermsConfirmationStep.bullet; TermsConfirmationStep.bullet;
                 32%N;
                 TermsConfirmationStep.bullet; TermsConfirmationStep.bullet;
                 TermsConfirmationStep.bullet; TermsConfirmationStep.bullet;
                 32%N;
                 TermsConfirmationStep.bullet; TermsConfirmationStep.bullet;
                 TermsConfirmationStep.bullet; TermsConfirmationStep.bullet;
                 32%N]) with (@nil char).
      cbn [app].
      assert (Hs : forallb isDigit shown = true).
      { apply (forallb_firstn isDigit 16) in Hd.
        rewrite E, forallb_app in Hd.
        now apply andb_true_iff in Hd. }
      rewrite filter_digit_idem by exact Hs. lia.
Qed.

(** The hypotheses of [maskCardNumber_shows_at_most_four_digits] on a
    card number of two digits and on one of sixteen. *)
Lemma maskCardNumber_shows_at_most_four_digits_witness :
  ((Spec.countDigits (lit "4 2") < 4)%nat /\
   TermsConfirmationStep.maskCardNumber
     (PaymentInfoStep.formatCardNumber (lit "4 2")) = lit "42") /\
  ((4 <= Spec.countDigits (lit "4111 1111 1111 1234"))%nat /\
   exists hidden shown : jsstring,
     firstn 16 (filter isDigit (lit "4111 1111 1111 1234")) =
       hidden ++ shown /\
     List.length shown = 4%nat /\
     TermsConfirmationStep.maskCardNumber
       (PaymentInfoStep.formatCardNumber (lit "4111 1111 1111 1234")) =
     [TermsConfirmationStep.bullet; TermsConfirmationStep.bullet;
      TermsConfirmationStep.bullet; TermsConfirmationStep.bullet; 32%N;
      TermsConfirmationStep.bullet; TermsConfirmationStep.bullet;
      TermsConfirmationStep.bullet; TermsConfirmationStep.bullet; 32%N;
      TermsConfirmationStep.bullet; TermsConfirmationStep.bullet;
      TermsConfirmationStep.bullet; TermsConfirmationStep.bullet; 32%N]
     ++ shown).
Proof.
  split.
  - assert (L : (Spec.countDigits (lit "4 2") < 4)%nat) by (vm_compute; lia).
    split; [exact L|].
    exact (proj2 (proj1 (maskCardNumber_shows_at_most_four_digits
                           (lit "4 2")) L)).
  - assert (L : (4 <= Spec.countDigits (lit "4111 1111 1111 1234"))%nat)
      by (vm_compute; lia).
    split; [exact L|].
    exact (proj1 (proj2 (maskCardNumber_shows_at_most_four_digits
                           (lit "4111 1111 1111 1234"))) L).
Defined.

(** The review screen on a stored card number: the last four digits,
    [1234], after the bullets. *)
Example maskCardNumber_example :
  TermsConfirmationStep.maskCardNumber (lit "4111 1111 1111 1234") =
  [TermsConfirmationStep.bullet; TermsConfirmationStep.bullet;
   TermsConfirmationStep.bullet; TermsConfirmationStep.bullet; 32%N;
   TermsConfirmationStep.bullet; TermsConfirmationStep.bullet;
   TermsConfirmationStep.bullet; TermsConfirmationStep.bullet; 32%N;
   TermsConfirmationStep.bullet; TermsConfirmationStep.bullet;
   TermsConfirmationStep.bullet; TermsConfirmationStep.bullet; 32%N]
  ++ lit "1234".
Proof. reflexivity. Qed.

(** X5.  The expiry mask is idempotent and never longer than five
    characters: what [formatExpiryDate] returns is left unchanged by
    [formatExpiryDate], for every input. *)
Theorem formatExpiryDate_idempotent :
  forall s : jsstring,
    PaymentInfoStep.formatExpiryDate (PaymentInfoStep.formatExpiryDate s) =
      PaymentInfoStep.formatExpiryDate s /\
    (List.length (PaymentInfoStep.formatExpiryDate s) <= 5)%nat.
Proof.
  intros s. split; [apply formatExpiryDate_idem|].
  apply formatExpiryDate_length.
Qed.

(** X6.  The masked expiry date has the shape the validator asks for
    exactly when at least four digits were typed: [/^\d{2}\/\d{2}$/]
    matches [formatExpiryDate value] if and only if [value] holds four
    digits or more. *)
Theorem formatExpiryDate_matches_pattern :
  forall value : jsstring,
    test PaymentInfoStep.expiryRegex (PaymentInfoStep.formatExpiryDate value) =
    (4 <=? Spec.countDigits value)%nat.
Proof.
  intros value. rewrite expiryRegex_shape, formatExpiryDate_unfold.
  unfold Spec.countDigits.
  pose proof (forallb_filter_digit value) as Hd.
  destruct (filter isDigit value) as [|a [|b [|c [|d r]]]]; try reflexivity.
  cbn [forallb] in Hd.
  repeat match type of Hd with
         | (_ && _)%bool = true => apply andb_true_iff in Hd as [? Hd]
         end.
  cbn [List.length Nat.leb firstn skipn app]. change (lit "/") with [47%N].
  cbn [app Spec.readExpiry].
  repeat match goal with H : isDigit _ = true |- _ => rewrite H; clear H end.
  reflexivity.
Qed.

Section StoredValidation.

Import PaymentInfoStep.

(** Every message of [validateField] is a non-empty string. *)
Lemma validateField_message (now : Date) (field : Field) (value : jsstring) :
  hasError (validateField now field value) =
  negb (SinglePageOnboarding.unset (validateField now field value)).
Proof.
  destruct field; unfold validateField;
    repeat match goal with
           | |- context [if ?c then _ else _] => destruct c
           end; reflexivity.
Qed.

Lemma field_eqb_true (a b : Field) : field_eqb a b = true -> a = b.
Proof. destruct a, b; cbn; intros H; try discriminate H; reflexivity. Qed.

Lemma stored_cvv (value : jsstring) :
  substr (removeAll isNonDigit value) 0 4 = firstn 4 (filter isDigit value).
Proof. unfold substr. now rewrite removeAll_nonDigit. Qed.

Lemma stored_cvv_valid (now : Date) (value : jsstring) :
  SinglePageOnboarding.unset
    (validateField now Cvv (firstn 4 (filter isDigit value))) =
  (3 <=? Spec.countDigits value)%nat.
Proof.
  unfold validateField, Spec.countDigits.
  pose proof (forallb_filter_digit value) as Hd.
  set (ds := filter isDigit value) in *.
  assert (H4 : forallb isDigit (firstn 4 ds) = true)
    by now apply forallb_firstn.
  rewrite blank_digits, cvvRegex_shape, H4 by assumption.
  destruct ds as [|a [|b [|c [|d r]]]]; reflexivity.
Qed.

Lemma stored_card_valid (now : Date) (value : jsstring) :
  SinglePageOnboarding.unset
    (validateField now CardNumber (formatCardNumber value)) =
  ((13 <=? Spec.countDigits value)%nat
   && Spec.passesLuhn (firstn 16 (filter isDigit value)))%bool.
Proof.
  unfold validateField.
  assert (E : isValidCardNumber (formatCardNumber value) =
              ((13 <=? Spec.countDigits value)%nat
               && Spec.passesLuhn (firstn 16 (filter isDigit value)))%bool).
  { rewrite isValidCardNumber_validCard. unfold Spec.validCard.
    rewrite formatCardNumber_clean. unfold Spec.countDigits.
    rewrite forallb_firstn by apply forallb_filter_digit.
    rewrite length_firstn. cbn [andb].
    set (n := List.length (filter isDigit value)).
    assert (L1 : (13 <=? Nat.min 16 n)%nat = (13 <=? n)%nat).
    { destruct (13 <=? n)%nat eqn:E1.
      - apply Nat.leb_le in E1. apply Nat.leb_le. lia.
      - apply Nat.leb_gt in E1. apply Nat.leb_gt. lia. }
    assert (L2 : (Nat.min 16 n <=? 19)%nat = true)
      by (apply Nat.leb_le; lia).
    rewrite L1, L2. now rewrite andb_true_r. }
  rewrite <- E. destruct (isValidCardNumber (formatCardNumber value)) eqn:V.
  - rewrite (valid_card_not_blank _ V). reflexivity.
  - destruct (blank _); reflexivity.
Qed.

End StoredValidation.

(** X7.  A keystroke in the CVV field stores the first four digits of
    what was typed, and the stored value passes the CVV validation
    exactly when at least three digits were typed. *)
Theorem stored_cvv_validates :
  forall (now : Date) (data : PaymentInfoData) (st : PaymentInfoStep.Local)
         (value : jsstring),
    cvv (fst (PaymentInfoStep.handleInputChange now data st
                PaymentInfoStep.Cvv value)) =
      firstn 4 (filter isDigit value) /\
    SinglePageOnboarding.unset
      (PaymentInfoStep.validateField now PaymentInfoStep.Cvv
         (cvv (fst (PaymentInfoStep.handleInputChange now data st
                      PaymentInfoStep.Cvv value)))) =
      (3 <=? Spec.countDigits value)%nat.
Proof.
  intros now data st value.
  assert (E : cvv (fst (PaymentInfoStep.handleInputChange now data st
                          PaymentInfoStep.Cvv value)) =
              firstn 4 (filter isDigit value)) by apply stored_cvv.
  rewrite E. split; [reflexivity | apply stored_cvv_valid].
Qed.

(** X8.  A keystroke in the card-number field stores a value that
    passes the card-number validation exactly when at least 13 digits
    were typed and the first 16 of them pass the Luhn checksum; digits
    after the sixteenth play no part. *)
Theorem stored_cardNumber_validates :
  forall (now : Date) (data : PaymentInfoData) (st : PaymentInfoStep.Local)
         (value : jsstring),
    SinglePageOnboarding.unset
      (PaymentInfoStep.validateField now PaymentInfoStep.CardNumber
         (cardNumber (fst (PaymentInfoStep.handleInputChange now data st
                             PaymentInfoStep.CardNumber value)))) =
    ((13 <=? Spec.countDigits value)%nat
     && Spec.passesLuhn (firstn 16 (filter isDigit value)))%bool.
Proof.
  intros now data st value. rewrite handleInputChange_cardNumber.
  apply stored_card_valid.
Qed.

(** X9.  What a keystroke stores is a fixed point of the formatting:
    feeding the stored value of a field back to [handleInputChange]
    (as a controlled input does on the next change event that alters
    nothing) leaves the payment data as it is, for each of the four
    fields. *)
Theorem handleInputChange_stored_is_stable :
  forall (now now' : Date) (data : PaymentInfoData)
         (st st' : PaymentInfoStep.Local) (field : PaymentInfoStep.Field)
         (value : jsstring),
    fst (PaymentInfoStep.handleInputChange now'
           (fst (PaymentInfoStep.handleInputChange now data st field value))
           st' field
           (PaymentInfoStep.get
              (fst (PaymentInfoStep.handleInputChange now data st field value))
              field)) =
    fst (PaymentInfoStep.handleInputChange now data st field value).
Proof.
  intros now now' [cn ed cv ch] st st' field value.
  destruct field; unfold PaymentInfoStep.handleInputChange;
    cbn [fst PaymentInfoStep.set PaymentInfoStep.get
         cardNumber expiryDate cvv cardholderName].
  - now rewrite formatCardNumber_idem.
  - now rewrite formatExpiryDate_idem.
  - rewrite !stored_cvv.
    rewrite (filter_digit_idem (firstn 4 _))
      by apply forallb_firstn, forallb_filter_digit.
    now rewrite firstn_firstn.
  - reflexivity.
Qed.

(** X10.  After a keystroke the error shown for the field is in step
    with the stored value: if the field has been touched an error is
    shown exactly when [validateField] rejects the stored value, if not
    no error is shown; the errors of the other fields and the touched
    flags are left as they were. *)
Theorem handleInputChange_error_in_step :
  forall (now : Date) (data : PaymentInfoData) (st : PaymentInfoStep.Local)
         (field : PaymentInfoStep.Field) (value : jsstring),
    let data' := fst (PaymentInfoStep.handleInputChange now data st
                        field value) in
    let st' := snd (PaymentInfoStep.handleInputChange now data st
                      field value) in
    PaymentInfoStep.hasError (PaymentInfoStep.errors st' field) =
      (PaymentInfoStep.touched st field
       && negb (SinglePageOnboarding.unset
                  (PaymentInfoStep.validateField now field
                     (PaymentInfoStep.get data' field))))%bool /\
    (forall g,
       PaymentInfoStep.errors st' g =
       if PaymentInfoStep.field_eqb g field
       then PaymentInfoStep.errors st' field
       else PaymentInfoStep.errors st g) /\
    (forall g, PaymentInfoStep.touched st' g = PaymentInfoStep.touched st g).
Proof.
  intros now data st field value data' st'.
  assert (Eget : PaymentInfoStep.get data' field =
                 match field with
                 | PaymentInfoStep.CardNumber =>
                     PaymentInfoStep.formatCardNumber value
                 | PaymentInfoStep.ExpiryDate =>
                     PaymentInfoStep.formatExpiryDate value
                 | PaymentInfoStep.Cvv =>
                     substr (removeAll isNonDigit value) 0 4
                 | PaymentInfoStep.CardholderName => value
                 end).
  { subst data'. destruct field; reflexivity. }
  rewrite Eget. subst data' st'.
  unfold PaymentInfoStep.handleInputChange. cbn [snd fst].
  set (fv := match field with
             | PaymentInfoStep.CardNumber => _
             | PaymentInfoStep.ExpiryDate => _
             | PaymentInfoStep.Cvv => _
             | PaymentInfoStep.CardholderName => _
             end).
  pose proof (validateField_message now field fv) as Hm.
  assert (Hrefl : PaymentInfoStep.field_eqb field field = true)
    by (destruct field; reflexivity).
  cbn [PaymentInfoStep.errors PaymentInfoStep.touched].
  destruct (PaymentInfoStep.touched st field);
    destruct (PaymentInfoStep.validateField now field fv) as [e|] eqn:V;
    destruct (PaymentInfoStep.hasError (PaymentInfoStep.errors st field))
      eqn:He;
    unfold PaymentInfoStep.setError; cbn [PaymentInfoStep.errors];
    rewrite ?Hrefl; cbn [SinglePageOnboarding.unset negb andb] in *;
    (split; [try assumption; try reflexivity
            | split; [intros g;
                      destruct (PaymentInfoStep.field_eqb g field) eqn:Eg;
                      [apply field_eqb_true in Eg; subst g|]; reflexivity
                     | reflexivity]]).
Qed.

(** X11.  Submitting the payment step shows, for every field, exactly
    the message [validateField] gives for the stored value (none for a
    valid field), marks every field as touched, and calls [onNext] if
    and only if no field has a message. *)
Theorem handleSubmit_shows_all_errors :
  forall (now : Date) (data : PaymentInfoData) (st : PaymentInfoStep.Local),
    (forall f,
       PaymentInfoStep.errors
         (fst (PaymentInfoStep.handleSubmit now data st)) f =
       PaymentInfoStep.validateField now f (PaymentInfoStep.get data f)) /\
    (forall f,
       PaymentInfoStep.touched
         (fst (PaymentInfoStep.handleSubmit now data st)) f = true) /\
    snd (PaymentInfoStep.handleSubmit now data st) =
      forallb
        (fun f =>
           SinglePageOnboarding.unset
             (PaymentInfoStep.validateField now f (PaymentInfoStep.get data f)))
        PaymentInfoStep.keys.
Proof.
  intros now data st.
  unfold PaymentInfoStep.handleSubmit, PaymentInfoStep.validateForm,
    PaymentInfoStep.keys.
  cbn [fold_left forallb].
  destruct (PaymentInfoStep.validateField now PaymentInfoStep.CardNumber _)
    eqn:E1,
    (PaymentInfoStep.validateField now PaymentInfoStep.ExpiryDate _) eqn:E2,
    (PaymentInfoStep.validateField now PaymentInfoStep.Cvv _) eqn:E3,
    (PaymentInfoStep.validateField now PaymentInfoStep.CardholderName _)
    eqn:E4;
    cbn [fst snd app PaymentInfoStep.errors PaymentInfoStep.touched
         SinglePageOnboarding.unset andb];
    (split; [intros []; rewrite ?E1, ?E2, ?E3, ?E4; reflexivity
            | split; [reflexivity | reflexivity]]).
Qed.

(* ===================================================================== *)
(** * Updates of the form data *)
(* ===================================================================== *)

(** X13.  Updates of the form data compose like object spreads: two
    updates in a row are the single update by the spread of the two
    partial objects (so a later update of a section wins, updates of
    different sections commute, and an update repeated is done once),
    the empty update changes nothing, and no update touches the step
    index or the submission flags. *)
Theorem updateFormData_composes :
  (forall (p q : OnboardingFlow.PartialData) (s : OnboardingFlow.State),
     OnboardingFlow.updateFormData q (OnboardingFlow.updateFormData p s) =
     OnboardingFlow.updateFormData (OnboardingFlow.spread p q) s) /\
  (forall s : OnboardingFlow.State,
     OnboardingFlow.updateFormData OnboardingFlow.noUpdate s = s) /\
  (forall (p : OnboardingFlow.PartialData) (s : OnboardingFlow.State),
     OnboardingFlow.updateFormData p (OnboardingFlow.updateFormData p s) =
     OnboardingFlow.updateFormData p s) /\
  (forall (d1 : PersonalInfoData) (d2 : PaymentInfoData)
          (s : OnboardingFlow.State),
     OnboardingFlow.updateFormData (Wizard.onlyPersonalInfo d1)
       (OnboardingFlow.updateFormData (Wizard.onlyPaymentInfo d2) s) =
     OnboardingFlow.updateFormData (Wizard.onlyPaymentInfo d2)
       (OnboardingFlow.updateFormData (Wizard.onlyPersonalInfo d1) s)) /\
  (forall (p : OnboardingFlow.PartialData) (s : OnboardingFlow.State),
     OnboardingFlow.currentStep (OnboardingFlow.updateFormData p s) =
       OnboardingFlow.currentStep s /\
     OnboardingFlow.isSubmitting (OnboardingFlow.updateFormData p s) =
       OnboardingFlow.isSubmitting s /\
     OnboardingFlow.submitError (OnboardingFlow.updateFormData p s) =
       OnboardingFlow.submitError s).
Proof.
  split; [|split; [|split; [|split]]].
  - intros [p1 p2 p3 p4 p5] [q1 q2 q3 q4 q5] [i d b e].
    unfold OnboardingFlow.updateFormData, OnboardingFlow.merge,
      OnboardingFlow.spread.
    cbn. destruct q1, q2, q3, q4, q5; reflexivity.
  - intros [i [d1 d2 d3 d4 d5] b e]. reflexivity.
  - intros [p1 p2 p3 p4 p5] [i d b e].
    unfold OnboardingFlow.updateFormData, OnboardingFlow.merge. cbn.
    destruct p1, p2, p3, p4, p5; reflexivity.
  - intros d1 d2 [i d b e]. reflexivity.
  - intros p s. repeat split.
Qed.

(* ===================================================================== *)
(** * Email addresses *)
(* ===================================================================== *)

Section Email.

Lemma Lang_Plus_Cls (p : char -> bool) (s : jsstring) :
  Lang (Plus (Cls p)) s <-> s <> [] /\ forallb p s = true.
Proof.
  unfold Plus. rewrite Lang_Cls_Cat. split.
  - intros (c & s' & -> & Hc & Hs). apply Lang_Star_Cls in Hs.
    split; [discriminate|]. cbn [forallb]. now rewrite Hc, Hs.
  - intros [Hne Hs]. destruct s as [|c s']; [congruence|].
    cbn [forallb] in Hs. apply andb_true_iff in Hs as [Hc Hs].
    exists c, s'. rewrite Lang_Star_Cls. auto.
Qed.

(** The parts of a string the email pattern matches. *)
Lemma emailRegex_parts (value : jsstring) :
  test PersonalInfoStep.emailRegex value = true <->
  exists name host tld,
    value = name ++ 64%N :: host ++ 46%N :: tld /\
    name <> [] /\ host <> [] /\ tld <> [] /\
    forallb PersonalInfoStep.notSpaceNorAt name = true /\
    forallb PersonalInfoStep.notSpaceNorAt host = true /\
    forallb PersonalInfoStep.notSpaceNorAt tld = true.
Proof.
  unfold test, PersonalInfoStep.emailRegex.
  cbn [anchoredStart anchoredEnd body]. unfold Chr.
  rewrite fullMatch_Lang. split.
  - intros H. apply Lang_Cat_inv in H as (name & r1 & -> & Hn & H).
    apply Lang_Cls_Cat in H as (c1 & r2 & -> & Hc1 & H).
    apply Lang_Cat_inv in H as (host & r3 & -> & Hh & H).
    apply Lang_Cls_Cat in H as (c2 & tld & -> & Hc2 & H).
    cbv beta in *. apply N.eqb_eq in Hc1, Hc2. subst c1 c2.
    apply Lang_Plus_Cls in Hn as [? ?], Hh as [? ?], H as [? ?].
    exists name, host, tld. repeat split; assumption.
  - intros (name & host & tld & -> & Hn & Hh & Ht & Fn & Fh & Ft).
    apply (L_Cat _ _ name). { now apply Lang_Plus_Cls. }
    apply Lang_Cls_Cat. exists 64%N, (host ++ 46%N :: tld).
    repeat split. apply (L_Cat _ _ host). { now apply Lang_Plus_Cls. }
    apply Lang_Cls_Cat. exists 46%N, tld. repeat split.
    now apply Lang_Plus_Cls.
Qed.

Lemma notSpaceNorAt_facts (l : jsstring) :
  forallb PersonalInfoStep.notSpaceNorAt l = true ->
  count_occ N.eq_dec l 64%N = 0%nat /\
  forallb (fun c => negb (isWhiteSpace c)) l = true.
Proof.
  induction l as [|c l IH]; cbn [forallb]; [auto|].
  rewrite andb_true_iff. intros [Hc Hl]. destruct (IH Hl) as [IH1 IH2].
  unfold PersonalInfoStep.notSpaceNorAt in Hc.
  apply negb_true_iff, orb_false_iff in Hc as [Hw Ha].
  split.
  - cbn [count_occ]. destruct (N.eq_dec c 64) as [->|Hne]; [discriminate Ha|].
    assumption.
  - rewrite Hw. cbn [negb andb]. assumption.
Qed.

Lemma email_not_blank (value : jsstring) :
  test PersonalInfoStep.emailRegex value = true ->
  blank value = false /\ truthy value = true.
Proof.
  intros H. apply emailRegex_parts in H
    as (name & host & tld & -> & Hn & _ & _ & Fn & _).
  destruct name as [|c name]; [congruence|]. cbn [forallb] in Fn.
  apply andb_true_iff in Fn as [Hc _].
  unfold PersonalInfoStep.notSpaceNorAt in Hc.
  apply negb_true_iff, orb_false_iff in Hc as [Hw _].
  split; [|reflexivity]. rewrite blank_spec. cbn [app forallb].
  now rewrite Hw.
Qed.

End Email.

(** X14.  The four forms accept the same email addresses: the personal
    information step, the single-page form, the sign-in form and the
    forgot-password form each report no email error exactly when the
    value matches [/^[^\s@]+@[^\s@]+\.[^\s@]+$/]; their checks for a
    missing value (trimmed in the first two, untrimmed in the last two)
    reject nothing the pattern accepts. *)
Theorem email_validators_agree :
  (forall value : jsstring,
     SinglePageOnboarding.unset
       (PersonalInfoStep.validateField PersonalInfoStep.Email value) =
     test PersonalInfoStep.emailRegex value) /\
  (forall d : OnboardingData,
     SinglePageOnboarding.unset
       (SinglePageOnboarding.e_email
          (fst (SinglePageOnboarding.validateForm d))) =
     test PersonalInfoStep.emailRegex (email (personalInfo d))) /\
  (forall formData : SignInForm.SignInFormData,
     SinglePageOnboarding.unset
       (SignInForm.emailError (fst (SignInForm.validateForm formData))) =
     test PersonalInfoStep.emailRegex (SignInForm.email formData)) /\
  (forall value : jsstring,
     snd (ForgotPasswordForm.validateForm value) =
     test PersonalInfoStep.emailRegex value).
Proof.
  split; [|split; [|split]].
  - intros value. unfold PersonalInfoStep.validateField.
    destruct (test PersonalInfoStep.emailRegex value) eqn:T.
    + destruct (email_not_blank value T) as [-> _]. reflexivity.
    + destruct (blank value); reflexivity.
  - intros d. unfold SinglePageOnboarding.validateForm.
    cbn [fst SinglePageOnboarding.e_email].
    change SinglePageOnboarding.emailRegex with PersonalInfoStep.emailRegex.
    destruct (test PersonalInfoStep.emailRegex _) eqn:T.
    + destruct (email_not_blank _ T) as [-> _]. reflexivity.
    + destruct (blank _); reflexivity.
  - intros formData. unfold SignInForm.validateForm.
    cbn [fst SignInForm.emailError].
    change SignInForm.emailRegex with PersonalInfoStep.emailRegex.
    destruct (test PersonalInfoStep.emailRegex _) eqn:T.
    + destruct (email_not_blank _ T) as [_ ->]. reflexivity.
    + destruct (negb (truthy _)); reflexivity.
  - intros value. unfold ForgotPasswordForm.validateForm. cbn [snd].
    change SignInForm.emailRegex with PersonalInfoStep.emailRegex.
    destruct (test PersonalInfoStep.emailRegex _) eqn:T.
    + destruct (email_not_blank _ T) as [_ ->]. reflexivity.
    + destruct (negb (truthy _)); reflexivity.
Qed.

(** X15.  An email address the pattern accepts contains exactly one
    [@], no white space, at least five characters, a non-empty part
    before the [@] and a dot after it. *)
Theorem accepted_email_shape :
  forall value : jsstring,
    test PersonalInfoStep.emailRegex value = true ->
    count_occ N.eq_dec value 64%N = 1%nat /\
    forallb (fun c => negb (isWhiteSpace c)) value = true /\
    (5 <= List.length value)%nat /\
    exists name domain,
      value = name ++ 64%N :: domain /\ name <> [] /\ In 46%N domain.
Proof.
  intros value H.
  apply emailRegex_parts in H
    as (name & host & tld & -> & Hn & Hh & Ht & Fn & Fh & Ft).
  destruct (notSpaceNorAt_facts name Fn) as [Cn Wn].
  destruct (notSpaceNorAt_facts host Fh) as [Ch Wh].
  destruct (notSpaceNorAt_facts tld Ft) as [Ct Wt].
  repeat split.
  - rewrite count_occ_app, Cn. cbn [count_occ].
    destruct (N.eq_dec 64 64) as [_|Hne]; [|congruence].
    rewrite count_occ_app, Ch. cbn [count_occ].
    destruct (N.eq_dec 46 64) as [Hbad|_]; [discriminate Hbad|].
    now rewrite Ct.
  - rewrite forallb_app. apply andb_true_iff. split; [exact Wn|].
    cbn [forallb]. apply andb_true_iff. split; [reflexivity|].
    rewrite forallb_app. apply andb_true_iff. split; [exact Wh|].
    cbn [forallb]. apply andb_true_iff. split; [reflexivity | exact Wt].
  - rewrite length_app. cbn [List.length]. rewrite length_app.
    cbn [List.length].
    destruct name; [congruence|]. destruct host; [congruence|].
    destruct tld; [congruence|]. cbn [List.length]. lia.
  - exists name, (host ++ 46%N :: tld). repeat split; auto.
    apply in_or_app. right. now left.
Qed.

Lemma accepted_email_shape_witness :
  test PersonalInfoStep.emailRegex (lit "ada@example.org") = true /\
  count_occ N.eq_dec (lit "ada@example.org") 64%N = 1%nat.
Proof.
  assert (H : test PersonalInfoStep.emailRegex (lit "ada@example.org") = true)
    by (vm_compute; reflexivity).
  split; [exact H|]. exact (proj1 (accepted_email_shape _ H)).
Defined.

(* ===================================================================== *)
(** * ZIP codes, passwords and the progress indicator *)
(* ===================================================================== *)

Section Misc.

(** A US ZIP code has no white space at either end. *)
Lemma usZip_trim (value : jsstring) :
  Spec.isUsZip value = true -> trim value = value.
Proof.
  intros H.
  destruct value as [|a [|b [|c [|d [|e [|h [|f [|g [|i [|j [|k r]]]]]]]]]]];
    cbn [Spec.isUsZip] in H; try discriminate H;
    repeat match type of H with
           | (_ && _)%bool = true => apply andb_true_iff in H as [H ?]
           end;
    repeat match goal with
           | D : isDigit ?x = true |- _ =>
               pose proof (digit_not_space x D); clear D
           end;
    unfold trim, trimEnd;
    repeat first
      [ progress cbn [trimStart rev app]
      | match goal with
        | W : isWhiteSpace ?x = false |- context [isWhiteSpace ?x] =>
            rewrite W
        end ];
    reflexivity.
Qed.

Lemma strength_range (pwd : jsstring) :
  0 <= AccountSetupStep.getPasswordStrength pwd <= 5.
Proof.
  rewrite getPasswordStrength_criteriaMet. unfold Spec.criteriaMet.
  destruct (8 <=? _)%nat, (existsb isUpper _), (existsb isLower _),
    (existsb isDigit _), (existsb (oneOf _) _); cbn; lia.
Qed.

Lemma count_before (cur : Z) (n : nat) :
  0 <= cur ->
  List.length (filter (fun i => Z.of_nat i <? cur) (seq 0 n)) =
  Z.to_nat (Z.min cur (Z.of_nat n)).
Proof.
  intros H. induction n as [|n IH].
  - cbn [seq filter List.length]. lia.
  - rewrite seq_S, filter_app, length_app, IH. cbn [plus filter].
    destruct (Z.of_nat n <? cur) eqn:E;
      [apply Z.ltb_lt in E | apply Z.ltb_ge in E]; cbn [List.length]; lia.
Qed.

Lemma count_at (cur : Z) (n : nat) :
  List.length (filter (fun i => Z.of_nat i =? cur) (seq 0 n)) =
  if ((0 <=? cur) && (cur <? Z.of_nat n))%bool then 1%nat else 0%nat.
Proof.
  induction n as [|n IH].
  - cbn [seq filter List.length].
    destruct (0 <=? cur) eqn:E1; [|reflexivity].
    destruct (cur <? Z.of_nat 0) eqn:E2; [|reflexivity].
    apply Z.leb_le in E1. apply Z.ltb_lt in E2. lia.
  - rewrite seq_S, filter_app, length_app, IH. cbn [plus filter].
    destruct (Z.of_nat n =? cur) eqn:E;
      [apply Z.eqb_eq in E | apply Z.eqb_neq in E];
      destruct (0 <=? cur) eqn:E1;
      [apply Z.leb_le in E1 | apply Z.leb_gt in E1
      |apply Z.leb_le in E1 | apply Z.leb_gt in E1];
      destruct (cur <? Z.of_nat n) eqn:E2;
      [apply Z.ltb_lt in E2 | apply Z.ltb_ge in E2
      |apply Z.ltb_lt in E2 | apply Z.ltb_ge in E2
      |apply Z.ltb_lt in E2 | apply Z.ltb_ge in E2
      |apply Z.ltb_lt in E2 | apply Z.ltb_ge in E2];
      destruct (cur <? Z.of_nat (S n)) eqn:E3;
      try apply Z.ltb_lt in E3; try apply Z.ltb_ge in E3;
      cbn [andb List.length]; lia.
Qed.

Lemma count_after (cur : Z) (n : nat) :
  0 <= cur ->
  List.length (filter (fun i => Z.of_nat i >? cur) (seq 0 n)) =
  Z.to_nat (Z.of_nat n - 1 - cur).
Proof.
  intros H. induction n as [|n IH].
  - cbn [seq filter List.length]. lia.
  - rewrite seq_S, filter_app, length_app, IH. cbn [plus filter].
    rewrite Z.gtb_ltb.
    destruct (cur <? Z.of_nat n) eqn:E;
      [apply Z.ltb_lt in E | apply Z.ltb_ge in E]; cbn [List.length]; lia.
Qed.

Lemma filter_map_length {A B : Type} (p : B -> bool) (f : A -> B)
    (l : list A) :
  List.length (filter p (map f l)) =
  List.length (filter (fun x => p (f x)) l).
Proof.
  induction l as [|a l IH]; [reflexivity|]. cbn [map filter].
  destruct (p (f a)); cbn [List.length]; now rewrite IH.
Qed.

End Misc.

(** X16.  A ZIP code that is valid for "United States" is valid for
    every country: if the billing-address validator accepts a value
    with the country set to "United States", it accepts the same value
    whatever the country is changed to. *)
Theorem us_zipCode_valid_everywhere :
  forall (data data' : BillingAddressData) (value : jsstring),
    country data = lit "United States" ->
    BillingAddressStep.validateField data BillingAddressStep.ZipCode value
      = None ->
    BillingAddressStep.validateField data' BillingAddressStep.ZipCode value
      = None.
Proof.
  intros data data' value Hc Hv.
  apply (zipCode_US data value Hc) in Hv.
  destruct (list_eq_dec N.eq_dec (country data') (lit "United States"))
    as [E | E].
  - now apply (zipCode_US data' value E).
  - apply (zipCode_elsewhere data' value E).
    rewrite usZipRegex_shape in Hv. rewrite (usZip_trim value Hv).
    destruct value as [|a [|b [|c r]]]; cbn [Spec.isUsZip] in Hv;
      try discriminate Hv. cbn [List.length]. lia.
Qed.

Lemma us_zipCode_valid_everywhere_witness :
  country
    (mkBillingAddress (lit "1 Main St") [] (lit "Springfield")
       (lit "Illinois") (lit "12345-6789") (lit "United States"))
  = lit "United States" /\
  BillingAddressStep.validateField
    (mkBillingAddress (lit "1 Main St") [] (lit "Springfield")
       (lit "Illinois") (lit "12345-6789") (lit "United States"))
    BillingAddressStep.ZipCode (lit "12345-6789") = None /\
  BillingAddressStep.validateField
    (mkBillingAddress (lit "1 Main St") [] (lit "Toronto")
       (lit "Ontario") (lit "12345-6789") (lit "Canada"))
    BillingAddressStep.ZipCode (lit "12345-6789") = None.
Proof.
  assert (H : BillingAddressStep.validateField
                (mkBillingAddress (lit "1 Main St") [] (lit "Springfield")
                   (lit "Illinois") (lit "12345-6789") (lit "United States"))
                BillingAddressStep.ZipCode (lit "12345-6789") = None)
    by (vm_compute; reflexivity).
  split; [reflexivity|]. split; [exact H|].
  refine (us_zipCode_valid_everywhere _ _ _ _ H). reflexivity.
Defined.

(** X17.  For a current step inside the list, the progress indicator
    draws one marker per step: as many completed markers as the index
    of the current step, exactly one current marker, and the remaining
    ones upcoming. *)
Theorem progress_indicator_counts :
  forall (A : Type) (steps : list A) (currentStep : Z),
    0 <= currentStep < Z.of_nat (List.length steps) ->
    List.length (ProgressIndicator.render steps currentStep) =
      List.length steps /\
    List.length
      (filter ProgressIndicator.isCompleted
         (ProgressIndicator.render steps currentStep)) =
      Z.to_nat currentStep /\
    List.length
      (filter ProgressIndicator.isCurrent
         (ProgressIndicator.render steps currentStep)) = 1%nat /\
    List.length
      (filter ProgressIndicator.isUpcoming
         (ProgressIndicator.render steps currentStep)) =
      (List.length steps - 1 - Z.to_nat currentStep)%nat.
Proof.
  intros A steps cur H. unfold ProgressIndicator.render.
  rewrite length_map, length_seq, !filter_map_length.
  cbn [ProgressIndicator.marker ProgressIndicator.isCompleted
       ProgressIndicator.isCurrent ProgressIndicator.isUpcoming].
  rewrite count_before, count_at, count_after by lia.
  assert (E1 : (0 <=? cur) = true) by (apply Z.leb_le; lia).
  assert (E2 : (cur <? Z.of_nat (List.length steps)) = true)
    by (apply Z.ltb_lt; lia).
  rewrite E1, E2. cbn [andb]. repeat split; lia.
Qed.

Lemma progress_indicator_counts_witness :
  0 <= 2 < Z.of_nat (List.length OnboardingFlow.ONBOARDING_STEPS) /\
  List.length
    (filter ProgressIndicator.isCompleted
       (ProgressIndicator.render OnboardingFlow.ONBOARDING_STEPS 2)) = 2%nat.
Proof.
  assert (H : 0 <= 2 < Z.of_nat (List.length OnboardingFlow.ONBOARDING_STEPS))
    by (cbn; lia).
  split; [exact H|].
  exact (proj1 (proj2 (progress_indicator_counts _ _ 2 H))).
Defined.

(** X18.  The account-setup form validates exactly when the password
    meets all five criteria and the confirmation equals it; the two
    "required" checks reject nothing more. *)
Theorem accountSetup_validateForm_spec :
  forall data : AccountSetupData,
    snd (AccountSetupStep.validateForm data) =
    ((AccountSetupStep.getPasswordStrength (password data) =? 5)
     && str_eqb (password data) (confirmPassword data))%bool.
Proof.
  intros [pwd conf]. unfold AccountSetupStep.validateForm.
  cbn [password confirmPassword].
  pose proof (strength_range pwd) as R.
  destruct pwd as [|c pwd].
  - destruct conf; reflexivity.
  - cbn [truthy negb]. cbv iota.
    destruct (AccountSetupStep.getPasswordStrength (c :: pwd) <? 5) eqn:L;
      [apply Z.ltb_lt in L | apply Z.ltb_ge in L].
    + assert (E : (AccountSetupStep.getPasswordStrength (c :: pwd) =? 5)
                  = false) by (apply Z.eqb_neq; lia).
      rewrite E. destruct conf; cbn [truthy negb]; cbv iota;
        try destruct (negb (str_eqb _ _)); reflexivity.
    + assert (E : (AccountSetupStep.getPasswordStrength (c :: pwd) =? 5)
                  = true) by (apply Z.eqb_eq; lia).
      rewrite E. destruct conf as [|c' conf]; [reflexivity|].
      cbn [truthy negb andb]. cbv iota.
      destruct (str_eqb (c :: pwd) (c' :: conf)); reflexivity.
Qed.

(* ===================================================================== *)
(** * More on the checksum *)
(* ===================================================================== *)

Section Checksum.

Import PaymentInfoStep.

Lemma luhnSum_app (b : bool) (l1 l2 : list Z) :
  Spec.luhnSum b (l1 ++ l2) =
  Spec.luhnSum b l1 + Spec.luhnSum (xorb b (Nat.odd (List.length l1))) l2.
Proof.
  revert b. induction l1 as [|d l1 IH]; intros b.
  - cbn [app Spec.luhnSum List.length Nat.odd]. rewrite xorb_false_r. lia.
  - cbn [app Spec.luhnSum List.length]. rewrite IH, Nat.odd_succ.
    rewrite <- Nat.negb_odd.
    replace (xorb (negb b) (Nat.odd (List.length l1)))
      with (xorb b (negb (Nat.odd (List.length l1))))
      by (destruct b, (Nat.odd (List.length l1)); reflexivity).
    lia.
Qed.

(** Doubling with the subtraction of 9 permutes the ten digits. *)
Lemma luhnTerm_injective (b : bool) (x y : Z) :
  0 <= x <= 9 -> 0 <= y <= 9 -> x <> y ->
  0 <= Spec.luhnTerm b x <= 9 /\ 0 <= Spec.luhnTerm b y <= 9 /\
  Spec.luhnTerm b x <> Spec.luhnTerm b y.
Proof.
  intros Hx Hy Hne. unfold Spec.luhnTerm. destruct b; [|lia].
  destruct (2 * x >? 9) eqn:Ex; destruct (2 * y >? 9) eqn:Ey;
    rewrite Z.gtb_ltb in Ex, Ey;
    try apply Z.ltb_lt in Ex; try apply Z.ltb_ge in Ex;
    try apply Z.ltb_lt in Ey; try apply Z.ltb_ge in Ey; lia.
Qed.

Lemma digitOf_injective (a b : char) :
  isDigit a = true -> isDigit b = true -> a <> b ->
  Spec.digitOf a <> Spec.digitOf b.
Proof.
  intros _ _ Hne. unfold Spec.digitOf. lia.
Qed.

(** Replacing one digit changes the checksum modulo 10. *)
Lemma passesLuhn_one_digit (p q : jsstring) (a b : char) :
  isDigit a = true -> isDigit b = true -> a <> b ->
  Spec.passesLuhn (p ++ a :: q) = true ->
  Spec.passesLuhn (p ++ b :: q) = false.
Proof.
  intros Ha Hb Hne. unfold Spec.passesLuhn.
  rewrite !map_app. cbn [map]. rewrite !rev_app_distr. cbn [rev].
  rewrite <- !app_assoc. cbn [app].
  rewrite !luhnSum_app. cbn [Spec.luhnSum].
  set (S1 := Spec.luhnSum false (rev (map Spec.digitOf q))).
  set (d := xorb false (Nat.odd (List.length (rev (map Spec.digitOf q))))).
  set (S3 := Spec.luhnSum (negb d) (rev (map Spec.digitOf p))).
  pose proof (luhnTerm_injective d _ _ (digit_nonneg a Ha)
                (digit_nonneg b Hb) (digitOf_injective a b Ha Hb Hne))
    as (Ra & Rb & Rne).
  revert Ra Rb Rne.
  generalize (Spec.luhnTerm d (Spec.digitOf a)) as ta,
             (Spec.luhnTerm d (Spec.digitOf b)) as tb.
  intros ta tb Ra Rb Rne H. apply Z.eqb_eq in H. apply Z.eqb_neq.
  intros H'. Z.div_mod_to_equations. lia.
Qed.

End Checksum.

Section Trimming.

Lemma removeAll_cons_digit (c : char) (s : jsstring) :
  isDigit c = true ->
  removeAll isWhiteSpace (c :: s) = c :: removeAll isWhiteSpace s.
Proof.
  intros H. unfold removeAll. cbn [filter].
  now rewrite (digit_not_space c H).
Qed.

Lemma digits_of_clean (s : jsstring) :
  forallb isDigit (removeAll isWhiteSpace s) = true ->
  filter isDigit s = removeAll isWhiteSpace s.
Proof.
  unfold removeAll. induction s as [|c s IH]; [reflexivity|].
  cbn [filter]. destruct (isWhiteSpace c) eqn:W; cbn [negb].
  - intros H. destruct (isDigit c) eqn:D.
    + rewrite (digit_not_space c D) in W. discriminate W.
    + now apply IH.
  - cbn [forallb]. rewrite andb_true_iff. intros [D H].
    rewrite D. now rewrite IH.
Qed.

Lemma trimStart_idem (s : jsstring) : trimStart (trimStart s) = trimStart s.
Proof.
  induction s as [|c s IH]; [reflexivity|]. cbn [trimStart].
  destruct (isWhiteSpace c) eqn:W; [exact IH|]. cbn [trimStart].
  now rewrite W.
Qed.

Lemma trimStart_snoc (l : jsstring) (c : char) :
  isWhiteSpace c = false -> exists t, trimStart (l ++ [c]) = t ++ [c].
Proof.
  intros W. induction l as [|a l (t & IH)]; cbn [app trimStart].
  - rewrite W. now exists [].
  - destruct (isWhiteSpace a); [now exists t|]. now exists (a :: l).
Qed.

(** Trimming the end of a string that starts with a character other
    than white space leaves that first character in place. *)
Lemma trimStart_trimEnd (x : jsstring) :
  trimStart x = x -> trimStart (trimEnd x) = trimEnd x.
Proof.
  intros H. destruct x as [|c r]; [reflexivity|].
  cbn [trimStart] in H. destruct (isWhiteSpace c) eqn:W.
  - pose proof (trimStart_length r) as L. rewrite H in L. cbn in L. lia.
  - unfold trimEnd. cbn [rev].
    destruct (trimStart_snoc (rev r) c W) as (t & ->).
    rewrite rev_app_distr. cbn [rev app trimStart]. now rewrite W.
Qed.

Lemma trimEnd_idem (x : jsstring) : trimEnd (trimEnd x) = trimEnd x.
Proof.
  unfold trimEnd. now rewrite rev_involutive, trimStart_idem.
Qed.

Lemma trim_idem (s : jsstring) : trim (trim s) = trim s.
Proof.
  unfold trim. rewrite trimStart_trimEnd by apply trimStart_idem.
  apply trimEnd_idem.
Qed.

Lemma blank_trim (s : jsstring) : blank (trim s) = blank s.
Proof. unfold blank. now rewrite trim_idem. Qed.

(** Trimming removes white space only. *)
Lemma trim_parts (s : jsstring) :
  exists p q, s = p ++ trim s ++ q /\
              forallb isWhiteSpace p = true /\ forallb isWhiteSpace q = true.
Proof.
  destruct (trimStart_suffix s) as (p & Ep & Hp).
  destruct (trimStart_suffix (rev (trimStart s))) as (q & Eq & Hq).
  exists p, (rev q). unfold trim, trimEnd. repeat split; auto.
  - rewrite <- rev_app_distr, <- Eq, rev_involutive. exact Ep.
  - now rewrite forallb_rev.
Qed.

Lemma removeAll_trim (s : jsstring) :
  removeAll isWhiteSpace (trim s) = removeAll isWhiteSpace s.
Proof.
  destruct (trim_parts s) as (p & q & E & Hp & Hq).
  rewrite E at 2. rewrite !removeAll_app.
  rewrite (whitespace_removed p Hp), (whitespace_removed q Hq).
  now rewrite app_nil_r.
Qed.

End Trimming.

(** X19.  Formatting never spoils a valid card number of at most 16
    digits: if [isValidCardNumber] accepts a string whose white-space
    free form has at most 16 characters, it accepts the formatted
    string too. *)
Theorem formatCardNumber_keeps_valid :
  forall s : jsstring,
    PaymentInfoStep.isValidCardNumber s = true ->
    (List.length (removeAll isWhiteSpace s) <= 16)%nat ->
    PaymentInfoStep.isValidCardNumber (PaymentInfoStep.formatCardNumber s)
    = true.
Proof.
  intros s H L. rewrite isValidCardNumber_validCard in *.
  unfold Spec.validCard in *. rewrite formatCardNumber_clean.
  assert (D : forallb isDigit (removeAll isWhiteSpace s) = true).
  { destruct (forallb isDigit (removeAll isWhiteSpace s));
      [reflexivity | discriminate H]. }
  rewrite (digits_of_clean s D), firstn_all2 by assumption. exact H.
Qed.

Lemma formatCardNumber_keeps_valid_witness :
  PaymentInfoStep.isValidCardNumber (lit "4111111111111111") = true /\
  (List.length (removeAll isWhiteSpace (lit "4111111111111111")) <= 16)%nat /\
  PaymentInfoStep.isValidCardNumber
    (PaymentInfoStep.formatCardNumber (lit "4111111111111111")) = true.
Proof.
  assert (H : PaymentInfoStep.isValidCardNumber (lit "4111111111111111")
              = true) by (vm_compute; reflexivity).
  assert (L : (List.length (removeAll isWhiteSpace (lit "4111111111111111"))
               <= 16)%nat) by (vm_compute; lia).
  split; [exact H|]. split; [exact L|].
  exact (formatCardNumber_keeps_valid _ H L).
Defined.

(** X20.  The checksum catches every single-digit error: if a card
    number is valid, replacing any one of its digits by a different
    digit gives a number that [isValidCardNumber] rejects. *)
Theorem isValidCardNumber_detects_one_wrong_digit :
  forall (p q : jsstring) (a b : char),
    isDigit a = true -> isDigit b = true -> a <> b ->
    PaymentInfoStep.isValidCardNumber (p ++ a :: q) = true ->
    PaymentInfoStep.isValidCardNumber (p ++ b :: q) = false.
Proof.
  intros p q a b Ha Hb Hne. rewrite !isValidCardNumber_validCard.
  unfold Spec.validCard.
  rewrite !removeAll_app, !removeAll_cons_digit by assumption.
  intros H. apply andb_true_iff in H as [_ H].
  rewrite (passesLuhn_one_digit _ _ a b Ha Hb Hne H).
  apply andb_false_r.
Qed.

Lemma isValidCardNumber_detects_one_wrong_digit_witness :
  PaymentInfoStep.isValidCardNumber (lit "411111111111111" ++ 49%N :: [])
    = true /\
  PaymentInfoStep.isValidCardNumber (lit "411111111111111" ++ 50%N :: [])
    = false.
Proof.
  assert (H : PaymentInfoStep.isValidCardNumber
                (lit "411111111111111" ++ 49%N :: []) = true)
    by (vm_compute; reflexivity).
  split; [exact H|].
  refine (isValidCardNumber_detects_one_wrong_digit _ _ 49%N 50%N _ _ _ H);
    [reflexivity | reflexivity | discriminate].
Defined.

(** X21.  White space around a value does not matter for the fields
    that are checked after trimming: the validators of first name, last
    name, street address, city, state, country, cardholder name and
    card number give the same answer for a value and for the value
    trimmed. *)
Theorem validators_ignore_surrounding_space :
  forall (now : Date) (data : BillingAddressData) (value : jsstring),
    PersonalInfoStep.validateField PersonalInfoStep.FirstName (trim value) =
      PersonalInfoStep.validateField PersonalInfoStep.FirstName value /\
    PersonalInfoStep.validateField PersonalInfoStep.LastName (trim value) =
      PersonalInfoStep.validateField PersonalInfoStep.LastName value /\
    BillingAddressStep.validateField data BillingAddressStep.AddressLine1
      (trim value) =
      BillingAddressStep.validateField data BillingAddressStep.AddressLine1
        value /\
    BillingAddressStep.validateField data BillingAddressStep.City (trim value)
      = BillingAddressStep.validateField data BillingAddressStep.City value /\
    BillingAddressStep.validateField data BillingAddressStep.State (trim value)
      = BillingAddressStep.validateField data BillingAddressStep.State value /\
    BillingAddressStep.validateField data BillingAddressStep.Country
      (trim value) =
      BillingAddressStep.validateField data BillingAddressStep.Country value /\
    PaymentInfoStep.validateField now PaymentInfoStep.CardholderName
      (trim value) =
      PaymentInfoStep.validateField now PaymentInfoStep.CardholderName value /\
    PaymentInfoStep.validateField now PaymentInfoStep.CardNumber (trim value) =
      PaymentInfoStep.validateField now PaymentInfoStep.CardNumber value.
Proof.
  intros now data value.
  unfold PersonalInfoStep.validateField, BillingAddressStep.validateField,
    PaymentInfoStep.validateField.
  rewrite !blank_trim, !trim_idem.
  repeat split.
  unfold PaymentInfoStep.isValidCardNumber. now rewrite removeAll_trim.
Qed.

(* ===================================================================== *)
(** * Whole forms *)
(* ===================================================================== *)

Section WholeForms.

Lemma personalInfo_validateForm_snd (data : PersonalInfoData) :
  snd (PersonalInfoStep.validateForm data) =
  forallb
    (fun f =>
       SinglePageOnboarding.unset
         (PersonalInfoStep.validateField f (PersonalInfoStep.get data f)))
    PersonalInfoStep.keys.
Proof.
  unfold PersonalInfoStep.validateForm, PersonalInfoStep.keys.
  cbn [fold_left forallb].
  destruct (PersonalInfoStep.validateField PersonalInfoStep.FirstName _),
    (PersonalInfoStep.validateField PersonalInfoStep.LastName _),
    (PersonalInfoStep.validateField PersonalInfoStep.Email _); reflexivity.
Qed.

Lemma billingAddress_validateForm_snd (data : BillingAddressData) :
  snd (BillingAddressStep.validateForm data) =
  forallb
    (fun f =>
       SinglePageOnboarding.unset
         (BillingAddressStep.validateField data f
            (BillingAddressStep.get data f)))
    BillingAddressStep.requiredFields.
Proof.
  unfold BillingAddressStep.validateForm, BillingAddressStep.requiredFields.
  cbn [fold_left forallb].
  destruct
    (BillingAddressStep.validateField data BillingAddressStep.AddressLine1 _),
    (BillingAddressStep.validateField data BillingAddressStep.City _),
    (BillingAddressStep.validateField data BillingAddressStep.State _),
    (BillingAddressStep.validateField data BillingAddressStep.ZipCode _),
    (BillingAddressStep.validateField data BillingAddressStep.Country _);
    reflexivity.
Qed.

Lemma paymentInfo_validateForm_snd (now : Date) (data : PaymentInfoData) :
  snd (PaymentInfoStep.validateForm now data) =
  forallb
    (fun f =>
       SinglePageOnboarding.unset
         (PaymentInfoStep.validateField now f (PaymentInfoStep.get data f)))
    PaymentInfoStep.keys.
Proof.
  unfold PaymentInfoStep.validateForm, PaymentInfoStep.keys.
  cbn [fold_left forallb].
  destruct (PaymentInfoStep.validateField now PaymentInfoStep.CardNumber _),
    (PaymentInfoStep.validateField now PaymentInfoStep.ExpiryDate _),
    (PaymentInfoStep.validateField now PaymentInfoStep.Cvv _),
    (PaymentInfoStep.validateField now PaymentInfoStep.CardholderName _);
    reflexivity.
Qed.

Lemma accountSetup_validateForm_snd (data : AccountSetupData) :
  snd (AccountSetupStep.validateForm data) =
  (SinglePageOnboarding.unset
     (AccountSetupStep.passwordError (fst (AccountSetupStep.validateForm data)))
   && SinglePageOnboarding.unset
        (AccountSetupStep.confirmPasswordError
           (fst (AccountSetupStep.validateForm data))))%bool.
Proof.
  unfold AccountSetupStep.validateForm.
  destruct (negb (truthy (password data)));
    [|destruct (_ <? 5)];
    destruct (negb (truthy (confirmPassword data)));
    try destruct (negb (str_eqb _ _)); reflexivity.
Qed.

Lemma singlePage_validateForm_snd (d : OnboardingData) :
  snd (SinglePageOnboarding.validateForm d) =
  (forallb (singlePageAccepts d) allFormFields && termsAccepted d)%bool.
Proof.
  unfold SinglePageOnboarding.validateForm, singlePageAccepts, allFormFields.
  cbn [snd fst forallb
       SinglePageOnboarding.e_firstName SinglePageOnboarding.e_lastName
       SinglePageOnboarding.e_email SinglePageOnboarding.e_password
       SinglePageOnboarding.e_confirmPassword
       SinglePageOnboarding.e_addressLine1 SinglePageOnboarding.e_city
       SinglePageOnboarding.e_state SinglePageOnboarding.e_zipCode
       SinglePageOnboarding.e_country SinglePageOnboarding.e_cardNumber
       SinglePageOnboarding.e_expiryDate SinglePageOnboarding.e_cvv
       SinglePageOnboarding.e_cardholderName SinglePageOnboarding.e_terms].
  change (SinglePageOnboarding.unset None) with true.
  rewrite ?andb_true_r, ?andb_true_l.
  destruct (termsAccepted d); cbn [negb SinglePageOnboarding.unset];
    rewrite ?andb_true_r, ?andb_false_r, <- ?andb_assoc; reflexivity.
Qed.

End WholeForms.

(** X22.  A form that passes the wizard passes the single-page form: if
    the four step forms validate (the payment form at some date) and
    the terms are accepted, the single-page [validateForm] succeeds. *)
Theorem wizard_valid_implies_single_page_valid :
  forall (now : Date) (d : OnboardingData),
    snd (PersonalInfoStep.validateForm (personalInfo d)) = true ->
    snd (AccountSetupStep.validateForm (accountSetup d)) = true ->
    snd (BillingAddressStep.validateForm (billingAddress d)) = true ->
    snd (PaymentInfoStep.validateForm now (paymentInfo d)) = true ->
    termsAccepted d = true ->
    snd (SinglePageOnboarding.validateForm d) = true.
Proof.
  intros now d H1 H2 H3 H4 Ht.
  rewrite singlePage_validateForm_snd, Ht, andb_true_r.
  rewrite personalInfo_validateForm_snd in H1.
  rewrite accountSetup_validateForm_snd in H2.
  rewrite billingAddress_validateForm_snd in H3.
  rewrite paymentInfo_validateForm_snd in H4.
  unfold PersonalInfoStep.keys in H1.
  unfold BillingAddressStep.requiredFields in H3.
  unfold PaymentInfoStep.keys in H4.
  cbn [forallb] in H1, H3, H4.
  rewrite ?andb_true_r in H1, H3, H4.
  repeat match goal with
         | H : (_ && _)%bool = true |- _ => apply andb_true_iff in H as [? ?]
         end.
  apply forallb_forall. intros f _. apply (wizard_stricter now).
  destruct f as [[| |]| | |[| | | | |]|[| | |]];
    unfold multiStepAccepts; try assumption. reflexivity.
Qed.

Lemma wizard_valid_implies_single_page_valid_witness :
  snd (SinglePageOnboarding.validateForm
         (mkOnboardingData
            (mkPersonalInfo (lit "Ada") (lit "Lovelace")
               (lit "ada@example.org"))
            (mkAccountSetup (lit "Abcdef1!") (lit "Abcdef1!"))
            (mkBillingAddress (lit "1 Main St") [] (lit "Springfield")
               (lit "Illinois") (lit "12345") (lit "United States"))
            (mkPaymentInfo (lit "4111 1111 1111 1111") (lit "12/30")
               (lit "123") (lit "Ada Lovelace"))
            true)) = true.
Proof.
  refine (wizard_valid_implies_single_page_valid (mkDate 2026 10) _ _ _ _ _ _);
    vm_compute; reflexivity.
Defined.

(** X23.  Leaving a payment field marks it as touched and never clears
    a message: after [handleFieldBlur] the field shows an error exactly
    when it showed one before or its stored value is rejected by
    [validateField]; the other fields keep their flags and messages. *)
Theorem handleFieldBlur_marks_and_reports :
  forall (now : Date) (data : PaymentInfoData) (st : PaymentInfoStep.Local)
         (field : PaymentInfoStep.Field),
    PaymentInfoStep.touched
      (PaymentInfoStep.handleFieldBlur now data st field) field = true /\
    PaymentInfoStep.hasError
      (PaymentInfoStep.errors
         (PaymentInfoStep.handleFieldBlur now data st field) field) =
      (PaymentInfoStep.hasError (PaymentInfoStep.errors st field)
       || negb (SinglePageOnboarding.unset
                  (PaymentInfoStep.validateField now field
                     (PaymentInfoStep.get data field))))%bool /\
    (forall g,
       PaymentInfoStep.field_eqb g field = false ->
       PaymentInfoStep.touched
         (PaymentInfoStep.handleFieldBlur now data st field) g =
         PaymentInfoStep.touched st g /\
       PaymentInfoStep.errors
         (PaymentInfoStep.handleFieldBlur now data st field) g =
         PaymentInfoStep.errors st g).
Proof.
  intros now data st field.
  assert (Hrefl : PaymentInfoStep.field_eqb field field = true)
    by (destruct field; reflexivity).
  pose proof (validateField_message now field
                (PaymentInfoStep.get data field)) as Hm.
  unfold PaymentInfoStep.handleFieldBlur.
  destruct (PaymentInfoStep.validateField now field _) as [e|] eqn:V.
  - cbn [SinglePageOnboarding.unset negb] in *. rewrite Hm.
    cbn [PaymentInfoStep.touched PaymentInfoStep.errors].
    unfold PaymentInfoStep.setTouched, PaymentInfoStep.setError.
    rewrite Hrefl, Hm, orb_true_r.
    repeat split; intros; rewrite ?H; reflexivity.
  - cbn [PaymentInfoStep.touched PaymentInfoStep.errors
         SinglePageOnboarding.unset negb].
    unfold PaymentInfoStep.setTouched. rewrite Hrefl, orb_false_r.
    repeat split; intros; rewrite ?H; reflexivity.
Qed.

Lemma handleFieldBlur_marks_and_reports_witness :
  PaymentInfoStep.field_eqb PaymentInfoStep.Cvv PaymentInfoStep.CardNumber
    = false /\
  PaymentInfoStep.touched
    (PaymentInfoStep.handleFieldBlur (mkDate 2026 10)
       (mkPaymentInfo (lit "4111") [] [] [])
       (PaymentInfoStep.mkLocal (fun _ => None) (fun _ => false))
       PaymentInfoStep.CardNumber)
    PaymentInfoStep.Cvv = false.
Proof.
  split; [reflexivity|].
  exact (proj1
           (proj2 (proj2
              (handleFieldBlur_marks_and_reports (mkDate 2026 10)
                 (mkPaymentInfo (lit "4111") [] [] [])
                 (PaymentInfoStep.mkLocal (fun _ => None) (fun _ => false))
                 PaymentInfoStep.CardNumber))
              PaymentInfoStep.Cvv eq_refl)).
Defined.
